(** * Truncated, censored and hurdle count models
    (statsmodels/discrete/truncated_model.py)

    A shallow embedding of the likelihood adapters [GenericTruncated] and
    [GenericCensored], of the per-distribution [predict] methods and of the
    two-part [Hurdle] model, followed by the properties proved about them.

    Conventions of the embedding
    - numpy float64 scalars are an abstract carrier [F] with the operations
      the module uses (class [Float64]); every definition is written over
      that carrier, expression for expression, so an equation proved without
      arithmetic laws holds for any arithmetic.  Where a law is needed it is
      listed in the class [Float64Laws].  The real numbers are one instance,
      used for concrete evaluations.
    - a 1-d array is a [list F]; a 2-d array of scores is the list of its
      rows; a design matrix also records its column count (numpy's
      [shape[1]]), which survives the loss of all its rows.
    - [endog] holds counts and is a [list Z].
    - the base count models (Poisson, NegativeBinomialP, GeneralizedPoisson)
      and the optimizer live in other modules of the package; they appear
      here as records of functions ([CountClass], [CountModel.methods],
      [CountModel.fitting]); where a call into them can raise on what this
      module hands over, the function returns a [result].
    - Python exceptions are values of [exn] carried by [result]. *)

From Stdlib Require Import ZArith String Bool Lia Reals Lra DecimalString.
From Stdlib Require Import Permutation Sorted.
From Stdlib Require Import List.
Import ListNotations.

Set Implicit Arguments.

(** ** Exceptions *)

Inductive exn : Type :=
| ValueError (msg : string)
| TypeError (msg : string)
| NotImplementedError (msg : string)
| AttributeError (msg : string)
| IndexError (msg : string).

Inductive result (A : Type) : Type :=
| Ok (a : A)
| Raise (e : exn).

Arguments Ok {A} a.
Arguments Raise {A} e.

Definition bind {A B : Type} (m : result A) (k : A -> result B) : result B :=
  match m with
  | Ok a => k a
  | Raise e => Raise e
  end.

Notation "x <- m ;; k" := (bind m (fun x => k))
  (at level 61, m at next level, right associativity).

Notation "' pat <- m ;; k" := (bind m (fun x => match x with pat => k end))
  (at level 61, pat pattern, m at next level, right associativity).

Definition is_ok {A : Type} (m : result A) : bool :=
  match m with Ok _ => true | Raise _ => false end.

(** ** float64 scalars *)

Class Float64 (F : Type) : Type := {
  f0 : F;
  f1 : F;
  fadd : F -> F -> F;
  fsub : F -> F -> F;
  fmul : F -> F -> F;
  fdiv : F -> F -> F;
  fneg : F -> F;
  fexp : F -> F;
  flog : F -> F;
  fpow : F -> F -> F;
  fofZ : Z -> F;
  feqb : F -> F -> bool
}.

(** The identities of float64 arithmetic that the [truncation = -1] path
    relies on; IEEE arithmetic satisfies them, the last one up to the sign
    of a zero. *)
Class Float64Laws (F : Type) `{Float64 F} : Prop := {
  fsub_1_0 : fsub f1 f0 = f1;
  flog_1 : flog f1 = f0;
  fsub_0_r : forall x, fsub x f0 = x;
  fdiv_0_1 : fdiv f0 f1 = f0;
  fadd_0_r : forall x, fadd x f0 = x
}.

(** ** Arrays *)

Fixpoint zipw {A B C : Type} (f : A -> B -> C) (a : list A) (b : list B)
  : list C :=
  match a, b with
  | x :: a', y :: b' => f x y :: zipw f a' b'
  | _, _ => []
  end.

(** [range(n)] *)
Definition py_range (n : Z) : list Z :=
  map Z.of_nat (seq 0 (Z.to_nat n)).

(** [a[mask]]: rows of [a] where the boolean mask holds. *)
Fixpoint mask_select {A : Type} (a : list A) (mask : list bool) : list A :=
  match a, mask with
  | x :: a', b :: mask' =>
      if b then x :: mask_select a' mask' else mask_select a' mask'
  | _, _ => []
  end.

(** [np.nonzero(mask)[0]]: ascending positions where the mask holds. *)
Fixpoint nonzero_from (i : nat) (mask : list bool) : list nat :=
  match mask with
  | [] => []
  | b :: mask' =>
      if b then i :: nonzero_from (S i) mask' else nonzero_from (S i) mask'
  end.

Definition np_nonzero (mask : list bool) : list nat := nonzero_from 0 mask.

(** [a[idx]] for an integer index array; an index past the end raises. *)
Fixpoint take_idx {A : Type} (a : list A) (idx : list nat) : result (list A) :=
  match idx with
  | [] => Ok []
  | i :: idx' =>
      match nth_error a i with
      | None => Raise (IndexError "index out of bounds")
      | Some x => rest <- take_idx a idx' ;; Ok (x :: rest)
      end
  end.

(** Python slices [l[:k]] and [l[k:]]; a negative [k] counts from the end. *)
Definition slice_pos {A : Type} (l : list A) (k : Z) : nat :=
  if (k <? 0)%Z then Z.to_nat (Z.max 0 (Z.of_nat (length l) + k))
  else Z.to_nat k.

Definition slice_to {A : Type} (l : list A) (k : Z) : list A :=
  firstn (slice_pos l k) l.

Definition slice_from {A : Type} (l : list A) (k : Z) : list A :=
  skipn (slice_pos l k) l.

(** A design matrix: [shape1] columns and the list of its rows. *)
Record matrix (F : Type) : Type := {
  shape1 : nat;
  rows : list (list F)
}.

Definition matrix_wf {F : Type} (X : matrix F) : Prop :=
  Forall (fun r => length r = shape1 X) (rows X).

(** A scalar or a 1-d array (what [offset] and [exposure] may hold). *)
Inductive operand (F : Type) : Type :=
| Scal (x : F)
| Arr (v : list F).

Arguments Scal {F} x.
Arguments Arr {F} v.

Section Arrays.
Context {F : Type} `{Float64 F}.

Local Abbreviation vec := (list F) (only parsing).

Definition vadd (a b : vec) : vec := zipw fadd a b.
Definition vsub (a b : vec) : vec := zipw fsub a b.
Definition vmul (a b : vec) : vec := zipw fmul a b.
Definition vdiv (a b : vec) : vec := zipw fdiv a b.
Definition vexp (a : vec) : vec := map fexp a.
Definition vlog (a : vec) : vec := map flog a.
Definition vneg (a : vec) : vec := map fneg a.
(** [1 - a] *)
Definition one_minus (a : vec) : vec := map (fun x => fsub f1 x) a.

(** [np.sum], accumulated from the left. *)
Definition fsum (a : vec) : F := fold_left fadd a f0.

(** [np.zeros_like(endog, dtype=np.float64)] *)
Definition zeros_like {A : Type} (a : list A) : vec := repeat f0 (length a).

(** [np.zeros_like(m)] for a 2-d array *)
Definition zeros_like2 (m : list vec) : list vec :=
  map (fun r => repeat f0 (length r)) m.

Definition madd (a b : list vec) : list vec := zipw vadd a b.

(** [(m.T * v).T]: row [r] of [m] times [v[r]]. *)
Definition row_scale (m : list vec) (v : vec) : list vec :=
  zipw (fun row c => map (fun x => fmul x c) row) m v.

(** [(m.T / v).T]: row [r] of [m] divided by [v[r]]. *)
Definition row_div (m : list vec) (v : vec) : list vec :=
  zipw (fun row c => map (fun x => fdiv x c) row) m v.

(** [np.dot(X, v)]; the shapes must be aligned. *)
Definition row_dot (r v : vec) : F := fsum (zipw fmul r v).

Definition np_dot (X : matrix F) (v : vec) : result vec :=
  if Nat.eqb (length v) (shape1 X)
  then Ok (map (fun r => row_dot r v) (rows X))
  else Raise (ValueError "shapes not aligned").

(** [a + o] with numpy broadcasting of a 1-d array against a scalar or
    another 1-d array. *)
Definition badd (a : vec) (o : operand F) : result vec :=
  match o with
  | Scal x => Ok (map (fun y => fadd y x) a)
  | Arr w =>
      if Nat.eqb (length a) (length w) then Ok (vadd a w)
      else if Nat.eqb (length w) 1
           then Ok (map (fun y => fadd y (hd f0 w)) a)
      else if Nat.eqb (length a) 1
           then Ok (map (fun y => fadd (hd f0 a) y) w)
      else Raise (ValueError "operands could not be broadcast together")
  end.
End Arrays.

(** ** The base count models (discrete_model.py)

    A base model instance is its class together with the constructor
    arguments it was built from.  The truncated and censored adapters build
    fresh instances of the class of [model_main] on counterfactual
    responses. *)

Record BaseArgs (F : Type) : Type := {
  b_endog : list Z;
  b_exog : matrix F;
  b_offset : option (list F);
  b_exposure : option (list F);
  b_p : option F
}.

Record CountClass (F : Type) : Type := {
  (** the constructor [cls(endog, exog, offset=, exposure=, p=)]: what it
      raises on arguments it does not accept *)
  cls_init : BaseArgs F -> result unit;
  (** [loglikeobs(params)] *)
  cls_loglikeobs : BaseArgs F -> list F -> list F;
  (** [score_obs(params)], one row per observation *)
  cls_score_obs : BaseArgs F -> list F -> list (list F);
  (** [_prob_nonzero(mu, params)] *)
  cls_prob_nonzero : BaseArgs F -> list F -> list F -> result (list F);
  (** [predict(params, exog=, exposure=, offset=, which="prob", y_values=)] *)
  cls_predict_prob : BaseArgs F -> list F -> matrix F -> operand F ->
                     operand F -> option (list Z) -> list (list F);
  (** the attribute [k_extra] *)
  cls_k_extra : BaseArgs F -> Z;
  (** the attribute [parameterization]; an AttributeError where the class
      has none *)
  cls_parameterization : BaseArgs F -> result F;
  (** the attribute [parametrization], as TruncatedGeneralizedPoisson spells
      it; an AttributeError where the class has none *)
  cls_parametrization : BaseArgs F -> result F
}.

Record BaseModel (F : Type) : Type := {
  klass : CountClass F;
  args : BaseArgs F
}.

Module Base.
Section Calls.
Context {F : Type} `{Float64 F}.

(** [cls(endog, exog, offset=, exposure=, p=)] on data that the class sees
    for the first time: the constructor checks its arguments. *)
Definition new (c : CountClass F) (a : BaseArgs F) : result (BaseModel F) :=
  _ <- cls_init c a ;;
  Ok {| klass := c; args := a |}.

(** [cls(endog, exog)]: positional construction, every keyword at its
    default.  The adapters make this call on a response of the length of
    their own and on their own [exog], the sample on which the object that
    makes the call was itself constructed. *)
Definition construct (c : CountClass F) (endog : list Z) (exog : matrix F)
  : BaseModel F :=
  {| klass := c;
     args := {| b_endog := endog; b_exog := exog; b_offset := None;
                b_exposure := None; b_p := None |} |}.

Definition loglikeobs (m : BaseModel F) (params : list F) : list F :=
  cls_loglikeobs (klass m) (args m) params.

Definition score_obs (m : BaseModel F) (params : list F) : list (list F) :=
  cls_score_obs (klass m) (args m) params.

Definition _prob_nonzero (m : BaseModel F) (mu params : list F)
  : result (list F) :=
  cls_prob_nonzero (klass m) (args m) mu params.
End Calls.
End Base.

(** ** Fit calls and fit results

    The optimizer ([CountModel.fit]), the result classes and the covariance
    post-processing belong to other modules; the adapters only assemble the
    call.  A keyword that a caller does not pass is [None] in [FitCall], so
    that the callee's own default applies. *)

Definition kwargs : Type := list (string * string).

Record FitCall (F : Type) : Type := {
  fc_start_params : option (list F);
  fc_method : option string;
  fc_maxiter : option Z;
  fc_disp : option Z;
  fc_full_output : option Z;
  fc_kwargs : kwargs
}.

(** [mle_retvals['converged']]: a flag, or the two-element list Hurdle
    makes of the flags of its stages. *)
Inductive converged : Type :=
| Conv (b : bool)
| ConvPair (c1 c2 : converged).

Record Results (F : Type) : Type := {
  r_params : list F;
  r_converged : converged;
  r_df_model : F;
  r_k_extra : option Z;
  r_cov_params : list (list F);
  r_normalized_cov_params : list (list F);
  r_llnull : F;
  r_bse : list F
}.

(** [getattr(obj, name, 0)] on an attribute that holds an array when set;
    the integer default becomes 0.0 once added to a float array. *)
Definition getattr0 {F : Type} `{Float64 F} (a : option (list F)) : operand F :=
  match a with
  | None => Scal f0
  | Some v => Arr v
  end.

(** [a + b] on operands. *)
Definition oadd {F : Type} `{Float64 F} (a b : operand F) : result (operand F) :=
  match a with
  | Scal x =>
      match b with
      | Scal y => Ok (Scal (fadd x y))
      | Arr w => Ok (Arr (map (fun y => fadd x y) w))
      end
  | Arr v => r <- badd v b ;; Ok (Arr r)
  end.

(** [np.exp(o)] and [np.log(o)] on operands. *)
Definition oexp {F : Type} `{Float64 F} (o : operand F) : operand F :=
  match o with
  | Scal x => Scal (fexp x)
  | Arr v => Arr (vexp v)
  end.

Definition olog {F : Type} `{Float64 F} (o : operand F) : operand F :=
  match o with
  | Scal x => Scal (flog x)
  | Arr v => Arr (vlog v)
  end.

(** The start-value offset of [fit]:
    [offset = getattr(self, "offset", 0) + getattr(self, "exposure", 0)],
    then [None] when [np.size(offset) == 1 and offset == 0]. *)
Definition start_offset {F : Type} `{Float64 F}
    (offset exposure : option (list F)) : result (option (list F)) :=
  match offset, exposure with
  | None, None => Ok None
  | _, _ =>
      s <- oadd (getattr0 offset) (getattr0 exposure) ;;
      match s with
      | Scal x => if feqb x f0 then Ok None else Ok (Some [x])
      | Arr [x] => if feqb x f0 then Ok None else Ok (Some [x])
      | Arr v => Ok (Some v)
      end
  end.

(** ** CountModel *)

Module CountModel.
Section Defs.
Context {F : Type} `{Float64 F}.

(** The attributes of a count model that the adapters read. *)
Record t : Type := {
  endog : list Z;
  exog : matrix F;
  offset : option (list F);
  exposure : option (list F)
}.

(** Modelled from the spec: [CountModel.__init__] (discrete_model.py) is
    not part of this module.  It keeps the response vector and the design
    matrix row by row as given, keeps [offset], and stores the logarithm
    of [exposure], which is what is added to the linear predictor. *)
Definition __init__ (endog : list Z) (exog : matrix F)
    (offset exposure : option (list F)) : t :=
  {| endog := endog; exog := exog; offset := offset;
     exposure := option_map vlog exposure |}.

(** The inherited prediction methods the adapters call; they are defined
    in discrete_model.py.
    - [_get_predict_arrays(exog, offset, exposure)]
    - [predict(params, exog=exog)] *)
Record methods : Type := {
  _get_predict_arrays :
    t -> option (matrix F) -> option (operand F) -> option (operand F) ->
    matrix F * operand F * operand F;
  predict : t -> list F -> option (matrix F) -> result (list F)
}.

(** The fitting machinery the adapters call; it is defined in
    discrete_model.py and base/model.py.
    - [fit(start_params=, method=, ...)._results]: the optimizer, which
      sees the data and the per-observation likelihood and score
    - [model.fit(disp=0).params] on a base model, for start values
    - [self.result_wrapper(self.result(self, mlefit._results))]
    - [result._get_robustcov_results(cov_type, use_self=True, use_t,
      **cov_kwds)] *)
Record fitting : Type := {
  fit : t -> (list F -> result (list F)) ->
        (list F -> result (list (list F))) -> FitCall F -> Results F;
  base_fit_params : BaseModel F -> list F;
  wrap_result : t -> Results F -> Results F;
  _get_robustcov_results :
    Results F -> string -> option bool -> kwargs -> Results F
}.
End Defs.
Arguments t F : clear implicits.
Arguments methods F : clear implicits.
Arguments fitting F : clear implicits.
End CountModel.

(** ** GenericTruncated *)

Module GenericTruncated.
Section Defs.
Context {F : Type} `{Float64 F}.

(** [pmf(counts, mu, ..., trunc)] of a module of
    statsmodels.distributions.discrete; [extra] holds the dispersion
    arguments of the negative binomial. *)
Definition dist : Type :=
  list Z -> list F -> list F -> Z -> list (list F).

(** The subclass an object was created from ([type(self)]). *)
Inductive subclass : Type :=
| TruncatedPoisson
| TruncatedNegativeBinomialP
| TruncatedGeneralizedPoisson.

(** Attributes set by [GenericTruncated.__init__]. *)
Record fields : Type := {
  endog : list Z;
  exog : matrix F;
  offset : option (list F);
  exposure : option (list F);
  trunc : Z;
  truncation : Z
}.

(** The object once a subclass constructor has completed it. *)
Record t : Type := {
  self :> fields;
  pyclass : subclass;
  model_main : BaseModel F;
  k_extra : option Z;
  model_dist : option dist
}.

Definition __init__ (endog : list Z) (exog : matrix F) (truncation : Z)
    (offset exposure : option (list F)) : fields :=
  let super := CountModel.__init__ endog exog offset exposure in
  let mask := map (fun y => (truncation + 1 <=? y)%Z) (CountModel.endog super) in
  let exog' := {| shape1 := shape1 (CountModel.exog super);
                  rows := mask_select (rows (CountModel.exog super)) mask |} in
  let endog' := mask_select (CountModel.endog super) mask in
  {| endog := endog'; exog := exog';
     offset := CountModel.offset super;
     exposure := CountModel.exposure super;
     trunc := truncation; truncation := truncation |}.

(** One turn of the loop of [loglikeobs]. *)
Definition loglikeobs_step (m : t) (params : list F) (pmf : list F) (i : Z)
  : list F :=
  let model := Base.construct (klass (model_main m))
                         (map (fun one => (one * i)%Z) (map (fun _ => 1%Z) (endog m)))
                         (exog m) in
  vadd pmf (vexp (Base.loglikeobs model params)).

Definition loglikeobs (m : t) (params : list F) : list F :=
  let llf_main := Base.loglikeobs (model_main m) params in
  let pmf := fold_left (loglikeobs_step m params)
                       (py_range (trunc m + 1)) (zeros_like (endog m)) in
  vsub llf_main (vlog (one_minus pmf)).

Definition loglike (m : t) (params : list F) : F :=
  fsum (loglikeobs m params).

(** One turn of the loop of [score_obs]; the state is
    [(pmf, score_trunc)]. *)
Definition score_obs_step (m : t) (params : list F)
    (st : list F * list (list F)) (i : Z) : list F * list (list F) :=
  let '(pmf, score_trunc) := st in
  let model := Base.construct (klass (model_main m))
                         (map (fun one => (one * i)%Z) (map (fun _ => 1%Z) (endog m)))
                         (exog m) in
  let pmf_i := vexp (Base.loglikeobs model params) in
  let score_trunc := madd score_trunc
                          (row_scale (Base.score_obs model params) pmf_i) in
  let pmf := vadd pmf pmf_i in
  (pmf, score_trunc).

Definition score_obs (m : t) (params : list F) : list (list F) :=
  let score_main := Base.score_obs (model_main m) params in
  let '(pmf, score_trunc) :=
    fold_left (score_obs_step m params) (py_range (trunc m + 1))
              (zeros_like (endog m), zeros_like2 score_main) in
  madd score_main (row_div score_trunc (one_minus pmf)).

(** The view of the object that the inherited methods work on. *)
Definition as_CountModel (m : t) : CountModel.t F :=
  {| CountModel.endog := endog m; CountModel.exog := exog m;
     CountModel.offset := offset m; CountModel.exposure := exposure m |}.

Definition fit (fx : CountModel.fitting F) (m : t)
    (start_params : option (list F)) (method : string) (maxiter : Z)
    (full_output disp : Z) (cov_type : string) (cov_kwds : option kwargs)
    (use_t : option bool) (kwds : kwargs) : result (Results F) :=
  start_params <-
    match start_params with
    | None =>
        offset <- start_offset (offset m) (exposure m) ;;
        let model :=
          {| klass := klass (model_main m);
             args := {| b_endog := endog m; b_exog := exog m;
                        b_offset := offset; b_exposure := None;
                        b_p := None |} |} in
        Ok (CountModel.base_fit_params fx model)
    | Some sp => Ok sp
    end ;;
  let mlefit :=
    CountModel.fit fx (as_CountModel m)
      (fun p => Ok (loglikeobs m p)) (fun p => Ok (score_obs m p))
      {| fc_start_params := Some start_params;
         fc_method := Some method;
         fc_maxiter := Some maxiter;
         fc_disp := Some disp;
         fc_full_output := Some full_output;
         fc_kwargs := kwds |} in
  let result := CountModel.wrap_result fx (as_CountModel m) mlefit in
  let cov_kwds := match cov_kwds with None => [] | Some k => k end in
  Ok (CountModel._get_robustcov_results fx result cov_type use_t cov_kwds).
End Defs.
Arguments fields F : clear implicits.
Arguments t F : clear implicits.
Arguments dist F : clear implicits.
End GenericTruncated.

Coercion GenericTruncated.self : GenericTruncated.t >-> GenericTruncated.fields.

(** ** What [predict] returns *)

Inductive value (F : Type) : Type :=
| VVec (v : list F)
| VMat (m : list (list F))
| VArr3 (a : list (list (list F)))
| VNone.

Arguments VVec {F} v.
Arguments VMat {F} m.
Arguments VArr3 {F} a.
Arguments VNone {F}.

(** The array of a prediction that returned a 1-d array. *)
Definition vec_of {F : Type} (r : result (value F)) : list F :=
  match r with
  | Ok (VVec v) => v
  | _ => []
  end.

(** The 2-d array of a prediction that returned one. *)
Definition mat_of {F : Type} (r : result (value F)) : list (list F) :=
  match r with
  | Ok (VMat m) => m
  | _ => []
  end.

(** [np.max(a)]; an empty array has no maximum. *)
Definition np_max (a : list Z) : result Z :=
  match a with
  | [] => Raise (ValueError "zero-size array to reduction operation maximum")
  | x :: a' => Ok (fold_left Z.max a' x)
  end.

(** [params[-1]] *)
Definition last_param {F : Type} (params : list F) : result F :=
  match rev params with
  | [] => Raise (IndexError "index -1 is out of bounds")
  | x :: _ => Ok x
  end.

(** [a[:, None]] on a 2-d array. *)
Definition add_axis1 {F : Type} (m : list (list F)) : list (list (list F)) :=
  map (fun r => [r]) m.

Section PredictCommon.
Context {F : Type} `{Float64 F}.

(** The opening of the truncated [predict] methods:
    [_get_predict_arrays], [fitted] and [linpred]. *)
Definition linear_predictor (ext : CountModel.methods F)
    (m : GenericTruncated.t F) (params : list F)
    (exog : option (matrix F)) (exposure offset : option (operand F))
  : result (matrix F * operand F * operand F * list F) :=
  let '(exog, offset, exposure) :=
    CountModel._get_predict_arrays ext (GenericTruncated.as_CountModel m)
                                   exog offset exposure in
  fitted <- np_dot exog (firstn (shape1 exog) params) ;;
  s <- badd fitted exposure ;;
  linpred <- badd s offset ;;
  Ok (exog, offset, exposure, linpred).

(** [counts] of the branches ['prob'] and ['prob-main']. *)
Definition prob_counts (m : GenericTruncated.t F)
    (count_prob : option (list Z)) : result (list Z) :=
  match count_prob with
  | Some c => Ok c
  | None =>
      mx <- np_max (GenericTruncated.endog m) ;;
      Ok (py_range (mx + 1))
  end.

(** [prob_tregion], [mean_tregion] and [mnc2_tregion] over the truncated
    region [0..truncation]. *)
Definition prob_tregion (probs : list (list F)) : list F := map fsum probs.

Definition mean_tregion (truncation : Z) (probs : list (list F)) : list F :=
  map (fun row =>
         fsum (zipw (fun j q => fmul (fofZ j) q)
                    (py_range (truncation + 1)) row)) probs.

(** [a**2] *)
Definition vsquare (a : list F) : list F :=
  map (fun x => fpow x (fofZ 2)) a.

Definition mnc2_tregion (truncation : Z) (probs : list (list F)) : list F :=
  map (fun row =>
         fsum (zipw (fun j q => fmul (fofZ (j ^ 2)) q)
                    (py_range (truncation + 1)) row)) probs.
End PredictCommon.

(** ** TruncatedPoisson *)

Module TruncatedPoisson.
Section Defs.
Context {F : Type} `{Float64 F}.
(** [discrete_model.Poisson] and [distributions.discrete.truncatedpoisson] *)
Variable Poisson : CountClass F.
Variable truncatedpoisson : GenericTruncated.dist F.
Variable ext : CountModel.methods F.

(** [Poisson(self.endog, self.exog, exposure=exposure, offset=offset)]
    is called on the retained rows with [offset] and [exposure] as they
    were passed, one entry per row of the input. *)
Definition __init__ (endog : list Z) (exog : matrix F)
    (offset exposure : option (list F)) (truncation : Z)
  : result (GenericTruncated.t F) :=
  let self := GenericTruncated.__init__ endog exog truncation
                                        offset exposure in
  model_main <- Base.new Poisson
                  {| b_endog := GenericTruncated.endog self;
                     b_exog := GenericTruncated.exog self;
                     b_offset := offset; b_exposure := exposure;
                     b_p := None |} ;;
  Ok {| GenericTruncated.self := self;
        GenericTruncated.pyclass := GenericTruncated.TruncatedPoisson;
        GenericTruncated.model_main := model_main;
        GenericTruncated.k_extra := None;
        GenericTruncated.model_dist := Some truncatedpoisson |}.

(** [self.predict(..., which="mean-main")] as the branch ['prob'] calls
    it. *)
Definition predict_mean_main (m : GenericTruncated.t F) (params : list F)
    (exog : option (matrix F)) (exposure offset : option (operand F))
  : result (list F) :=
  '(_, _, _, linpred) <- linear_predictor ext m params exog exposure offset ;;
  Ok (vexp linpred).

Definition predict (m : GenericTruncated.t F) (params : list F)
    (exog : option (matrix F)) (exposure offset : option (operand F))
    (which : string) (count_prob : option (list Z)) : result (value F) :=
  '(exog, offset, exposure, linpred) <-
    linear_predictor ext m params exog exposure offset ;;
  let truncation := GenericTruncated.truncation m in
  let model_main := GenericTruncated.model_main m in
  if (which =? "mean")%string then
    let mu := vexp linpred in
    if (truncation =? 0)%Z then
      Ok (VVec (vdiv mu (one_minus (vexp (vneg (vexp linpred))))))
    else if (truncation =? -1)%Z then
      Ok (VVec mu)
    else if (0 <? truncation)%Z then
      let counts := py_range (truncation + 1) in
      let probs := cls_predict_prob (klass model_main) (args model_main)
                     params exog (oexp exposure) offset (Some counts) in
      let mean := vdiv (vsub mu (mean_tregion truncation probs))
                       (one_minus (prob_tregion probs)) in
      Ok (VVec mean)
    else Ok VNone
  else if (which =? "linear")%string then
    Ok (VVec linpred)
  else if (which =? "mean-main")%string then
    Ok (VVec (vexp linpred))
  else if (which =? "prob")%string then
    counts <- prob_counts m count_prob ;;
    mu <- predict_mean_main m params (Some exog) (Some (oexp exposure))
                            (Some offset) ;;
    match GenericTruncated.model_dist m with
    | Some d => Ok (VMat (d counts mu [] (GenericTruncated.trunc m)))
    | None => Raise (AttributeError "'NoneType' object has no attribute 'pmf'")
    end
  else if (which =? "prob-main")%string then
    counts <- prob_counts m count_prob ;;
    let probs := cls_predict_prob (klass model_main) (args model_main)
                   params exog (oexp exposure) offset None in
    Ok (VArr3 (add_axis1 probs))
  else if (which =? "var")%string then
    let mu := vexp linpred in
    let counts := py_range (truncation + 1) in
    let probs := cls_predict_prob (klass model_main) (args model_main)
                   params exog (oexp exposure) offset (Some counts) in
    let mean := vdiv (vsub mu (mean_tregion truncation probs))
                     (one_minus (prob_tregion probs)) in
    let mnc2 := vdiv (vsub (vadd (vsquare mu) mu)
                           (mnc2_tregion truncation probs))
                     (one_minus (prob_tregion probs)) in
    Ok (VVec (vsub mnc2 (vsquare mean)))
  else
    Raise (TypeError ("argument wich == " ++ which ++ " not handled")).
End Defs.
End TruncatedPoisson.

(** ** TruncatedNegativeBinomialP *)

Module TruncatedNegativeBinomialP.
Section Defs.
Context {F : Type} `{Float64 F}.
(** [discrete_model.NegativeBinomialP] and
    [distributions.discrete.truncatednegbin] *)
Variable NegativeBinomialP : CountClass F.
Variable truncatednegbin : GenericTruncated.dist F.
Variable ext : CountModel.methods F.

Definition __init__ (endog : list Z) (exog : matrix F)
    (offset exposure : option (list F)) (truncation : Z) (p : F)
  : result (GenericTruncated.t F) :=
  let self := GenericTruncated.__init__ endog exog truncation
                                        offset exposure in
  model_main <- Base.new NegativeBinomialP
                  {| b_endog := GenericTruncated.endog self;
                     b_exog := GenericTruncated.exog self;
                     b_offset := offset; b_exposure := exposure;
                     b_p := Some p |} ;;
  Ok {| GenericTruncated.self := self;
        GenericTruncated.pyclass :=
          GenericTruncated.TruncatedNegativeBinomialP;
        GenericTruncated.model_main := model_main;
        GenericTruncated.k_extra :=
          Some (cls_k_extra (klass model_main) (args model_main));
        GenericTruncated.model_dist := Some truncatednegbin |}.

(** [(1 + alpha * mu**(p-1))**(- 1 / alpha)] *)
Definition prob_zero (alpha p : F) (mu : list F) : list F :=
  map (fun x => fpow (fadd f1 (fmul alpha (fpow x (fsub p f1))))
                     (fdiv (fneg f1) alpha)) mu.

Definition predict_mean_main (m : GenericTruncated.t F) (params : list F)
    (exog : option (matrix F)) (exposure offset : option (operand F))
  : result (list F) :=
  '(_, _, _, linpred) <- linear_predictor ext m params exog exposure offset ;;
  _ <- last_param params ;;
  Ok (vexp linpred).

Definition predict (m : GenericTruncated.t F) (params : list F)
    (exog : option (matrix F)) (exposure offset : option (operand F))
    (which : string) (count_prob : option (list Z)) : result (value F) :=
  '(exog, offset, exposure, linpred) <-
    linear_predictor ext m params exog exposure offset ;;
  alpha <- last_param params ;;
  let truncation := GenericTruncated.truncation m in
  let model_main := GenericTruncated.model_main m in
  let parameterization :=
    cls_parameterization (klass model_main) (args model_main) in
  if (which =? "mean")%string then
    let mu := vexp linpred in
    if (truncation =? 0)%Z then
      p <- parameterization ;;
      Ok (VVec (vdiv mu (one_minus (prob_zero alpha p mu))))
    else if (truncation =? -1)%Z then
      Ok (VVec mu)
    else if (0 <? truncation)%Z then
      let counts := py_range (truncation + 1) in
      let probs := cls_predict_prob (klass model_main) (args model_main)
                     params exog (oexp exposure) offset (Some counts) in
      let mean := vdiv (vsub mu (mean_tregion truncation probs))
                       (one_minus (prob_tregion probs)) in
      Ok (VVec mean)
    else Ok VNone
  else if (which =? "linear")%string then
    Ok (VVec linpred)
  else if (which =? "mean-main")%string then
    Ok (VVec (vexp linpred))
  else if (which =? "prob")%string then
    counts <- prob_counts m count_prob ;;
    mu <- predict_mean_main m params (Some exog) (Some (oexp exposure))
                            (Some offset) ;;
    p <- parameterization ;;
    match GenericTruncated.model_dist m with
    | Some d => Ok (VMat (d counts mu [alpha; p] (GenericTruncated.trunc m)))
    | None => Raise (AttributeError "'NoneType' object has no attribute 'pmf'")
    end
  else if (which =? "prob-main")%string then
    counts <- prob_counts m count_prob ;;
    let probs := cls_predict_prob (klass model_main) (args model_main)
                   params exog (oexp exposure) offset (Some counts) in
    Ok (VArr3 (add_axis1 probs))
  else if (which =? "var")%string then
    let mu := vexp linpred in
    let counts := py_range (truncation + 1) in
    let probs := cls_predict_prob (klass model_main) (args model_main)
                   params exog (oexp exposure) offset (Some counts) in
    let mean := vdiv (vsub mu (mean_tregion truncation probs))
                     (one_minus (prob_tregion probs)) in
    p <- parameterization ;;
    let vm := map (fun x => fmul x (fadd f1 (fmul alpha (fpow x (fsub p f1)))))
                  mu in
    let mnc2 := vdiv (vsub (vadd (vsquare mu) vm)
                           (mnc2_tregion truncation probs))
                     (one_minus (prob_tregion probs)) in
    Ok (VVec (vsub mnc2 (vsquare mean)))
  else
    Raise (TypeError ("argument wich == " ++ which ++ " not handled")).
End Defs.
End TruncatedNegativeBinomialP.

(** ** TruncatedGeneralizedPoisson *)

Module TruncatedGeneralizedPoisson.
Section Defs.
Context {F : Type} `{Float64 F}.
(** [discrete_model.GeneralizedPoisson] *)
Variable GeneralizedPoisson : CountClass F.

Definition __init__ (endog : list Z) (exog : matrix F)
    (offset exposure : option (list F)) (truncation : Z) (p : F)
  : result (GenericTruncated.t F) :=
  let self := GenericTruncated.__init__ endog exog truncation
                                        offset exposure in
  model_main <- Base.new GeneralizedPoisson
                  {| b_endog := GenericTruncated.endog self;
                     b_exog := GenericTruncated.exog self;
                     b_offset := offset; b_exposure := exposure;
                     b_p := Some p |} ;;
  Ok {| GenericTruncated.self := self;
        GenericTruncated.pyclass :=
          GenericTruncated.TruncatedGeneralizedPoisson;
        GenericTruncated.model_main := model_main;
        GenericTruncated.k_extra :=
          Some (cls_k_extra (klass model_main) (args model_main));
        GenericTruncated.model_dist := None |}.

(** The opening of [predict]: defaults of [exog], [exposure], [offset],
    then [fitted] and [linpred].  [exposure != 0] is a truth test, defined
    for a scalar and for an array of one element. *)
Definition linear_pred (m : GenericTruncated.t F) (params : list F)
    (exog : option (matrix F)) (exposure offset : option (operand F))
  : result (matrix F * operand F * operand F * list F) :=
  let exog := match exog with
              | None => GenericTruncated.exog m
              | Some X => X
              end in
  exposure <-
    match exposure with
    | None => Ok (getattr0 (GenericTruncated.exposure m))
    | Some (Scal x) =>
        if negb (feqb x f0) then Ok (olog (Scal x)) else Ok (Scal x)
    | Some (Arr [x]) =>
        if negb (feqb x f0) then Ok (olog (Arr [x])) else Ok (Arr [x])
    | Some (Arr _) =>
        Raise (ValueError "The truth value of an array is ambiguous")
    end ;;
  let offset := match offset with
                | None => getattr0 (GenericTruncated.offset m)
                | Some o => o
                end in
  fitted <- np_dot exog (firstn (shape1 exog) params) ;;
  s <- badd fitted exposure ;;
  linpred <- badd s offset ;;
  Ok (exog, offset, exposure, linpred).

Definition predict (m : GenericTruncated.t F) (params : list F)
    (exog : option (matrix F)) (exposure offset : option (operand F))
    (which : string) (count_prob : option (list Z)) : result (value F) :=
  '(exog, offset, exposure, linpred) <-
    linear_pred m params exog exposure offset ;;
  let truncation := GenericTruncated.truncation m in
  if (which =? "mean")%string then
    if (truncation =? 0)%Z then
      Ok (VVec (vdiv (vexp linpred)
                     (one_minus (vexp (vneg (vexp linpred))))))
    else if (truncation =? -1)%Z then
      Ok (VVec (vexp linpred))
    else if (0 <? truncation)%Z then
      Raise (NotImplementedError "conditional mean not implemented")
    else Ok VNone
  else if (which =? "linear")%string then
    Ok (VVec linpred)
  else if (which =? "mean-main")%string then
    Ok (VVec (vexp linpred))
  else if (which =? "prob")%string then
    counts <- prob_counts m count_prob ;;
    '(_, _, _, linpred') <-
      linear_pred m params (Some exog) (Some exposure) (Some offset) ;;
    let mu := vexp linpred' in
    let model_main := GenericTruncated.model_main m in
    p <- cls_parametrization (klass model_main) (args model_main) ;;
    match GenericTruncated.model_dist m with
    | Some d =>
        alpha <- last_param params ;;
        Ok (VMat (d counts mu [alpha; p] (GenericTruncated.trunc m)))
    | None =>
        Raise (AttributeError "'NoneType' object has no attribute 'pmf'")
    end
  else
    Raise (TypeError ("argument wich == " ++ which ++ " not handled")).
End Defs.
End TruncatedGeneralizedPoisson.

(** ** GenericCensored and its subclasses *)

Module GenericCensored.
Section Defs.
Context {F : Type} `{Float64 F}.

(** Attributes set by [GenericCensored.__init__]. *)
Record fields : Type := {
  endog : list Z;
  exog : matrix F;
  offset : option (list F);
  exposure : option (list F);
  zero_idx : list nat;
  nonzero_idx : list nat
}.

Record t : Type := {
  self :> fields;
  model_main : BaseModel F;
  model_dist : option (GenericTruncated.dist F)
}.

Definition __init__ (endog : list Z) (exog : matrix F)
    (offset exposure : option (list F)) : fields :=
  let zero_idx := np_nonzero (map (fun y => (y =? 0)%Z) endog) in
  let nonzero_idx := np_nonzero (map (fun y => negb (y =? 0)%Z) endog) in
  let super := CountModel.__init__ endog exog offset exposure in
  {| endog := CountModel.endog super; exog := CountModel.exog super;
     offset := CountModel.offset super;
     exposure := CountModel.exposure super;
     zero_idx := zero_idx; nonzero_idx := nonzero_idx |}.

Definition loglikeobs (m : t) (params : list F) : result (list F) :=
  let llf_main := Base.loglikeobs (model_main m) params in
  z <- take_idx llf_main (zero_idx m) ;;
  nz <- take_idx llf_main (nonzero_idx m) ;;
  Ok (z ++ vlog (one_minus (vexp nz))).

Definition loglike (m : t) (params : list F) : result F :=
  llf <- loglikeobs m params ;;
  Ok (fsum llf).

Definition score_obs (m : t) (params : list F) : result (list (list F)) :=
  let score_main := Base.score_obs (model_main m) params in
  let llf_main := Base.loglikeobs (model_main m) params in
  z <- take_idx score_main (zero_idx m) ;;
  snz <- take_idx score_main (nonzero_idx m) ;;
  lnz <- take_idx llf_main (nonzero_idx m) ;;
  Ok (z ++ zipw (fun row c => map (fun x => fdiv (fmul x (fneg (fexp c)))
                                             (fsub f1 (fexp c))) row)
                snz lnz).

Definition as_CountModel (m : t) : CountModel.t F :=
  {| CountModel.endog := endog m; CountModel.exog := exog m;
     CountModel.offset := offset m; CountModel.exposure := exposure m |}.

Definition fit (fx : CountModel.fitting F) (m : t)
    (start_params : option (list F)) (method : string) (maxiter : Z)
    (full_output disp : Z) (cov_type : string) (cov_kwds : option kwargs)
    (use_t : option bool) (kwds : kwargs) : result (Results F) :=
  start_params <-
    match start_params with
    | None =>
        offset <- start_offset (offset m) (exposure m) ;;
        let model :=
          {| klass := klass (model_main m);
             args := {| b_endog := endog m; b_exog := exog m;
                        b_offset := offset; b_exposure := None;
                        b_p := None |} |} in
        Ok (CountModel.base_fit_params fx model)
    | Some sp => Ok sp
    end ;;
  let mlefit :=
    CountModel.fit fx (as_CountModel m)
      (loglikeobs m) (score_obs m)
      {| fc_start_params := Some start_params;
         fc_method := None;
         fc_maxiter := Some maxiter;
         fc_disp := Some disp;
         fc_full_output := Some full_output;
         fc_kwargs := kwds |} in
  let result := CountModel.wrap_result fx (as_CountModel m) mlefit in
  let cov_kwds := match cov_kwds with None => [] | Some k => k end in
  Ok (CountModel._get_robustcov_results fx result cov_type use_t cov_kwds).
End Defs.
Arguments fields F : clear implicits.
Arguments t F : clear implicits.
End GenericCensored.

Coercion GenericCensored.self : GenericCensored.t >-> GenericCensored.fields.

Module Censored.
Section Defs.
Context {F : Type} `{Float64 F}.

Definition __init__ (endog : list Z) (exog : matrix F)
    (model : CountClass F) (distribution : GenericTruncated.dist F)
    (offset exposure : option (list F)) : GenericCensored.t F :=
  let self := GenericCensored.__init__ endog exog offset exposure in
  {| GenericCensored.self := self;
     GenericCensored.model_main :=
       Base.construct model
         (map (fun _ => 0%Z) (GenericCensored.endog self))
         (GenericCensored.exog self);
     GenericCensored.model_dist := Some distribution |}.

Definition _prob_nonzero (m : GenericCensored.t F) (mu params : list F)
  : result (list F) :=
  Base._prob_nonzero (GenericCensored.model_main m) mu params.
End Defs.
End Censored.

Module CensoredPoisson.
Section Defs.
Context {F : Type} `{Float64 F}.
Variable Poisson : CountClass F.

Definition __init__ (endog : list Z) (exog : matrix F)
    (offset exposure : option (list F)) : GenericCensored.t F :=
  let self := GenericCensored.__init__ endog exog offset exposure in
  {| GenericCensored.self := self;
     GenericCensored.model_main :=
       Base.construct Poisson
         (map (fun _ => 0%Z) (GenericCensored.endog self))
         (GenericCensored.exog self);
     GenericCensored.model_dist := None |}.
End Defs.
End CensoredPoisson.

Module CensoredGeneralizedPoisson.
Section Defs.
Context {F : Type} `{Float64 F}.
Variable GeneralizedPoisson : CountClass F.

Definition __init__ (endog : list Z) (exog : matrix F)
    (offset : option (list F)) (p : F) (exposure : option (list F))
  : GenericCensored.t F :=
  let self := GenericCensored.__init__ endog exog offset exposure in
  {| GenericCensored.self := self;
     GenericCensored.model_main :=
       Base.construct GeneralizedPoisson
         (map (fun _ => 0%Z) (GenericCensored.endog self))
         (GenericCensored.exog self);
     GenericCensored.model_dist := None |}.
End Defs.
End CensoredGeneralizedPoisson.

Module CensoredNegativeBinomialP.
Section Defs.
Context {F : Type} `{Float64 F}.
Variable NegativeBinomialP : CountClass F.

Definition __init__ (endog : list Z) (exog : matrix F)
    (offset : option (list F)) (p : F) (exposure : option (list F))
  : GenericCensored.t F :=
  let self := GenericCensored.__init__ endog exog offset exposure in
  {| GenericCensored.self := self;
     GenericCensored.model_main :=
       {| klass := NegativeBinomialP;
          args := {| b_endog := map (fun _ => 0%Z) (GenericCensored.endog self);
                     b_exog := GenericCensored.exog self;
                     b_offset := None; b_exposure := None;
                     b_p := Some p |} |};
     GenericCensored.model_dist := None |}.
End Defs.
End CensoredNegativeBinomialP.

(** ** Hurdle *)

(** The double-quote character. *)
Definition dquote : string := String (Ascii.ascii_of_nat 34) EmptyString.

(** [s.lower()] on ASCII strings. *)
Definition lower_ascii (c : Ascii.ascii) : Ascii.ascii :=
  let n := Ascii.nat_of_ascii c in
  if andb (Nat.leb 65 n) (Nat.leb n 90) then Ascii.ascii_of_nat (n + 32) else c.

Fixpoint lower (s : string) : string :=
  match s with
  | EmptyString => EmptyString
  | String c s' => String (lower_ascii c) (lower s')
  end.

(** [scipy.linalg.block_diag(a, b)] *)
Definition block_diag {F : Type} `{Float64 F} (a b : list (list F))
  : list (list F) :=
  let wa := length (hd [] a) in
  let wb := length (hd [] b) in
  map (fun r => r ++ repeat f0 wb) a ++ map (fun r => repeat f0 wa ++ r) b.

(** [m[:, 0] = v] *)
Fixpoint set_col0 {F : Type} (m : list (list F)) (v : list F)
  : result (list (list F)) :=
  match m, v with
  | [], [] => Ok []
  | (_ :: r) :: m', x :: v' =>
      rest <- set_col0 m' v' ;; Ok ((x :: r) :: rest)
  | [] :: _, _ => Raise (IndexError "index 0 is out of bounds for axis 1")
  | _, _ => Raise (ValueError "could not broadcast input array")
  end.

Module Hurdle.
Section Defs.
Context {F : Type} `{Float64 F}.
Variable Poisson : CountClass F.
Variable NegativeBinomialP : CountClass F.
Variable truncatedpoisson : GenericTruncated.dist F.
Variable truncatednegbin : GenericTruncated.dist F.
Variable ext : CountModel.methods F.
Variable fx : CountModel.fitting F.

Record t : Type := {
  endog : list Z;
  exog : matrix F;
  offset : option (list F);
  exposure : option (list F);
  k_extra1 : Z;
  k_extra2 : Z;
  k_extra : option Z;
  model1 : GenericCensored.t F;
  model2 : GenericTruncated.t F
}.

(** [HurdleResults]: the combined results and those of the two stages. *)
Record HurdleResults : Type := {
  results : Results F;
  results_model1 : Results F;
  results_model2 : Results F;
  df_resid : Z
}.

Definition llnull (r : HurdleResults) : F :=
  fadd (r_llnull (results_model1 r)) (r_llnull (results_model2 r)).

Definition bse (r : HurdleResults) : list F :=
  r_bse (results_model1 r) ++ r_bse (results_model2 r).

Definition in_list (s : string) (l : list string) : bool :=
  existsb (String.eqb s) l.

(** The message of [_initialize]:
    ['dist and zerodist must be "poisson","negbin"']. *)
Definition tags_message : string :=
  ("dist and zerodist must be " ++ dquote ++ "poisson" ++ dquote ++ ","
   ++ dquote ++ "negbin" ++ dquote)%string.

(** [self.model2 = TruncatedPoisson(self.endog, self.exog)] or
    [TruncatedNegativeBinomialP(self.endog, self.exog, p=p)] *)
Definition positive_stage (dist : string) (p : F) (endog : list Z)
    (exog : matrix F) : result (GenericTruncated.t F) :=
  if (dist =? "poisson")%string
  then TruncatedPoisson.__init__ Poisson truncatedpoisson
                                 endog exog None None 0
  else TruncatedNegativeBinomialP.__init__ NegativeBinomialP truncatednegbin
                                 endog exog None None 0 p.

(** [__init__] with [_initialize]: the tags are checked first, then both
    stages are built on the data of the hurdle model, without offset or
    exposure; what the constructor of the positive stage raises leaves
    [__init__]. *)
Definition __init__ (endog : list Z) (exog : matrix F)
    (offset : option (list F)) (dist zerodist : string) (p pzero : F)
    (exposure : option (list F)) : result t :=
  let super := CountModel.__init__ endog exog offset exposure in
  let self_endog := CountModel.endog super in
  let self_exog := CountModel.exog super in
  if orb (negb (in_list dist ["poisson"; "negbin"]%string))
         (negb (in_list zerodist ["poisson"; "negbin"]%string))
  then Raise (NotImplementedError tags_message)
  else
    let model1 :=
      if (zerodist =? "poisson")%string
      then Censored.__init__ self_endog self_exog Poisson
                             truncatedpoisson None None
      else Censored.__init__ self_endog self_exog NegativeBinomialP
                             truncatedpoisson None None in
    model2 <- positive_stage dist p self_endog self_exog ;;
    Ok {| endog := self_endog; exog := self_exog;
          offset := CountModel.offset super;
          exposure := CountModel.exposure super;
          k_extra1 := 0; k_extra2 := 0; k_extra := None;
          model1 := model1; model2 := model2 |}.

Definition loglike (m : t) (params : list F) : result F :=
  let k := (Z.quot (Z.of_nat (length params) - k_extra1 m - k_extra2 m) 2
            + k_extra1 m)%Z in
  l1 <- GenericCensored.loglike (model1 m) (slice_to params k) ;;
  Ok (fadd l1 (GenericTruncated.loglike (model2 m) (slice_from params k))).

(** [getattr(results._results, "k_extra", 0)] *)
Definition getattr_k_extra (r : Results F) : Z :=
  match r_k_extra r with
  | Some k => k
  | None => 0%Z
  end.

Definition fit (m : t)
    (start_params : option (list F)) (method : string) (maxiter : Z)
    (full_output disp : Z) (cov_type : string) (cov_kwds : option kwargs)
    (use_t : option bool) (kwds : kwargs) : result (t * HurdleResults) :=
  results1 <- GenericCensored.fit fx (model1 m) start_params method maxiter
                full_output disp "nonrobust" None None kwds ;;
  results2 <- GenericTruncated.fit fx (model2 m) start_params method maxiter
                full_output disp "nonrobust" None None kwds ;;
  let k_extra1' := (k_extra1 m + getattr_k_extra results1)%Z in
  let k_extra2' := (k_extra2 m + getattr_k_extra results2)%Z in
  let m' :=
    {| endog := endog m; exog := exog m; offset := offset m;
       exposure := exposure m;
       k_extra1 := k_extra1';
       k_extra2 := k_extra2';
       k_extra := Some (k_extra1' + k_extra2' + 1)%Z;
       model1 := model1 m; model2 := model2 m |} in
  let result :=
    {| r_params := r_params results1 ++ r_params results2;
       r_converged := ConvPair (r_converged results1) (r_converged results2);
       r_df_model := fadd (r_df_model results1) (r_df_model results2);
       r_k_extra := r_k_extra results1;
       (* cov_params() reads normalized_cov_params *)
       r_cov_params :=
         block_diag (r_cov_params results1) (r_cov_params results2);
       r_normalized_cov_params :=
         block_diag (r_cov_params results1) (r_cov_params results2);
       r_llnull := r_llnull results1;
       r_bse := r_bse results1 |} in
  let modelfit :=
    {| results := result;
       results_model1 := results1;
       results_model2 := results2;
       df_resid := (Z.of_nat (length (endog m'))
                    - Z.of_nat (length (r_params result)))%Z |} in
  let cov_kwds := match cov_kwds with None => [] | Some k => k end in
  Ok (m',
      {| results :=
           CountModel._get_robustcov_results fx (results modelfit)
                                             cov_type use_t cov_kwds;
         results_model1 := results_model1 modelfit;
         results_model2 := results_model2 modelfit;
         df_resid := df_resid modelfit |}).

Definition as_CountModel (m : t) : CountModel.t F :=
  {| CountModel.endog := endog m; CountModel.exog := exog m;
     CountModel.offset := offset m; CountModel.exposure := exposure m |}.

(** [self.exog], where a local [exog] hides the attribute. *)
Definition self_exog (m : t) : matrix F := exog m.

(** [self.model2.predict(...)]: the method of the class of [model2]. *)
Definition model2_predict (m2 : GenericTruncated.t F) (params : list F)
    (exog : option (matrix F)) (exposure offset : option (operand F))
    (which : string) (count_prob : option (list Z)) : result (value F) :=
  match GenericTruncated.pyclass m2 with
  | GenericTruncated.TruncatedPoisson =>
      TruncatedPoisson.predict ext m2 params exog exposure offset
                               which count_prob
  | GenericTruncated.TruncatedNegativeBinomialP =>
      TruncatedNegativeBinomialP.predict ext m2 params exog exposure offset
                               which count_prob
  | GenericTruncated.TruncatedGeneralizedPoisson =>
      TruncatedGeneralizedPoisson.predict m2 params exog exposure offset
                               which count_prob
  end.

(** The body of [predict] from [lin_pred] on, given the two parameter
    blocks. *)
Definition predict_stages (m : t) (params_zero params_main : list F)
    (exog : matrix F) (exposure offset : operand F)
    (which : string) (y_values : option (list Z)) : result (value F) :=
  d <- np_dot exog (firstn (shape1 (self_exog m)) params_main) ;;
  s <- badd d exposure ;;
  lin_pred <- badd s offset ;;
  mu1 <- CountModel.predict ext
           (GenericCensored.as_CountModel (model1 m))
           params_zero (Some exog) ;;
  prob_main <- Base._prob_nonzero (GenericCensored.model_main (model1 m))
                                  mu1 params_zero ;;
  let prob_zero := one_minus prob_main in
  let mu2 := vexp lin_pred in
  prob_ntrunc <- Base._prob_nonzero
                   (GenericCensored.model_main (model1 m))
                   mu2 params_main ;;
  if (which =? "mean")%string then
    Ok (VVec (vdiv (vmul prob_main (vexp lin_pred)) prob_ntrunc))
  else if (which =? "mean-main")%string then
    Ok (VVec (vexp lin_pred))
  else if (which =? "linear")%string then
    Ok (VVec lin_pred)
  else if (which =? "mean-nonzero")%string then
    Ok (VVec (vdiv (vexp lin_pred) prob_ntrunc))
  else if (which =? "prob-zero")%string then
    Ok (VVec prob_zero)
  else if (which =? "prob-main")%string then
    Ok (VVec prob_main)
  else if (which =? "prob-trunc")%string then
    Ok (VVec (one_minus prob_ntrunc))
  else if (which =? "prob")%string then
    r <- model2_predict (model2 m) params_main (Some exog)
           (Some (oexp exposure)) (Some offset) "prob" y_values ;;
    match r with
    | VMat probs_main =>
        let probs_main := row_scale probs_main prob_main in
        probs_main <- set_col0 probs_main prob_zero ;;
        Ok (VMat probs_main)
    | _ => Raise (TypeError "unsupported operand")
    end
  else
    Raise (ValueError ("which = " ++ which ++ " is not available")).

Definition predict (m : t) (params : list F)
    (exog exog_zero : option (matrix F))
    (exposure offset : option (operand F))
    (which : string) (y_values : option (list Z)) : result (value F) :=
  let which := lower which in
  let no_exog := match exog with None => true | Some _ => false end in
  let '(exog, offset, exposure) :=
    CountModel._get_predict_arrays ext (as_CountModel m)
                                   exog offset exposure in
  let exog_zero :=
    match exog_zero with
    | None => if no_exog then self_exog m else exog
    | Some z => z
    end in
  let k_zeros := (Z.quot (Z.of_nat (length params) - k_extra1 m - k_extra2 m) 2
                  + k_extra1 m)%Z in
  let params_zero := slice_to params k_zeros in
  let params_main := slice_from params k_zeros in
  predict_stages m params_zero params_main exog exposure offset
                 which y_values.

(** [n] calls of [fit] on one instance, with the same arguments. *)
Fixpoint fit_n (n : nat) (m : t)
    (start_params : option (list F)) (method : string) (maxiter : Z)
    (full_output disp : Z) (cov_type : string) (cov_kwds : option kwargs)
    (use_t : option bool) (kwds : kwargs) : result t :=
  match n with
  | O => Ok m
  | S n' =>
      '(m', _) <- fit m start_params method maxiter full_output disp
                      cov_type cov_kwds use_t kwds ;;
      fit_n n' m' start_params method maxiter full_output disp
            cov_type cov_kwds use_t kwds
  end.
End Defs.
Arguments t F : clear implicits.
Arguments HurdleResults F : clear implicits.
End Hurdle.

(** ** The loops of [loglikeobs] and [score_obs], entry by entry *)

Section LoopEntries.
Context {F : Type} `{Float64 F}.

(** The model that one turn of the loops builds,
    [self.model_main.__class__(np.ones_like(self.endog) * i, self.exog)]:
    the class of [model_main] on the response [i] in every row and on
    [self.exog].  Offset, exposure and parameterization of [model_main]
    are not handed over. *)
Definition counterfactual (m : GenericTruncated.t F) (i : Z) : BaseModel F :=
  Base.construct (klass (GenericTruncated.model_main m))
                 (map (fun _ => i) (GenericTruncated.endog m))
                 (GenericTruncated.exog m).

(** [pmf_i] of the loops, for observation [r]. *)
Definition pmf_at (m : GenericTruncated.t F) (params : list F)
    (i : Z) (r : nat) : F :=
  fexp (nth r (Base.loglikeobs (counterfactual m i) params) f0).

(** Entry [(r, j)] of [model.score_obs(params)] in turn [i] of the loop. *)
Definition score_at (m : GenericTruncated.t F) (params : list F)
    (i : Z) (r j : nat) : F :=
  nth j (nth r (Base.score_obs (counterfactual m i) params) []) f0.

(** Entry [(r, j)] of [score_main]. *)
Definition score_main_at (m : GenericTruncated.t F) (params : list F)
    (r j : nat) : F :=
  nth j (nth r (Base.score_obs (GenericTruncated.model_main m) params) []) f0.

(** [pmf] after the loop, for observation [r]. *)
Definition sum_pmf (m : GenericTruncated.t F) (params : list F) (r : nat) : F :=
  fsum (map (fun i => pmf_at m params i r)
            (py_range (GenericTruncated.trunc m + 1))).

(** [score_trunc] after the loop, entry [(r, j)]. *)
Definition sum_pmf_score (m : GenericTruncated.t F) (params : list F)
    (r j : nat) : F :=
  fsum (map (fun i => fmul (score_at m params i r j) (pmf_at m params i r))
            (py_range (GenericTruncated.trunc m + 1))).

(** The shapes a base class returns on the design matrix [X] with [n]
    observations: one log-likelihood and one score row of [k] entries per
    observation. *)
Definition shape_contract (c : CountClass F) (params : list F)
    (X : matrix F) (n k : nat) : Prop :=
  forall a : BaseArgs F,
    b_exog a = X -> length (b_endog a) = n ->
    length (cls_loglikeobs c a params) = n /\
    length (cls_score_obs c a params) = n /\
    Forall (fun row => length row = k) (cls_score_obs c a params).

(** [model_main] was built on the data the adapter holds. *)
Definition main_on_data (m : GenericTruncated.t F) : Prop :=
  b_exog (args (GenericTruncated.model_main m)) = GenericTruncated.exog m /\
  length (b_endog (args (GenericTruncated.model_main m)))
  = length (GenericTruncated.endog m).
End LoopEntries.

(** ** The documented formulas

    These definitions follow the wording of the documentation, entry by
    entry; the theorems below compare them with the code. *)

Section Documented.
Context {F : Type} `{Float64 F}.

(** The base distribution in the context of the observations, on the
    counterfactual response [i]: [model_main] with its response replaced
    by [i] in every row, on the same [exog], offset and exposure and with
    the same parameterization. *)
Definition in_context (m : GenericTruncated.t F) (i : Z) : BaseModel F :=
  let main := GenericTruncated.model_main m in
  {| klass := klass main;
     args := {| b_endog := map (fun _ => i) (b_endog (args main));
                b_exog := b_exog (args main);
                b_offset := b_offset (args main);
                b_exposure := b_exposure (args main);
                b_p := b_p (args main) |} |}.

(** [pmf_i]: the probability of the count [i] for observation [r]. *)
Definition pmf_in_context (m : GenericTruncated.t F) (params : list F)
    (i : Z) (r : nat) : F :=
  fexp (nth r (Base.loglikeobs (in_context m i) params) f0).

(** [score_main_at_i]: entry [(r, j)] of the base score at the
    counterfactual count [i]. *)
Definition score_in_context (m : GenericTruncated.t F) (params : list F)
    (i : Z) (r j : nat) : F :=
  nth j (nth r (Base.score_obs (in_context m i) params) []) f0.

(** [Σ_{i=0}^{trunc} pmf_i] of observation [r]. *)
Definition sum_pmf_in_context (m : GenericTruncated.t F) (params : list F)
    (r : nat) : F :=
  fsum (map (fun i => pmf_in_context m params i r)
            (py_range (GenericTruncated.trunc m + 1))).

(** [Σ_{i=0}^{trunc} pmf_i · score_main_at_i], entry [(r, j)]. *)
Definition sum_pmf_score_in_context (m : GenericTruncated.t F)
    (params : list F) (r j : nat) : F :=
  fsum (map (fun i => fmul (score_in_context m params i r j)
                           (pmf_in_context m params i r))
            (py_range (GenericTruncated.trunc m + 1))).

(** The score as documented:
    [score_main - (Σ_i pmf_i · score_main_at_i) / (1 - Σ_i pmf_i)]. *)
Definition score_obs_documented (m : GenericTruncated.t F) (params : list F)
    (r j : nat) : F :=
  fsub (score_main_at m params r j)
       (fdiv (sum_pmf_score_in_context m params r j)
             (fsub f1 (sum_pmf_in_context m params r))).

(** The gradient of [log f(y|x) - log(1 - Σ_i pmf_i)]:
    [score_main + (Σ_i pmf_i · score_main_at_i) / (1 - Σ_i pmf_i)]. *)
Definition score_obs_gradient (m : GenericTruncated.t F) (params : list F)
    (r j : nat) : F :=
  fadd (score_main_at m params r j)
       (fdiv (sum_pmf_score_in_context m params r j)
             (fsub f1 (sum_pmf_in_context m params r))).

(** The model that the loops rebuild from the count and [exog] alone
    stands for the base distribution in the context of the observations:
    over the truncated region the two have the same likelihood and the
    same score.  This is so where [model_main] carries no offset, no
    exposure and no parameterization of its own. *)
Definition context_kept (m : GenericTruncated.t F) (params : list F) : Prop :=
  forall i : Z,
    In i (py_range (GenericTruncated.trunc m + 1)) ->
    Base.loglikeobs (counterfactual m i) params
    = Base.loglikeobs (in_context m i) params /\
    Base.score_obs (counterfactual m i) params
    = Base.score_obs (in_context m i) params.

(** [model_main] was built with every keyword at its default. *)
Definition default_context (m : GenericTruncated.t F) : Prop :=
  b_offset (args (GenericTruncated.model_main m)) = None /\
  b_exposure (args (GenericTruncated.model_main m)) = None /\
  b_p (args (GenericTruncated.model_main m)) = None.
End Documented.

Module HurdleDocumented.
Section Defs.
Context {F : Type} `{Float64 F}.

(** [k = (len(params) - k_extra1 - k_extra2)/2 + k_extra1] *)
Definition split_index (m : Hurdle.t F) (params : list F) : Z :=
  (Z.quot (Z.of_nat (length params) - Hurdle.k_extra1 m - Hurdle.k_extra2 m) 2
   + Hurdle.k_extra1 m)%Z.

(** The composite mean as documented: [prob_main · mean_main / prob_ntrunc]
    with [prob_ntrunc] the mass above the threshold under the
    distribution of the positive stage, [model2]. *)
Definition mean (ext : CountModel.methods F) (m : Hurdle.t F)
    (params_zero params_main : list F)
    (exog : matrix F) (lin_pred : list F) : result (value F) :=
  mu1 <- CountModel.predict ext
           (GenericCensored.as_CountModel (Hurdle.model1 m))
           params_zero (Some exog) ;;
  prob_main <-
    Base._prob_nonzero (GenericCensored.model_main (Hurdle.model1 m))
                       mu1 params_zero ;;
  let mean_main := vexp lin_pred in
  prob_ntrunc <-
    Base._prob_nonzero (GenericTruncated.model_main (Hurdle.model2 m))
                       mean_main params_main ;;
  Ok (VVec (vdiv (vmul prob_main mean_main) prob_ntrunc)).

(** The instance [m] with [k_extra1] and [k_extra2] holding [k1] and
    [k2]. *)
Definition with_k_extra (m : Hurdle.t F) (k1 k2 : Z) : Hurdle.t F :=
  {| Hurdle.endog := Hurdle.endog m; Hurdle.exog := Hurdle.exog m;
     Hurdle.offset := Hurdle.offset m; Hurdle.exposure := Hurdle.exposure m;
     Hurdle.k_extra1 := k1; Hurdle.k_extra2 := k2;
     Hurdle.k_extra := Hurdle.k_extra m;
     Hurdle.model1 := Hurdle.model1 m; Hurdle.model2 := Hurdle.model2 m |}.

(** ['prob-trunc'] as documented, with the parameters of the positive part
    passed to the positive stage: one minus the mass above the threshold
    under the distribution of [model2] at [params_main]. *)
Definition prob_trunc (m : Hurdle.t F) (params_main lin_pred : list F)
  : result (value F) :=
  prob_ntrunc <-
    Base._prob_nonzero (GenericTruncated.model_main (Hurdle.model2 m))
                       (vexp lin_pred) params_main ;;
  Ok (VVec (one_minus prob_ntrunc)).

(** The instance [m] with another truncated model as its positive
    stage. *)
Definition with_model2 (m : Hurdle.t F) (model2 : GenericTruncated.t F)
  : Hurdle.t F :=
  {| Hurdle.endog := Hurdle.endog m; Hurdle.exog := Hurdle.exog m;
     Hurdle.offset := Hurdle.offset m; Hurdle.exposure := Hurdle.exposure m;
     Hurdle.k_extra1 := Hurdle.k_extra1 m;
     Hurdle.k_extra2 := Hurdle.k_extra2 m;
     Hurdle.k_extra := Hurdle.k_extra m;
     Hurdle.model1 := Hurdle.model1 m; Hurdle.model2 := model2 |}.

(** The position of count 0 among the requested counts. *)
Fixpoint index_of_zero (counts : list Z) : option nat :=
  match counts with
  | [] => None
  | c :: counts' =>
      if (c =? 0)%Z then Some O
      else option_map S (index_of_zero counts')
  end.
End Defs.
End HurdleDocumented.

(** ** The real numbers as scalars, and a Poisson base model over them

    Concrete evaluations are carried out over the real numbers, with the
    Poisson base distribution and the inherited prediction methods written
    out. *)

Module RealModel.

Definition Req_bool (x y : R) : bool :=
  if Req_dec_T x y then true else false.

#[global] Instance Float64_R : Float64 R := {|
  f0 := 0%R;
  f1 := 1%R;
  fadd := Rplus;
  fsub := Rminus;
  fmul := Rmult;
  fdiv := Rdiv;
  fneg := Ropp;
  fexp := exp;
  flog := ln;
  fpow := Rpower;
  fofZ := IZR;
  feqb := Req_bool
|}.

Definition operand_at (o : operand R) (r : nat) : R :=
  match o with
  | Scal x => x
  | Arr v => nth r v 0%R
  end.

Definition attr_at (a : option (list R)) (r : nat) : R :=
  match a with
  | None => 0%R
  | Some v => nth r v 0%R
  end.

(** [zip(range(len(l)), l)] *)
Definition enumerate {A : Type} (l : list A) : list (nat * A) :=
  combine (seq 0 (length l)) l.

(** Modelled from the spec: the pmf of the Poisson base distribution,
    [P(Y = y) = e^{-μ} μ^y / y!]. *)
Definition poisson_pmf (mu : R) (y : Z) : R :=
  (exp (- mu) * mu ^ Z.to_nat y / INR (fact (Z.to_nat y)))%R.

(** Modelled from the spec: the linear predictor of a base model,
    [η = xβ + offset + log(exposure)], row by row. *)
Definition Poisson_eta (a : BaseArgs R) (params : list R) : list R :=
  map (fun '(r, row) =>
         (row_dot row params + attr_at (b_offset a) r
          + attr_at (option_map vlog (b_exposure a)) r)%R)
      (enumerate (rows (b_exog a))).

(** Modelled from the spec: the constructor of a base count model
    (discrete_model.py, not part of this module) takes an observation set:
    a response vector with at least one entry, a design matrix with one
    row per observation and, where given, an offset and an exposure with
    one entry per observation.  It raises ValueError on anything else. *)
Definition fits_sample (n : nat) (a : option (list R)) : bool :=
  match a with
  | None => true
  | Some v => Nat.eqb (length v) n
  end.

Definition check_sample (a : BaseArgs R) : result unit :=
  let n := length (b_endog a) in
  if Nat.eqb n 0 then
    Raise (ValueError "zero-size array to reduction operation maximum")
  else if negb (Nat.eqb (length (rows (b_exog a))) n) then
    Raise (ValueError "endog and exog matrices are different sizes")
  else if negb (fits_sample n (b_offset a)) then
    Raise (ValueError "offset is not the same length as endog")
  else if negb (fits_sample n (b_exposure a)) then
    Raise (ValueError "exposure is not the same length as endog")
  else Ok tt.

(** Modelled from the spec: the Poisson base distribution
    ([discrete_model.Poisson], not part of this module), a count
    distribution exposing [loglikeobs], [score_obs] and [predict] over a
    fixed (endog, exog) pair, with mean [μ = exp(η)],
    [log f(y|x) = -μ + y·η - log(y!)], score [(y - μ)·x] and
    [P(Y > 0) = 1 - e^{-μ}]. *)
Definition Poisson : CountClass R := {|
  cls_init := check_sample;
  cls_loglikeobs := fun a params =>
    zipw (fun y eta =>
            (- exp eta + IZR y * eta - ln (INR (fact (Z.to_nat y))))%R)
         (b_endog a) (Poisson_eta a params);
  cls_score_obs := fun a params =>
    zipw (fun y '(eta, row) => map (fun x => ((IZR y - exp eta) * x)%R) row)
         (b_endog a) (combine (Poisson_eta a params) (rows (b_exog a)));
  cls_prob_nonzero := fun a mu params =>
    Ok (map (fun x => (1 - exp (- x))%R) mu);
  cls_predict_prob := fun a params X exposure offset y_values =>
    let counts := match y_values with
                  | Some c => c
                  | None => py_range (fold_left Z.max (b_endog a) 0%Z + 1)
                  end in
    map (fun '(r, row) =>
           let mu := exp (row_dot row params + operand_at offset r
                          + ln (operand_at exposure r))%R in
           map (poisson_pmf mu) counts)
        (enumerate (rows X));
  cls_k_extra := fun a => 0%Z;
  cls_parameterization := fun a =>
    Raise (AttributeError "'Poisson' object has no attribute 'parameterization'");
  cls_parametrization := fun a =>
    Raise (AttributeError "'Poisson' object has no attribute 'parametrization'")
|}.

(** Modelled from the spec: [truncatedpoisson.pmf(counts, mu, trunc)]
    ([distributions.discrete], not part of this module): the Poisson pmf
    scaled by the truncation normalizer, [pmf(k) = 0] for
    [k <= truncation]. *)
Definition truncatedpoisson : GenericTruncated.dist R :=
  fun counts mu extra trunc =>
    map (fun x =>
           map (fun y =>
                  if (y <=? trunc)%Z then 0%R
                  else (poisson_pmf x y
                        / (1 - fsum (map (poisson_pmf x) (py_range (trunc + 1)))))%R)
               counts)
        mu.

(** Modelled from the spec: [_get_predict_arrays] and [predict] of
    [CountModel] (discrete_model.py, not part of this module).  Without
    [exog] the data, offset and exposure of the model are used; with it,
    offset defaults to zero and exposure to one; a given exposure is
    logged.  [predict] returns the mean, exp of the linear predictor
    [np.dot(exog, params[:exog.shape[1]]) + exposure + offset], and raises
    ValueError where the product is not defined. *)
Definition methods : CountModel.methods R := {|
  CountModel._get_predict_arrays := fun view exog offset exposure =>
    match exog with
    | None =>
        (CountModel.exog view,
         match offset with
         | None => getattr0 (CountModel.offset view)
         | Some o => o
         end,
         match exposure with
         | None => getattr0 (CountModel.exposure view)
         | Some e => olog e
         end)
    | Some X =>
        (X,
         match offset with None => Scal 0%R | Some o => o end,
         match exposure with None => Scal 0%R | Some e => olog e end)
    end;
  CountModel.predict := fun view params exog =>
    match exog with
    | None =>
        d <- np_dot (CountModel.exog view)
                    (firstn (shape1 (CountModel.exog view)) params) ;;
        Ok (map (fun '(r, x) =>
                   exp (x + attr_at (CountModel.exposure view) r
                        + attr_at (CountModel.offset view) r)%R)
                (enumerate d))
    | Some X =>
        d <- np_dot X (firstn (shape1 X) params) ;;
        Ok (vexp d)
    end
|}.

(** Modelled from the spec: the optimizer and the result wrappers are
    external collaborators (base/model.py, discrete_model.py, not part of
    this module).  This instance stands in for them where [fit] is
    evaluated on concrete data, with the start values that [fit] computes
    itself: a base model whose fit returns one zero per column of [exog]
    and per extra parameter of its class, an optimizer that stops at its
    start values, as [maxiter=0] does, results without an attribute
    [k_extra] (no result class of this module defines one, and
    [Hurdle.fit] reads it with a default), and wrappers that leave the
    results as they are. *)
Definition fitting : CountModel.fitting R := {|
  CountModel.fit := fun view ll sc call =>
    let start := match fc_start_params call with
                 | Some sp => sp
                 | None => repeat 0%R (shape1 (CountModel.exog view))
                 end in
    {| r_params := start;
       r_converged := Conv false;
       r_df_model := IZR (Z.of_nat (shape1 (CountModel.exog view)) - 1);
       r_k_extra := None;
       r_cov_params := [];
       r_normalized_cov_params := [];
       r_llnull := 0%R;
       r_bse := [] |};
  CountModel.base_fit_params := fun model =>
    repeat 0%R (shape1 (b_exog (args model))
                + Z.to_nat (cls_k_extra (klass model) (args model)));
  CountModel.wrap_result := fun view r => r;
  CountModel._get_robustcov_results := fun r cov_type use_t cov_kwds => r
|}.

End RealModel.

(** The negative binomial base class over the reals.  Its likelihood, score
    and pmf, which the mean predictions do not call, are arguments. *)
Module RealNegativeBinomialP.
Section Class.
Variable nb_loglikeobs : BaseArgs R -> list R -> list R.
Variable nb_score_obs : BaseArgs R -> list R -> list (list R).
Variable nb_predict_prob :
  BaseArgs R -> list R -> matrix R -> operand R -> operand R ->
  option (list Z) -> list (list R).

(** Modelled from the spec: the attribute [parameterization] of
    [discrete_model.NegativeBinomialP] (not part of this module), the
    dispersion-parameterization tag [p], 2 unless given. *)
Definition parameterization (a : BaseArgs R) : R :=
  match b_p a with
  | Some p => p
  | None => 2%R
  end.

(** Modelled from the spec: [_prob_nonzero] of the negative binomial base
    distribution ([discrete_model.NegativeBinomialP], not part of this
    module): one minus the probability of zero
    [(1 + alpha * mu**(p-1))**(-1/alpha)], where [alpha] is the last
    parameter and [p] the parameterization. *)
Definition NegativeBinomialP : CountClass R := {|
  cls_init := RealModel.check_sample;
  cls_loglikeobs := nb_loglikeobs;
  cls_score_obs := nb_score_obs;
  cls_prob_nonzero := fun a mu params =>
    alpha <- last_param params ;;
    let p := parameterization a in
    Ok (map (fun x =>
               (1 - Rpower (1 + alpha * Rpower x (p - 1)) (- (1) / alpha))%R)
            mu);
  cls_predict_prob := nb_predict_prob;
  cls_k_extra := fun a => 1%Z;
  cls_parameterization := fun a => Ok (parameterization a);
  cls_parametrization := fun a =>
    Raise (AttributeError "no attribute 'parametrization'")
|}.
End Class.
End RealNegativeBinomialP.

(** ** Concrete inputs *)

Module Inputs.
Import RealModel.

Definition X1 : matrix R := {| shape1 := 1; rows := [[1%R]] |}.
Definition X2 : matrix R := {| shape1 := 1; rows := [[1%R]; [1%R]] |}.
Definition X4 : matrix R :=
  {| shape1 := 1; rows := [[1%R]; [2%R]; [3%R]; [4%R]] |}.

(** Zero-truncated Poisson on one observation [y = 1], [x = 1]. *)
Definition tp0 : result (GenericTruncated.t R) :=
  TruncatedPoisson.__init__ Poisson truncatedpoisson [1%Z] X1 None None 0.

(** The same data with [truncation = -1]. *)
Definition tp_untruncated : result (GenericTruncated.t R) :=
  TruncatedPoisson.__init__ Poisson truncatedpoisson [1%Z] X1 None None (-1).

(** The same data with the offset [[1]]. *)
Definition tp_offset : result (GenericTruncated.t R) :=
  TruncatedPoisson.__init__ Poisson truncatedpoisson [1%Z] X1
                            (Some [1%R]) None 0.

(** A censored Poisson model on [endog = [0, 2, 0, 5]]. *)
Definition cens4 : GenericCensored.t R :=
  Censored.__init__ [0; 2; 0; 5]%Z X4 Poisson truncatedpoisson None None.

(** A truncated model with [truncation = 2] for the [predict] of
    TruncatedGeneralizedPoisson; the Poisson class stands for the base
    class, which the branch ['mean'] does not consult. *)
Definition tgp2 : result (GenericTruncated.t R) :=
  TruncatedGeneralizedPoisson.__init__ Poisson [3%Z] X1 None None 2 2%R.

(** Hurdle models on [endog = [0, 1]] with a constant regressor. *)
Section Hurdles.
Variable NegativeBinomialP : CountClass R.
Variable truncatednegbin : GenericTruncated.dist R.

Definition hurdle_init (dist zerodist : string) : result (Hurdle.t R) :=
  Hurdle.__init__ Poisson NegativeBinomialP truncatedpoisson truncatednegbin
                  [0; 1]%Z X2 None dist zerodist 2%R 2%R None.
End Hurdles.

(** Both stages Poisson; the negative binomial arguments are not used. *)
Definition hurdle_pp : result (Hurdle.t R) :=
  hurdle_init Poisson truncatedpoisson "poisson" "poisson".

End Inputs.

(** ** How a censored model is created *)

Inductive censored_ctor {F : Type} `{Float64 F} (endog : list Z)
    (exog : matrix F) (offset exposure : option (list F))
  : GenericCensored.t F -> Prop :=
| by_Censored (model : CountClass F) (distribution : GenericTruncated.dist F) :
    censored_ctor endog exog offset exposure
      (Censored.__init__ endog exog model distribution offset exposure)
| by_CensoredPoisson (Poisson : CountClass F) :
    censored_ctor endog exog offset exposure
      (CensoredPoisson.__init__ Poisson endog exog offset exposure)
| by_CensoredGeneralizedPoisson (GeneralizedPoisson : CountClass F) (p : F) :
    censored_ctor endog exog offset exposure
      (CensoredGeneralizedPoisson.__init__ GeneralizedPoisson
                                           endog exog offset p exposure)
| by_CensoredNegativeBinomialP (NegativeBinomialP : CountClass F) (p : F) :
    censored_ctor endog exog offset exposure
      (CensoredNegativeBinomialP.__init__ NegativeBinomialP
                                          endog exog offset p exposure).

(** ** fit_regularized

    [GenericTruncated.fit_regularized] and [GenericCensored.fit_regularized]
    have the same text.  The penalized optimizer, the penalized fit of the
    base model and the result wrappers are defined in other modules. *)

(** [maxiter]: an iteration count or the name ['defined_by_method']. *)
Inductive iterations : Type :=
| IterName (s : string)
| IterCount (n : Z).

Record RegCall (F : Type) : Type := {
  rc_start_params : option (list F);
  rc_method : string;
  rc_maxiter : iterations;
  rc_full_output : Z;
  rc_disp : Z;
  rc_alpha : operand F;
  rc_trim_mode : string;
  rc_auto_trim_tol : F;
  rc_size_trim_tol : F;
  rc_qc_tol : F;
  rc_kwargs : kwargs
}.

(** - [model.fit_regularized(...).params] on a base model
    - [super(CountModel, self).fit_regularized(...)]
    - [self.result_reg_wrapper(self.result_reg(self, cntfit))]
    The two fits validate their arguments and may raise. *)
Record regularized (F : Type) : Type := {
  reg_base_params : BaseModel F -> RegCall F -> result (list F);
  reg_fit : CountModel.t F -> (list F -> result (list F)) ->
            (list F -> result (list (list F))) -> RegCall F ->
            result (Results F);
  reg_wrap : CountModel.t F -> Results F -> Results F
}.

Module Regularized.
Section Defs.
Context {F : Type} `{Float64 F}.

(** [if np.size(alpha) == 1 and alpha != 0:
       alpha = alpha * np.ones(self.exog.shape[1])] *)
Definition expand_alpha (exog : matrix F) (alpha : operand F) : operand F :=
  match alpha with
  | Scal a =>
      if negb (feqb a f0) then Arr (repeat (fmul a f1) (shape1 exog))
      else Scal a
  | Arr [a] =>
      if negb (feqb a f0) then Arr (repeat (fmul a f1) (shape1 exog))
      else Arr [a]
  | Arr v => Arr v
  end.

(** The body shared by the two classes, on the attributes it reads. *)
Definition fit_regularized (rx : regularized F) (view : CountModel.t F)
    (model_main : BaseModel F)
    (loglikeobs : list F -> result (list F))
    (score_obs : list F -> result (list (list F)))
    (start_params : option (list F)) (method : string)
    (maxiter : iterations) (full_output disp : Z) (alpha : operand F)
    (trim_mode : string) (auto_trim_tol size_trim_tol qc_tol : F)
    (kwds : kwargs) : result (Results F) :=
  let alpha := expand_alpha (CountModel.exog view) alpha in
  let alpha_p := alpha in
  start_params <-
    match start_params with
    | None =>
        offset <- start_offset (CountModel.offset view)
                               (CountModel.exposure view) ;;
        let model :=
          {| klass := klass model_main;
             args := {| b_endog := CountModel.endog view;
                        b_exog := CountModel.exog view;
                        b_offset := offset; b_exposure := None;
                        b_p := None |} |} in
        reg_base_params rx model
          {| rc_start_params := None; rc_method := method;
             rc_maxiter := maxiter; rc_full_output := full_output;
             rc_disp := 0; rc_alpha := alpha_p;
             rc_trim_mode := trim_mode;
             rc_auto_trim_tol := auto_trim_tol;
             rc_size_trim_tol := size_trim_tol; rc_qc_tol := qc_tol;
             rc_kwargs := kwds |}
    | Some sp => Ok sp
    end ;;
  cntfit <-
    reg_fit rx view loglikeobs score_obs
      {| rc_start_params := Some start_params; rc_method := method;
         rc_maxiter := maxiter; rc_full_output := full_output;
         rc_disp := disp; rc_alpha := alpha;
         rc_trim_mode := trim_mode;
         rc_auto_trim_tol := auto_trim_tol;
         rc_size_trim_tol := size_trim_tol; rc_qc_tol := qc_tol;
         rc_kwargs := kwds |} ;;
  if existsb (String.eqb method) ["l1"; "l1_cvxopt_cp"]%string then
    Ok (reg_wrap rx view cntfit)
  else
    Raise (TypeError ("argument method == " ++ method
                      ++ ", which is not handled")).

Definition GenericTruncated_fit_regularized (rx : regularized F)
    (m : GenericTruncated.t F) :=
  fit_regularized rx (GenericTruncated.as_CountModel m)
    (GenericTruncated.model_main m)
    (fun p => Ok (GenericTruncated.loglikeobs m p))
    (fun p => Ok (GenericTruncated.score_obs m p)).

Definition GenericCensored_fit_regularized (rx : regularized F)
    (m : GenericCensored.t F) :=
  fit_regularized rx (GenericCensored.as_CountModel m)
    (GenericCensored.model_main m)
    (GenericCensored.loglikeobs m) (GenericCensored.score_obs m).
End Defs.
End Regularized.

(** Modelled from the spec: the regularized (L1) optimizer and the
    regularized result wrappers are external collaborators.  This instance
    stands in for them where [fit_regularized] is evaluated on concrete
    data: a penalized optimizer that stops at its start values, a base
    model whose penalized fit returns zeros, and wrappers that leave the
    results as they are. *)
Definition RealRegularized : regularized R := {|
  reg_base_params := fun model call =>
    Ok (repeat 0%R (shape1 (b_exog (args model))));
  reg_fit := fun view ll sc call =>
    let start := match rc_start_params call with
                 | Some sp => sp
                 | None => repeat 0%R (shape1 (CountModel.exog view))
                 end in
    Ok {| r_params := start;
          r_converged := Conv false;
          r_df_model := IZR (Z.of_nat (shape1 (CountModel.exog view)) - 1);
          r_k_extra := None;
          r_cov_params := [];
          r_normalized_cov_params := [];
          r_llnull := 0%R;
          r_bse := [] |};
  reg_wrap := fun view r => r
|}.

(** ** The parameter names of a hurdle model *)

(** [range(start, stop, -1)] *)
Definition py_range_down (start stop : Z) : list Z :=
  map (fun j => (start - Z.of_nat j)%Z) (seq 0 (Z.to_nat (start - stop))).

(** ['zero_x%d' % i] *)
Definition zero_name (i : Z) : string :=
  ("zero_x" ++ NilZero.string_of_int (Z.to_int i))%string.

(** The statements of [Hurdle.__init__] on [self.exog_names]:
    [self.exog_names.insert(0, 'inflate_const')], then for [i] in
    [range(self.exog.shape[1], 1, -1)] the insertion of
    ['zero_x%d' % (i-1)] at the front. *)
Definition hurdle_exog_names {F : Type} (exog : matrix F)
    (exog_names : list string) : list string :=
  fold_left (fun names i => zero_name (i - 1) :: names)
            (py_range_down (Z.of_nat (shape1 exog)) 1)
            ("inflate_const"%string :: exog_names).

(** ** The dispersion factor of the results classes

    [self.predict(which='linear')] of a results object is the inherited
    method of the results base class: it calls
    [self.model.predict(self.params, which='linear')]. *)

Module TruncatedPoissonResults.
Section Defs.
Context {F : Type} `{Float64 F}.
Variable ext : CountModel.methods F.

(** [1 - mu / (np.exp(mu) - 1)] *)
Definition factor (mu : F) : F :=
  fsub f1 (fdiv mu (fsub (fexp mu) f1)).

Definition _dispersion_factor (model : GenericTruncated.t F)
    (params : list F) : result (list F) :=
  if negb (GenericTruncated.trunc model =? 0)%Z then
    Raise (NotImplementedError
             "dispersion is only available for zero-truncation")
  else
    lin <- TruncatedPoisson.predict ext model params None None None
                                    "linear" None ;;
    match lin with
    | VVec linpred => Ok (map factor (vexp linpred))
    | _ => Raise (TypeError "loop of ufunc does not support argument")
    end.
End Defs.
End TruncatedPoissonResults.

Module TruncatedNegativeBinomialResults.
Section Defs.
Context {F : Type} `{Float64 F}.
Variable ext : CountModel.methods F.

(** [1 - alpha * mu**(p-1) / (np.exp(mu**(p-1)) - 1)] *)
Definition factor (alpha p mu : F) : F :=
  fsub f1 (fdiv (fmul alpha (fpow mu (fsub p f1)))
                (fsub (fexp (fpow mu (fsub p f1))) f1)).

Definition _dispersion_factor (model : GenericTruncated.t F)
    (params : list F) : result (list F) :=
  if negb (GenericTruncated.trunc model =? 0)%Z then
    Raise (NotImplementedError
             "dispersion is only available for zero-truncation")
  else
    alpha <- last_param params ;;
    p <- cls_parameterization (klass (GenericTruncated.model_main model))
                              (args (GenericTruncated.model_main model)) ;;
    lin <- TruncatedNegativeBinomialP.predict ext model params None None None
                                              "linear" None ;;
    match lin with
    | VVec linpred => Ok (map (factor alpha p) (vexp linpred))
    | _ => Raise (TypeError "loop of ufunc does not support argument")
    end.
End Defs.
End TruncatedNegativeBinomialResults.

(** ** The result kinds of the [predict] methods *)

Definition TruncatedPoisson_kinds : list string :=
  ["mean"; "linear"; "mean-main"; "prob"; "prob-main"; "var"]%string.

Definition TruncatedGeneralizedPoisson_kinds : list string :=
  ["mean"; "linear"; "mean-main"; "prob"]%string.

Definition Hurdle_kinds : list string :=
  ["mean"; "mean-main"; "linear"; "mean-nonzero"; "prob-zero"; "prob-main";
   "prob-trunc"; "prob"]%string.

(** * Properties *)

(** ** Lists and arrays *)

Section ArrayFacts.
Context {F : Type} `{Float64 F}.

Lemma zipw_length {A B C : Type} (f : A -> B -> C) (a : list A) (b : list B) :
  length (zipw f a b) = Nat.min (length a) (length b).
Proof.
  revert b; induction a as [|x a IH]; intros [|y b]; simpl; auto.
Qed.

Lemma zipw_length_n {A B C : Type} (f : A -> B -> C) (a : list A)
    (b : list B) (n : nat) :
  length a = n -> length b = n -> length (zipw f a b) = n.
Proof. intros Ha Hb. rewrite zipw_length, Ha, Hb. apply Nat.min_id. Qed.

Lemma nth_zipw {A B C : Type} (f : A -> B -> C) (a : list A) (b : list B)
    (r : nat) (da : A) (db : B) (d : C) :
  r < length a -> r < length b ->
  nth r (zipw f a b) d = f (nth r a da) (nth r b db).
Proof.
  revert b r; induction a as [|x a IH]; intros [|y b] [|r]; simpl;
    try lia; auto.
  intros Ha Hb. apply IH; lia.
Qed.

Lemma nth_map_lt {A B : Type} (f : A -> B) (l : list A) (r : nat)
    (da : A) (d : B) :
  r < length l -> nth r (map f l) d = f (nth r l da).
Proof.
  intros Hr. rewrite (nth_indep (map f l) d (f da)).
  - apply map_nth.
  - now rewrite length_map.
Qed.

Lemma Forall_nth_length (k : nat) (m : list (list F)) (r : nat) :
  Forall (fun row => length row = k) m -> r < length m ->
  length (nth r m []) = k.
Proof.
  intros Hm Hr. rewrite Forall_forall in Hm. apply Hm. now apply nth_In.
Qed.

Lemma py_range_nonpos (n : Z) : (n <= 0)%Z -> py_range n = [].
Proof.
  intros Hn. unfold py_range.
  replace (Z.to_nat n) with 0%nat by lia. reflexivity.
Qed.

(** Subtracting [log(1 - 0)] leaves an array as it is. *)
Lemma vsub_log_one_minus_zeros {L : @Float64Laws F _} (a : list F) (n : nat) :
  length a <= n ->
  vsub a (vlog (one_minus (repeat f0 n))) = a.
Proof.
  revert n; induction a as [|x a IH]; intros n Hn; [reflexivity|].
  destruct n as [|n]; simpl in Hn; [lia|].
  unfold vsub, vlog, one_minus in *. simpl.
  rewrite fsub_1_0, flog_1, fsub_0_r. f_equal. apply IH. lia.
Qed.

Lemma map_fdiv_zeros {L : @Float64Laws F _} (k : nat) :
  map (fun x : F => fdiv x f1) (repeat f0 k) = repeat f0 k.
Proof.
  induction k as [|k IH]; simpl; [reflexivity|].
  now rewrite fdiv_0_1, IH.
Qed.

Lemma vadd_zeros {L : @Float64Laws F _} (row : list F) :
  vadd row (repeat f0 (length row)) = row.
Proof.
  induction row as [|x row IH]; simpl; [reflexivity|].
  unfold vadd in *. simpl. now rewrite fadd_0_r, IH.
Qed.

(** Adding [0 / (1 - 0)] entry by entry leaves a score matrix as it is. *)
Lemma madd_row_div_zeros {L : @Float64Laws F _} (s : list (list F)) (n : nat) :
  length s <= n ->
  madd s (row_div (zeros_like2 s) (one_minus (repeat f0 n))) = s.
Proof.
  revert n; induction s as [|row s IH]; intros n Hn; [reflexivity|].
  destruct n as [|n]; simpl in Hn; [lia|].
  unfold madd, row_div, zeros_like2, one_minus in *. simpl.
  rewrite fsub_1_0, map_fdiv_zeros, vadd_zeros. f_equal. apply IH. lia.
Qed.
End ArrayFacts.

(** ** GenericTruncated: likelihood and score *)

Section TruncatedFacts.
Context {F : Type} `{Float64 F}.

Lemma ones_times (i : Z) (endog : list Z) :
  map (fun one => (one * i)%Z) (map (fun _ => 1%Z) endog)
  = map (fun _ => i) endog.
Proof.
  rewrite map_map. apply map_ext. intros _. apply Z.mul_1_l.
Qed.

Lemma main_shapes (m : GenericTruncated.t F) (params : list F) (k : nat) :
  main_on_data m ->
  shape_contract (klass (GenericTruncated.model_main m)) params
                 (GenericTruncated.exog m)
                 (length (GenericTruncated.endog m)) k ->
  length (Base.loglikeobs (GenericTruncated.model_main m) params)
  = length (GenericTruncated.endog m) /\
  length (Base.score_obs (GenericTruncated.model_main m) params)
  = length (GenericTruncated.endog m) /\
  Forall (fun row => length row = k)
         (Base.score_obs (GenericTruncated.model_main m) params).
Proof.
  intros [HX Hn] Hc. exact (Hc _ HX Hn).
Qed.

(** What a subclass constructor returns, when the base class accepts the
    retained sample. *)
Lemma TruncatedPoisson_init_ok (Poisson : CountClass F)
    (truncatedpoisson : GenericTruncated.dist F) (endog : list Z)
    (exog : matrix F) (offset exposure : option (list F)) (truncation : Z)
    (m : GenericTruncated.t F) :
  TruncatedPoisson.__init__ Poisson truncatedpoisson endog exog
                            offset exposure truncation = Ok m ->
  let self := GenericTruncated.__init__ endog exog truncation
                                        offset exposure in
  GenericTruncated.self m = self /\
  GenericTruncated.model_main m
  = {| klass := Poisson;
       args := {| b_endog := GenericTruncated.endog self;
                  b_exog := GenericTruncated.exog self;
                  b_offset := offset; b_exposure := exposure;
                  b_p := None |} |} /\
  GenericTruncated.pyclass m = GenericTruncated.TruncatedPoisson /\
  GenericTruncated.k_extra m = None /\
  GenericTruncated.model_dist m = Some truncatedpoisson.
Proof.
  unfold TruncatedPoisson.__init__, Base.new.
  destruct (cls_init Poisson _) as [u|e]; cbn [bind]; [|discriminate].
  intros E. injection E as <-. repeat split.
Qed.

Lemma TruncatedNegativeBinomialP_init_ok (NegativeBinomialP : CountClass F)
    (truncatednegbin : GenericTruncated.dist F) (endog : list Z)
    (exog : matrix F) (offset exposure : option (list F)) (truncation : Z)
    (p : F) (m : GenericTruncated.t F) :
  TruncatedNegativeBinomialP.__init__ NegativeBinomialP truncatednegbin
    endog exog offset exposure truncation p = Ok m ->
  let self := GenericTruncated.__init__ endog exog truncation
                                        offset exposure in
  GenericTruncated.self m = self /\
  GenericTruncated.model_main m
  = {| klass := NegativeBinomialP;
       args := {| b_endog := GenericTruncated.endog self;
                  b_exog := GenericTruncated.exog self;
                  b_offset := offset; b_exposure := exposure;
                  b_p := Some p |} |} /\
  GenericTruncated.pyclass m = GenericTruncated.TruncatedNegativeBinomialP /\
  GenericTruncated.model_dist m = Some truncatednegbin.
Proof.
  unfold TruncatedNegativeBinomialP.__init__, Base.new.
  destruct (cls_init NegativeBinomialP _) as [u|e]; cbn [bind];
    [|discriminate].
  intros E. injection E as <-. repeat split.
Qed.

Lemma TruncatedGeneralizedPoisson_init_ok
    (GeneralizedPoisson : CountClass F) (endog : list Z) (exog : matrix F)
    (offset exposure : option (list F)) (truncation : Z) (p : F)
    (m : GenericTruncated.t F) :
  TruncatedGeneralizedPoisson.__init__ GeneralizedPoisson endog exog
    offset exposure truncation p = Ok m ->
  let self := GenericTruncated.__init__ endog exog truncation
                                        offset exposure in
  GenericTruncated.self m = self /\
  GenericTruncated.model_main m
  = {| klass := GeneralizedPoisson;
       args := {| b_endog := GenericTruncated.endog self;
                  b_exog := GenericTruncated.exog self;
                  b_offset := offset; b_exposure := exposure;
                  b_p := Some p |} |} /\
  GenericTruncated.pyclass m
  = GenericTruncated.TruncatedGeneralizedPoisson /\
  GenericTruncated.model_dist m = None.
Proof.
  unfold TruncatedGeneralizedPoisson.__init__, Base.new.
  destruct (cls_init GeneralizedPoisson _) as [u|e]; cbn [bind];
    [|discriminate].
  intros E. injection E as <-. repeat split.
Qed.

(** Each subclass constructor builds [model_main] on the filtered data. *)
Lemma TruncatedPoisson_main_on_data (Poisson : CountClass F)
    (truncatedpoisson : GenericTruncated.dist F) (endog : list Z)
    (exog : matrix F) (offset exposure : option (list F)) (truncation : Z)
    (m : GenericTruncated.t F) :
  TruncatedPoisson.__init__ Poisson truncatedpoisson endog exog
                            offset exposure truncation = Ok m ->
  main_on_data m.
Proof.
  intros E. destruct (TruncatedPoisson_init_ok _ _ _ _ _ _ _ E)
    as (Hs & Hm & _).
  unfold main_on_data. rewrite Hm, Hs. split; reflexivity.
Qed.

Lemma TruncatedNegativeBinomialP_main_on_data (NegativeBinomialP : CountClass F)
    (truncatednegbin : GenericTruncated.dist F) (endog : list Z)
    (exog : matrix F) (offset exposure : option (list F)) (truncation : Z)
    (p : F) (m : GenericTruncated.t F) :
  TruncatedNegativeBinomialP.__init__ NegativeBinomialP truncatednegbin
    endog exog offset exposure truncation p = Ok m ->
  main_on_data m.
Proof.
  intros E. destruct (TruncatedNegativeBinomialP_init_ok _ _ _ _ _ _ _ _ E)
    as (Hs & Hm & _).
  unfold main_on_data. rewrite Hm, Hs. split; reflexivity.
Qed.

Lemma TruncatedGeneralizedPoisson_main_on_data
    (GeneralizedPoisson : CountClass F) (endog : list Z) (exog : matrix F)
    (offset exposure : option (list F)) (truncation : Z) (p : F)
    (m : GenericTruncated.t F) :
  TruncatedGeneralizedPoisson.__init__ GeneralizedPoisson endog exog
    offset exposure truncation p = Ok m ->
  main_on_data m.
Proof.
  intros E. destruct (TruncatedGeneralizedPoisson_init_ok _ _ _ _ _ _ _ E)
    as (Hs & Hm & _).
  unfold main_on_data. rewrite Hm, Hs. split; reflexivity.
Qed.

Lemma counterfactual_shapes (m : GenericTruncated.t F) (params : list F)
    (k : nat) (i : Z) :
  shape_contract (klass (GenericTruncated.model_main m)) params
                 (GenericTruncated.exog m)
                 (length (GenericTruncated.endog m)) k ->
  length (Base.loglikeobs (counterfactual m i) params)
  = length (GenericTruncated.endog m) /\
  length (Base.score_obs (counterfactual m i) params)
  = length (GenericTruncated.endog m) /\
  Forall (fun row => length row = k)
         (Base.score_obs (counterfactual m i) params).
Proof.
  intros Hc. apply Hc; simpl; [reflexivity | apply length_map].
Qed.
End TruncatedFacts.

Section TruncationMinusOne.
Context {F : Type} `{Float64 F} {L : @Float64Laws F _}.

(** C4.  With [truncation = -1] the loop over the truncated region is
    empty, and [loglikeobs] and [score_obs] return what the untruncated
    base model returns: the remaining arithmetic subtracts [log(1 - 0)]
    and adds [0 / (1 - 0)]. *)
Theorem truncation_minus1_reproduces_base
    (m : GenericTruncated.t F) (params : list F) (k : nat) :
  GenericTruncated.trunc m = (-1)%Z ->
  main_on_data m ->
  shape_contract (klass (GenericTruncated.model_main m)) params
                 (GenericTruncated.exog m)
                 (length (GenericTruncated.endog m)) k ->
  GenericTruncated.loglikeobs m params
  = Base.loglikeobs (GenericTruncated.model_main m) params /\
  GenericTruncated.score_obs m params
  = Base.score_obs (GenericTruncated.model_main m) params.
Proof.
  intros Ht Hd Hc.
  destruct (main_shapes Hd Hc) as (Hll & Hsc & _).
  unfold GenericTruncated.loglikeobs, GenericTruncated.score_obs.
  rewrite Ht. simpl. unfold zeros_like. split.
  - apply vsub_log_one_minus_zeros. lia.
  - apply madd_row_div_zeros. lia.
Qed.
End TruncationMinusOne.

Section TruncatedScore.
Context {F : Type} `{Float64 F}.

Lemma madd_rows (k : nat) (a b : list (list F)) :
  Forall (fun row => length row = k) a ->
  Forall (fun row => length row = k) b ->
  Forall (fun row => length row = k) (madd a b).
Proof.
  intros Ha; revert b; induction Ha as [|x a Hx Ha IH];
    intros b Hb; [constructor|].
  destruct Hb as [|y b Hy Hb]; [constructor|].
  unfold madd in *. simpl. constructor.
  - now apply zipw_length_n.
  - now apply IH.
Qed.

Lemma row_scale_rows (k : nat) (a : list (list F)) (v : list F) :
  Forall (fun row => length row = k) a ->
  Forall (fun row => length row = k) (row_scale a v).
Proof.
  intros Ha; revert v; induction Ha as [|x a Hx Ha IH];
    intros v; [constructor|].
  destruct v as [|c v]; [constructor|].
  unfold row_scale in *. simpl. constructor.
  - now rewrite length_map.
  - apply IH.
Qed.

Lemma nth_madd (k : nat) (a b : list (list F)) (r j : nat) :
  r < length a -> r < length b ->
  Forall (fun row => length row = k) a ->
  Forall (fun row => length row = k) b ->
  j < k ->
  nth j (nth r (madd a b) []) f0
  = fadd (nth j (nth r a []) f0) (nth j (nth r b []) f0).
Proof.
  intros Hra Hrb Ha Hb Hj. unfold madd.
  rewrite (nth_zipw vadd a b [] [] [] Hra Hrb). unfold vadd.
  apply nth_zipw.
  - now rewrite (Forall_nth_length Ha Hra).
  - now rewrite (Forall_nth_length Hb Hrb).
Qed.

Lemma nth_row_scale (k : nat) (a : list (list F)) (v : list F) (r j : nat) :
  r < length a -> r < length v ->
  Forall (fun row => length row = k) a -> j < k ->
  nth j (nth r (row_scale a v) []) f0
  = fmul (nth j (nth r a []) f0) (nth r v f0).
Proof.
  intros Hra Hrv Ha Hj. unfold row_scale.
  rewrite (nth_zipw _ a v [] f0 [] Hra Hrv).
  apply (@nth_map_lt F F (fun x => fmul x (nth r v f0)) (nth r a [])
                     j f0 f0).
  now rewrite (Forall_nth_length Ha Hra).
Qed.

Lemma nth_row_div (k : nat) (a : list (list F)) (v : list F) (r j : nat) :
  r < length a -> r < length v ->
  Forall (fun row => length row = k) a -> j < k ->
  nth j (nth r (row_div a v) []) f0
  = fdiv (nth j (nth r a []) f0) (nth r v f0).
Proof.
  intros Hra Hrv Ha Hj. unfold row_div.
  rewrite (nth_zipw _ a v [] f0 [] Hra Hrv).
  apply (@nth_map_lt F F (fun x => fdiv x (nth r v f0)) (nth r a [])
                     j f0 f0).
  now rewrite (Forall_nth_length Ha Hra).
Qed.

Lemma row_div_rows (k : nat) (a : list (list F)) (v : list F) :
  Forall (fun row => length row = k) a ->
  Forall (fun row => length row = k) (row_div a v).
Proof.
  intros Ha; revert v; induction Ha as [|x a Hx Ha IH];
    intros v; [constructor|].
  destruct v as [|c v]; [constructor|].
  unfold row_div in *. simpl. constructor.
  - now rewrite length_map.
  - apply IH.
Qed.

Variable m : GenericTruncated.t F.
Variable params : list F.
Variable k : nat.

Let n : nat := length (GenericTruncated.endog m).

Hypothesis contract :
  shape_contract (klass (GenericTruncated.model_main m)) params
                 (GenericTruncated.exog m) n k.

Lemma score_obs_step_counterfactual (pmf : list F) (st : list (list F))
    (i : Z) :
  GenericTruncated.score_obs_step m params (pmf, st) i
  = (vadd pmf (vexp (Base.loglikeobs (counterfactual m i) params)),
     madd st (row_scale (Base.score_obs (counterfactual m i) params)
                        (vexp (Base.loglikeobs (counterfactual m i) params)))).
Proof.
  unfold GenericTruncated.score_obs_step, counterfactual.
  now rewrite ones_times.
Qed.

(** What the loop of [score_obs] has accumulated after the counts [l]. *)
Lemma score_obs_loop (l : list Z) :
  forall (pmf0 : list F) (st0 : list (list F)),
    length pmf0 = n -> length st0 = n ->
    Forall (fun row => length row = k) st0 ->
    let res := fold_left (GenericTruncated.score_obs_step m params) l
                         (pmf0, st0) in
    length (fst res) = n /\ length (snd res) = n /\
    Forall (fun row => length row = k) (snd res) /\
    forall r j, r < n -> j < k ->
      nth r (fst res) f0
      = fold_left fadd (map (fun i => pmf_at m params i r) l)
                  (nth r pmf0 f0) /\
      nth j (nth r (snd res) []) f0
      = fold_left fadd
          (map (fun i => fmul (score_at m params i r j)
                              (pmf_at m params i r)) l)
          (nth j (nth r st0 []) f0).
Proof.
  induction l as [|i l IH]; intros pmf0 st0 Hp Hs Hrows;
    cbv zeta; cbn [fold_left map].
  - cbn. repeat split; auto.
  - rewrite score_obs_step_counterfactual.
    destruct (counterfactual_shapes m i contract) as (Hll & Hsc & Hk).
    fold n in Hll, Hsc.
    assert (Hpi : length (vexp (Base.loglikeobs (counterfactual m i) params))
                  = n) by (unfold vexp; now rewrite length_map).
    assert (Hscale : length (row_scale
                        (Base.score_obs (counterfactual m i) params)
                        (vexp (Base.loglikeobs (counterfactual m i) params)))
                     = n) by (now apply zipw_length_n).
    specialize (IH (vadd pmf0 (vexp (Base.loglikeobs (counterfactual m i) params)))
                   (madd st0 (row_scale
                        (Base.score_obs (counterfactual m i) params)
                        (vexp (Base.loglikeobs (counterfactual m i) params))))).
    cbv zeta in IH.
    destruct IH as (H1 & H2 & H3 & H4).
    + now apply zipw_length_n.
    + now apply zipw_length_n.
    + apply madd_rows; [assumption | now apply row_scale_rows].
    + split; [exact H1 | split; [exact H2 | split; [exact H3 |]]].
      intros r j Hr Hj. split.
      * destruct (H4 r j Hr Hj) as [E _]. rewrite E. f_equal.
        unfold vadd. rewrite (nth_zipw fadd _ _ f0 f0 f0) by lia.
        unfold pmf_at, vexp. f_equal.
        apply nth_map_lt with (da := f0). lia.
      * destruct (H4 r j Hr Hj) as [_ E]. rewrite E. f_equal.
        rewrite (nth_madd (k:=k)); auto; try lia.
        2: now apply row_scale_rows.
        f_equal. rewrite (nth_row_scale (k:=k)); auto; try lia.
        unfold score_at, pmf_at, vexp. f_equal.
        apply nth_map_lt with (da := f0). lia.
Qed.

Hypothesis on_data : main_on_data m.

(** Entry by entry, [score_obs] is [score_main] plus what the loop has
    accumulated in [score_trunc], divided by one minus what it has
    accumulated in [pmf]. *)
Lemma score_obs_entries (r j : nat) :
  r < n -> j < k ->
  nth j (nth r (GenericTruncated.score_obs m params) []) f0
  = fadd (score_main_at m params r j)
         (fdiv (sum_pmf_score m params r j)
               (fsub f1 (sum_pmf m params r))).
Proof.
  intros Hr Hj.
  destruct (main_shapes on_data contract) as (_ & Hsm & Hrows).
  fold n in Hsm.
  unfold GenericTruncated.score_obs.
  pose proof (@score_obs_loop (py_range (GenericTruncated.trunc m + 1))
                (zeros_like (GenericTruncated.endog m))
                (zeros_like2
                   (Base.score_obs (GenericTruncated.model_main m) params)))
    as Hloop.
  destruct (fold_left (GenericTruncated.score_obs_step m params)
              (py_range (GenericTruncated.trunc m + 1))
              (zeros_like (GenericTruncated.endog m),
               zeros_like2
                 (Base.score_obs (GenericTruncated.model_main m) params)))
    as [pmf st].
  cbv zeta in Hloop. cbn [fst snd] in Hloop.
  destruct Hloop as (Hp & Hs & Hst & Hval).
  - unfold zeros_like. apply repeat_length.
  - unfold zeros_like2. now rewrite length_map.
  - unfold zeros_like2. apply Forall_forall. intros row Hin.
    apply in_map_iff in Hin. destruct Hin as (row0 & <- & Hin0).
    rewrite repeat_length. rewrite Forall_forall in Hrows. now apply Hrows.
  - destruct (Hval r j Hr Hj) as [Epmf Est].
    assert (Hom : length (one_minus pmf) = n)
      by (unfold one_minus; now rewrite length_map).
    assert (Hdiv : length (row_div st (one_minus pmf)) = n)
      by (now apply zipw_length_n).
    assert (Hr1 : r < length (Base.score_obs (GenericTruncated.model_main m)
                                             params)) by lia.
    assert (Hr2 : r < length (row_div st (one_minus pmf))) by lia.
    assert (Hr3 : r < length st) by lia.
    assert (Hr4 : r < length (one_minus pmf)) by lia.
    rewrite (nth_madd Hr1 Hr2 Hrows (row_div_rows (one_minus pmf) Hst) Hj).
    unfold score_main_at. f_equal.
    rewrite (@nth_row_div k st (one_minus pmf) r j Hr3 Hr4 Hst Hj).
    unfold one_minus.
    rewrite nth_map_lt with (da := f0) by lia.
    rewrite Epmf, Est.
    unfold sum_pmf_score, sum_pmf, fsum, zeros_like, zeros_like2.
    rewrite nth_repeat.
    rewrite nth_map_lt with (da := []) by lia.
    rewrite nth_repeat. reflexivity.
Qed.
End TruncatedScore.

Section TruncatedScoreGradient.
Context {F : Type} `{Float64 F}.

Lemma map_const_length {A B : Type} (i : B) (a b : list A) :
  length a = length b -> map (fun _ => i) a = map (fun _ => i) b.
Proof.
  revert b; induction a as [|x a IH]; intros [|y b] Hl; simpl in Hl;
    try discriminate; [reflexivity|].
  cbn [map]. f_equal. apply IH. now injection Hl.
Qed.

(** Where [model_main] was built on the data of the adapter with every
    keyword at its default, the model that the loops rebuild is the base
    distribution in the context of the observations. *)
Lemma default_context_kept (m : GenericTruncated.t F) (params : list F) :
  main_on_data m -> default_context m -> context_kept m params.
Proof.
  intros [HX Hn] (Ho & He & Hp) i _.
  assert (E : in_context m i = counterfactual m i).
  { unfold in_context, counterfactual, Base.construct.
    cbv zeta. rewrite HX, Ho, He, Hp.
    now rewrite (map_const_length i _ _ Hn). }
  rewrite E. split; reflexivity.
Qed.

Lemma sums_in_context (m : GenericTruncated.t F) (params : list F)
    (r j : nat) :
  context_kept m params ->
  sum_pmf m params r = sum_pmf_in_context m params r /\
  sum_pmf_score m params r j = sum_pmf_score_in_context m params r j.
Proof.
  intros Hk.
  unfold sum_pmf, sum_pmf_in_context, sum_pmf_score,
    sum_pmf_score_in_context.
  split; f_equal; apply map_ext_in; intros i Hi;
    destruct (Hk i Hi) as [Hl Hs];
    unfold pmf_at, pmf_in_context, score_at, score_in_context;
    now rewrite Hl, ?Hs.
Qed.

(** C1 (amended).  Take a truncated model for which the base model that
    the code rebuilds from the count and [exog] alone is the base
    distribution in the context of the observations (no offset, no
    exposure, the default parameterization).  Entry by entry, its
    [score_obs] is the base score PLUS the sum over the truncated region of
    the probability of each count times the base score at that count,
    divided by one minus the truncated mass: the gradient of
    [log f(y|x) - log(1 - Σ_i pmf_i)]. *)
Theorem score_obs_is_gradient (m : GenericTruncated.t F) (params : list F)
    (k r j : nat) :
  shape_contract (klass (GenericTruncated.model_main m)) params
                 (GenericTruncated.exog m)
                 (length (GenericTruncated.endog m)) k ->
  main_on_data m ->
  context_kept m params ->
  r < length (GenericTruncated.endog m) -> j < k ->
  nth j (nth r (GenericTruncated.score_obs m params) []) f0
  = score_obs_gradient m params r j.
Proof.
  intros Hc Hd Hk Hr Hj.
  rewrite (score_obs_entries Hc Hd Hr Hj).
  destruct (sums_in_context r j Hk) as [Hp Hs].
  unfold score_obs_gradient. now rewrite Hp, Hs.
Qed.
End TruncatedScoreGradient.

(** ** The Poisson model over the reals *)

Section RealFacts.
Import RealModel.
Local Open Scope R_scope.

Lemma Float64Laws_R : @Float64Laws R Float64_R.
Proof.
  split; simpl; intros; try lra. apply ln_1.
Qed.

Lemma enumerate_length {A : Type} (l : list A) :
  length (enumerate l) = length l.
Proof.
  unfold enumerate. rewrite length_combine, length_seq. apply Nat.min_id.
Qed.

Lemma Forall_zipw {A B C : Type} (P : C -> Prop) (f : A -> B -> C)
    (a : list A) (b : list B) :
  (forall x y, In y b -> P (f x y)) -> Forall P (zipw f a b).
Proof.
  revert b; induction a as [|x a IH]; intros [|y b] Hf; simpl;
    try constructor.
  - apply Hf. now left.
  - apply IH. intros x' y' Hin. apply Hf. now right.
Qed.

(** The Poisson class returns one log-likelihood and one score row of as
    many entries as [exog] has columns, per observation. *)
Lemma Poisson_shape_contract (params : list R) (X : matrix R) (n : nat) :
  matrix_wf X -> length (rows X) = n ->
  shape_contract Poisson params X n (shape1 X).
Proof.
  intros Hwf Hn a HX Ha. simpl.
  assert (Heta : length (Poisson_eta a params) = n).
  { unfold Poisson_eta. now rewrite length_map, enumerate_length, HX. }
  repeat split.
  - now apply zipw_length_n.
  - apply zipw_length_n; [assumption|].
    rewrite length_combine, Heta, HX, Hn. apply Nat.min_id.
  - apply Forall_zipw. intros y [eta row] Hin.
    rewrite length_map. apply in_combine_r in Hin. rewrite HX in Hin.
    unfold matrix_wf in Hwf. rewrite Forall_forall in Hwf. now apply Hwf.
Qed.

Lemma exp_minus1_bounds : 0 < exp (- (1)) < 1.
Proof.
  split; [apply exp_pos|].
  pose proof (exp_increasing (- (1)) 0 ltac:(lra)) as Hlt.
  now rewrite exp_0 in Hlt.
Qed.
End RealFacts.

Section TruncatedScoreExamples.
Import RealModel Inputs.
Local Open Scope R_scope.

(** C1, as documented, fails.  For the zero-truncated Poisson model on
    the single observation [y = 1], [x = 1] at [params = [0]], the code
    returns [0 + (-e^-1)/(1 - e^-1)] where the documented formula gives
    [0 - (-e^-1)/(1 - e^-1)]. *)
Lemma score_obs_documented_sign_fails :
  match tp0 with
  | Raise _ => False
  | Ok m =>
      nth 0 (nth 0 (GenericTruncated.score_obs m [0]) []) 0
      <> score_obs_documented m [0] 0 0
  end.
Proof.
  cbv -[Rplus Rminus Rmult Rdiv Ropp exp ln IZR INR Rinv Rpower].
  replace (0 + 1 * 0 + 0 + 0) with 0 by lra.
  rewrite exp_0. simpl INR. rewrite ln_1.
  replace (- (1) + 0 * 0 - 0) with (- (1)) by lra.
  destruct exp_minus1_bounds as [Hpos Hlt].
  set (e := exp (- (1))) in *.
  set (q := (0 + (0 - 1) * 1 * e) / (1 - (0 + e))).
  intros Heq.
  assert (Hq : q = 0) by lra.
  unfold q, Rdiv in Hq.
  apply Rmult_integral in Hq. destruct Hq as [Hq | Hq]; [lra|].
  revert Hq. apply Rinv_neq_0_compat. lra.
Qed.

(** The truncated Poisson models on the single observation [y = 1],
    [x = 1] are constructed, and the Poisson class keeps its shapes on
    them. *)
Lemma tp_single_built (offset : option (list R)) (truncation : Z)
    (m : GenericTruncated.t R) :
  TruncatedPoisson.__init__ Poisson truncatedpoisson [1%Z] X1 offset None
                            truncation = Ok m ->
  (truncation < 1)%Z ->
  main_on_data m /\
  GenericTruncated.endog m = [1%Z] /\
  GenericTruncated.exog m = X1 /\
  GenericTruncated.trunc m = truncation /\
  GenericTruncated.truncation m = truncation /\
  (offset = None -> default_context m) /\
  forall params,
    shape_contract (klass (GenericTruncated.model_main m)) params
                   (GenericTruncated.exog m)
                   (length (GenericTruncated.endog m)) 1.
Proof.
  intros E Ht.
  pose proof (TruncatedPoisson_main_on_data _ _ _ _ _ _ _ E) as Hd.
  destruct (TruncatedPoisson_init_ok _ _ _ _ _ _ _ E) as (Hs & Hm & _).
  assert (Hkeep : (truncation + 1 <=? 1)%Z = true) by (apply Z.leb_le; lia).
  assert (He : GenericTruncated.endog m = [1%Z]).
  { rewrite Hs. cbn. now rewrite Hkeep. }
  assert (HX : GenericTruncated.exog m = X1).
  { rewrite Hs. cbn. now rewrite Hkeep. }
  split; [exact Hd|]. split; [exact He|]. split; [exact HX|].
  split; [now rewrite Hs|]. split; [now rewrite Hs|]. split.
  - intros ->. unfold default_context. rewrite Hm. repeat split.
  - intros params. rewrite Hm, He, HX. cbn [klass].
    apply (@Poisson_shape_contract params X1 1%nat).
    + repeat constructor.
    + reflexivity.
Qed.

Lemma score_obs_is_gradient_witness :
  match tp0 with
  | Raise _ => False
  | Ok m =>
      nth 0 (nth 0 (GenericTruncated.score_obs m [0]) []) 0
      = score_obs_gradient m [0] 0 0
  end.
Proof.
  destruct tp0 as [m|e] eqn:E.
  - destruct (@tp_single_built None 0%Z m E ltac:(lia))
      as (Hd & He & _ & _ & _ & Hdef & Hc).
    apply (@score_obs_is_gradient R Float64_R m [0] 1%nat 0%nat 0%nat).
    + apply Hc.
    + exact Hd.
    + apply default_context_kept; [exact Hd | now apply Hdef].
    + rewrite He. simpl. lia.
    + lia.
  - discriminate E.
Defined.

Lemma truncation_minus1_reproduces_base_witness :
  match tp_untruncated with
  | Raise _ => False
  | Ok m =>
      GenericTruncated.loglikeobs m [0]
      = Base.loglikeobs (GenericTruncated.model_main m) [0] /\
      GenericTruncated.score_obs m [0]
      = Base.score_obs (GenericTruncated.model_main m) [0]
  end.
Proof.
  destruct tp_untruncated as [m|e] eqn:E.
  - destruct (@tp_single_built None (-1)%Z m E ltac:(lia))
      as (Hd & _ & _ & Ht & _ & _ & Hc).
    apply (@truncation_minus1_reproduces_base R Float64_R Float64Laws_R
             m [0] 1%nat).
    + exact Ht.
    + exact Hd.
    + apply Hc.
  - discriminate E.
Defined.
End TruncatedScoreExamples.

(** ** GenericCensored: layout of [loglikeobs] *)

Section CensoredFacts.
Context {F : Type} `{Float64 F}.

(** Indexing by the positions where a test holds selects, in order, the
    entries whose response passes the test. *)
Lemma take_idx_nonzero_from {A : Type} (t : Z -> bool) (l : list A) :
  forall (pre : list A) (ys : list Z),
    length l = length ys ->
    take_idx (pre ++ l) (nonzero_from (length pre) (map t ys))
    = Ok (map fst (filter (fun p => t (snd p)) (combine l ys))).
Proof.
  induction l as [|x l IH]; intros pre [|y ys] Hlen; simpl in Hlen;
    try discriminate; [reflexivity|].
  injection Hlen as Hlen.
  specialize (IH (pre ++ [x]) ys Hlen).
  rewrite <- app_assoc in IH. simpl in IH.
  rewrite length_app in IH. simpl in IH. rewrite Nat.add_1_r in IH.
  cbn [map nonzero_from combine filter snd].
  destruct (t y); cbn [take_idx map fst].
  - rewrite nth_error_app2 by lia. rewrite Nat.sub_diag. cbn [nth_error].
    rewrite IH. reflexivity.
  - exact IH.
Qed.

Lemma take_idx_np_nonzero {A : Type} (t : Z -> bool) (l : list A)
    (ys : list Z) :
  length l = length ys ->
  take_idx l (np_nonzero (map t ys))
  = Ok (map fst (filter (fun p => t (snd p)) (combine l ys))).
Proof.
  intros Hlen. exact (take_idx_nonzero_from t l [] ys Hlen).
Qed.

Lemma censored_ctor_fields (endog : list Z) (exog : matrix F)
    (offset exposure : option (list F)) (m : GenericCensored.t F) :
  censored_ctor endog exog offset exposure m ->
  GenericCensored.self m
  = GenericCensored.__init__ endog exog offset exposure /\
  b_endog (args (GenericCensored.model_main m)) = map (fun _ => 0%Z) endog /\
  b_exog (args (GenericCensored.model_main m)) = exog.
Proof.
  intros []; repeat split; reflexivity.
Qed.

(** C5.  For a censored model created from [endog], [model_main] is the
    base model on an all-zero response, so its log-likelihood [llf] holds
    [log f(0|x)] row by row; [loglikeobs] returns these values for the
    rows with [endog = 0], in their order, followed by
    [log(1 - exp(llf))] for the rows with [endog <> 0], in their order. *)
Theorem censored_loglikeobs_layout (endog : list Z) (exog : matrix F)
    (offset exposure : option (list F)) (m : GenericCensored.t F)
    (params : list F) :
  censored_ctor endog exog offset exposure m ->
  let llf := Base.loglikeobs (GenericCensored.model_main m) params in
  length llf = length endog ->
  b_endog (args (GenericCensored.model_main m)) = map (fun _ => 0%Z) endog /\
  GenericCensored.loglikeobs m params
  = Ok (map fst (filter (fun p => (snd p =? 0)%Z) (combine llf endog))
        ++ map (fun p => flog (fsub f1 (fexp (fst p))))
               (filter (fun p => negb (snd p =? 0)%Z) (combine llf endog))).
Proof.
  intros Hc llf Hlen.
  destruct (censored_ctor_fields Hc) as (Hself & Hzero & _).
  split; [exact Hzero|].
  unfold GenericCensored.loglikeobs. fold llf.
  rewrite Hself. cbn [GenericCensored.__init__ GenericCensored.zero_idx
                      GenericCensored.nonzero_idx].
  rewrite (take_idx_np_nonzero (fun y => (y =? 0)%Z) llf endog Hlen).
  cbn [bind].
  rewrite (take_idx_np_nonzero (fun y => negb (y =? 0)%Z) llf endog Hlen).
  cbn [bind]. unfold vlog, one_minus, vexp.
  rewrite !map_map. reflexivity.
Qed.
End CensoredFacts.

Section CensoredExample.
Import RealModel Inputs.
Local Open Scope R_scope.

(** For [endog = [0, 2, 0, 5]] the rows come back in the order
    0, 2, 1, 3. *)
Lemma censored_loglikeobs_layout_witness :
  GenericCensored.loglikeobs cens4 [0]
  = Ok [nth 0 (Base.loglikeobs (GenericCensored.model_main cens4) [0]) 0;
        nth 2 (Base.loglikeobs (GenericCensored.model_main cens4) [0]) 0;
        ln (1 - exp (nth 1 (Base.loglikeobs
                              (GenericCensored.model_main cens4) [0]) 0));
        ln (1 - exp (nth 3 (Base.loglikeobs
                              (GenericCensored.model_main cens4) [0]) 0))].
Proof.
  destruct (@censored_loglikeobs_layout R Float64_R [0; 2; 0; 5]%Z X4
              None None cens4 [0]
              (by_Censored [0; 2; 0; 5]%Z X4 None None
                           Poisson truncatedpoisson)
              eq_refl) as [_ Heq].
  rewrite Heq. reflexivity.
Defined.
End CensoredExample.

(** ** GenericTruncated: the constructor *)

Section TruncatedInit.
Context {F : Type} `{Float64 F}.

Lemma mask_select_filter {A : Type} (t : Z -> bool) (l : list A) :
  forall ys : list Z,
    length l = length ys ->
    mask_select l (map t ys)
    = map fst (filter (fun p => t (snd p)) (combine l ys)).
Proof.
  induction l as [|x l IH]; intros [|y ys] Hlen; simpl in Hlen;
    try discriminate; [reflexivity|].
  injection Hlen as Hlen. cbn [map mask_select combine filter snd].
  destruct (t y); cbn [map fst]; now rewrite IH.
Qed.

Lemma mask_select_self (t : Z -> bool) (ys : list Z) :
  mask_select ys (map t ys) = filter t ys.
Proof.
  induction ys as [|y ys IH]; [reflexivity|].
  cbn [map mask_select filter]. destruct (t y); now rewrite IH.
Qed.

Lemma mask_select_combine {A : Type} (t : Z -> bool) (l : list A) :
  forall ys : list Z,
    length l = length ys ->
    combine (mask_select ys (map t ys)) (mask_select l (map t ys))
    = filter (fun p => t (fst p)) (combine ys l).
Proof.
  induction l as [|x l IH]; intros [|y ys] Hlen; simpl in Hlen;
    try discriminate; [reflexivity|].
  injection Hlen as Hlen. cbn [map mask_select combine filter fst].
  destruct (t y); cbn [combine]; now rewrite IH.
Qed.

Lemma fit_keeps_stages (fx : CountModel.fitting F) (h h' : Hurdle.t F)
    (start_params : option (list F)) (method : string)
    (maxiter full_output disp : Z) (cov_type : string)
    (cov_kwds : option kwargs) (use_t : option bool) (kwds : kwargs)
    (r : Hurdle.HurdleResults F) :
  Hurdle.fit fx h start_params method maxiter full_output disp
             cov_type cov_kwds use_t kwds = Ok (h', r) ->
  Hurdle.model1 h' = Hurdle.model1 h /\
  Hurdle.model2 h' = Hurdle.model2 h /\
  Hurdle.endog h' = Hurdle.endog h /\
  Hurdle.exog h' = Hurdle.exog h.
Proof.
  unfold Hurdle.fit.
  destruct (GenericCensored.fit fx (Hurdle.model1 h) start_params method
              maxiter full_output disp "nonrobust" None None kwds)
    as [r1|e]; cbn [bind]; [|discriminate].
  destruct (GenericTruncated.fit fx (Hurdle.model2 h) start_params method
              maxiter full_output disp "nonrobust" None None kwds)
    as [r2|e]; cbn [bind]; [|discriminate].
  intros Heq. injection Heq as <- _. repeat split.
Qed.

(** C6.  The constructor keeps exactly the rows whose response is not
    [<= truncation], applies one mask to [endog] and [exog] so that the
    kept rows stay paired, and stores the truncation point; [fit] of a
    hurdle model, the one operation of the module that returns a changed
    object, hands its truncated stage back as it was. *)
Theorem truncated_init_filters_rows (endog : list Z) (exog : matrix F)
    (truncation : Z) (offset exposure : option (list F)) :
  length (rows exog) = length endog ->
  let self := GenericTruncated.__init__ endog exog truncation
                                        offset exposure in
  let keep := fun y : Z => negb (y <=? truncation)%Z in
  GenericTruncated.endog self = filter keep endog /\
  combine (GenericTruncated.endog self)
          (rows (GenericTruncated.exog self))
  = filter (fun p => keep (fst p)) (combine endog (rows exog)) /\
  length (rows (GenericTruncated.exog self))
  = length (GenericTruncated.endog self) /\
  shape1 (GenericTruncated.exog self) = shape1 exog /\
  GenericTruncated.trunc self = truncation /\
  GenericTruncated.truncation self = truncation /\
  forall (fx : CountModel.fitting F) (h h' : Hurdle.t F)
         (start_params : option (list F)) (method : string)
         (maxiter full_output disp : Z) (cov_type : string)
         (cov_kwds : option kwargs) (use_t : option bool) (kwds : kwargs)
         (r : Hurdle.HurdleResults F),
    Hurdle.fit fx h start_params method maxiter full_output disp
               cov_type cov_kwds use_t kwds = Ok (h', r) ->
    Hurdle.model2 h' = Hurdle.model2 h.
Proof.
  intros Hlen self keep.
  assert (Hmask : map (fun y => (truncation + 1 <=? y)%Z) endog
                  = map keep endog).
  { apply map_ext. intros y. unfold keep.
    destruct (Z.leb_spec (truncation + 1) y), (Z.leb_spec y truncation);
      simpl; auto; lia. }
  unfold self, GenericTruncated.__init__, CountModel.__init__.
  cbn [GenericTruncated.endog GenericTruncated.exog GenericTruncated.trunc
       GenericTruncated.truncation CountModel.endog CountModel.exog
       shape1 rows].
  rewrite Hmask. repeat split.
  - apply mask_select_self.
  - now apply mask_select_combine.
  - rewrite (mask_select_filter keep (rows exog) endog Hlen).
    rewrite mask_select_self, length_map.
    clear Hmask self. revert endog Hlen.
    induction (rows exog) as [|x l IH]; intros [|y ys] Hlen;
      simpl in Hlen; try discriminate; [reflexivity|].
    injection Hlen as Hlen. cbn [combine filter snd].
    destruct (keep y); cbn [length]; now rewrite IH.
  - intros fx h h' sp method maxiter fo disp ct ck ut kw r Hfit.
    now destruct (fit_keeps_stages _ _ _ _ _ _ _ _ _ _ _ Hfit)
      as (_ & H2 & _).
Qed.
End TruncatedInit.

Section TruncatedInitExample.
Import RealModel Inputs.

Lemma truncated_init_filters_rows_witness :
  GenericTruncated.endog
    (GenericTruncated.__init__ [0; 2; 0; 5]%Z X4 0 None None) = [2; 5]%Z /\
  rows (GenericTruncated.exog
          (GenericTruncated.__init__ [0; 2; 0; 5]%Z X4 0 None None))
  = [[2%R]; [4%R]] /\
  GenericTruncated.trunc
    (GenericTruncated.__init__ [0; 2; 0; 5]%Z X4 0 None None) = 0%Z.
Proof.
  destruct (@truncated_init_filters_rows R Float64_R [0; 2; 0; 5]%Z X4 0
              None None eq_refl) as (He & _ & _ & _ & Ht & _).
  split; [exact He | split; [reflexivity | exact Ht]].
Defined.
End TruncatedInitExample.

(** ** Hurdle: the composite mean *)

Section HurdleMean.
Context {F : Type} `{Float64 F}.

(** What [predict] computes for ['mean']: the mass above the threshold,
    [prob_ntrunc], is taken from [model1.model_main], the base model of
    the zero stage, at the mean and the parameters of the positive
    stage. *)
Lemma hurdle_mean_computed (ext : CountModel.methods F) (m : Hurdle.t F)
    (params_zero params_main : list F) (exog : matrix F)
    (exposure offset : operand F) (y_values : option (list Z)) :
  Hurdle.predict_stages ext m params_zero params_main exog exposure offset
                        "mean" y_values
  = (d <- np_dot exog (firstn (shape1 (Hurdle.exog m)) params_main) ;;
     s <- badd d exposure ;;
     lin_pred <- badd s offset ;;
     mu1 <- CountModel.predict ext
              (GenericCensored.as_CountModel (Hurdle.model1 m))
              params_zero (Some exog) ;;
     prob_main <-
       Base._prob_nonzero (GenericCensored.model_main (Hurdle.model1 m))
                          mu1 params_zero ;;
     prob_ntrunc <-
       Base._prob_nonzero (GenericCensored.model_main (Hurdle.model1 m))
                          (vexp lin_pred) params_main ;;
     Ok (VVec (vdiv (vmul prob_main (vexp lin_pred)) prob_ntrunc))).
Proof. reflexivity. Qed.
End HurdleMean.

Section HurdleMeanExample.
Import RealModel Inputs.
Local Open Scope R_scope.

Variable nb_loglikeobs : BaseArgs R -> list R -> list R.
Variable nb_score_obs : BaseArgs R -> list R -> list (list R).
Variable nb_predict_prob :
  BaseArgs R -> list R -> matrix R -> operand R -> operand R ->
  option (list Z) -> list (list R).
Variable truncatednegbin : GenericTruncated.dist R.

Let NegativeBinomialP : CountClass R :=
  RealNegativeBinomialP.NegativeBinomialP nb_loglikeobs nb_score_obs
                                          nb_predict_prob.

Lemma two_lt_exp1 : 2 < exp 1.
Proof.
  pose proof (exp_ineq1 1 ltac:(lra)). lra.
Qed.

Lemma exp_minus1_lt_half : exp (- (1)) < / 2.
Proof.
  rewrite exp_Ropp. apply Rinv_lt_contravar.
  - pose proof two_lt_exp1. nra.
  - apply two_lt_exp1.
Qed.

Lemma Rpower_2_minus1 : Rpower 2 (- (1)) = / 2.
Proof.
  rewrite Rpower_Ropp, Rpower_1 by lra. reflexivity.
Qed.

(** C2 at a failing input.  Zero stage Poisson, positive stage negative
    binomial ([alpha = 1], [p = 2]), [endog = [0, 1]], a constant
    regressor and [params = [0, 0, 1]]: the linear predictor is 0 and the
    mean of the positive stage 1.  [predict] divides by the Poisson mass
    [1 - e^-1] and returns 1 in each row; with the mass [1/2] of the
    positive stage the composite mean is [2(1 - e^-1)]. *)
Theorem hurdle_mean_ignores_positive_stage_distribution :
  match hurdle_init NegativeBinomialP truncatednegbin "negbin" "poisson" with
  | Raise _ => False
  | Ok h =>
      let predict := fun which =>
        Hurdle.predict methods h [0; 0; 1] None None None None which None in
      let lin_pred := vec_of (predict "linear"%string) in
      let code_mean := vec_of (predict "mean"%string) in
      let documented :=
        vec_of (HurdleDocumented.mean methods h [0] [0; 1] X2 lin_pred) in
      is_ok (predict "mean"%string) = true /\
      length code_mean = 2%nat /\
      nth 0 code_mean 0 = 1 /\
      nth 0 documented 0 = 2 * (1 - exp (- (1))) /\
      nth 0 code_mean 0 <> nth 0 documented 0
  end.
Proof.
  destruct exp_minus1_bounds as [Hpos Hlt].
  pose proof exp_minus1_lt_half as Hhalf.
  cbv -[Rplus Rminus Rmult Rdiv Ropp exp ln IZR INR Rinv Rpower].
  replace (0 + 1 * 0 + 0 + 0) with 0 by lra.
  replace (0 + 1 * 0) with 0 by lra.
  rewrite exp_0.
  replace (2 - 1) with 1 by lra.
  rewrite Rpower_1 by lra.
  replace (1 + 1 * 1) with 2 by lra.
  replace (- (1) / 1) with (- (1)) by lra.
  rewrite Rpower_2_minus1.
  assert (Hcode : (1 - exp (- (1))) * 1 / (1 - exp (- (1))) = 1)
    by (field; lra).
  assert (Hdoc : (1 - exp (- (1))) * 1 / (1 - / 2) = 2 * (1 - exp (- (1))))
    by field.
  rewrite Hcode, Hdoc.
  repeat split; try reflexivity. lra.
Qed.
(** C3 at a failing input.  The same model and [params = [0, 0, 1]]:
    [loglike] and [predict] cut the vector at [k = 1], into
    [params_zero = [0]] and [params_main = [0, 1]], and [loglike] passes
    the blocks to [model1] and [model2].  [predict] does not pass
    [params_main] to the positive stage: it evaluates the mass above the
    threshold with [model1.model_main], the Poisson model of the zero
    stage, and returns [e^-1] for ['prob-trunc'] in each row; with
    [params_main] passed to [model2], whose distribution is the negative
    binomial with [alpha = 1], the value is [1/2].  With [k_extra1 = 0],
    [k_extra2 = 1] and seven parameters the index is 3. *)
Theorem hurdle_predict_keeps_main_block_from_positive_stage :
  match hurdle_init NegativeBinomialP truncatednegbin "negbin" "poisson" with
  | Raise _ => False
  | Ok h =>
      let params := [0; 0; 1] in
      let k := HurdleDocumented.split_index h params in
      let predict := fun which =>
        Hurdle.predict methods h params None None None None which None in
      let lin_pred := vec_of (predict "linear"%string) in
      let code := vec_of (predict "prob-trunc"%string) in
      let documented :=
        vec_of (HurdleDocumented.prob_trunc h (slice_from params k)
                                            lin_pred) in
      k = 1%Z /\
      slice_to params k = [0] /\
      slice_from params k = [0; 1] /\
      Hurdle.loglike h params
      = (l1 <- GenericCensored.loglike (Hurdle.model1 h) [0] ;;
         Ok (l1 + GenericTruncated.loglike (Hurdle.model2 h) [0; 1])) /\
      (forall a b c d e f g : R,
          HurdleDocumented.split_index
            (HurdleDocumented.with_k_extra h 0 1) [a; b; c; d; e; f; g]
          = 3%Z) /\
      is_ok (predict "prob-trunc"%string) = true /\
      length code = 2%nat /\
      nth 0 code 0 = exp (- (1)) /\
      nth 0 documented 0 = / 2 /\
      nth 0 code 0 <> nth 0 documented 0
  end.
Proof.
  destruct exp_minus1_bounds as [Hpos Hlt].
  pose proof exp_minus1_lt_half as Hhalf.
  cbv -[Rplus Rminus Rmult Rdiv Ropp exp ln IZR INR Rinv Rpower].
  replace (0 + 1 * 0 + 0 + 0) with 0 by lra.
  replace (0 + 1 * 0) with 0 by lra.
  rewrite exp_0.
  replace (2 - 1) with 1 by lra.
  rewrite Rpower_1 by lra.
  replace (1 + 1 * 1) with 2 by lra.
  replace (- (1) / 1) with (- (1)) by lra.
  rewrite Rpower_2_minus1.
  replace (1 - (1 - exp (- (1)))) with (exp (- (1))) by lra.
  replace (1 - (1 - / 2)) with (/ 2) by lra.
  repeat split; try reflexivity. lra.
Qed.
End HurdleMeanExample.

(** ** Hurdle: the probabilities *)

Section HurdleProb.
Context {F : Type} `{Float64 F}.

Lemma set_col0_spec (M : list (list F)) :
  forall (v : list F) (M' : list (list F)),
    set_col0 M v = Ok M' ->
    length M' = length M /\
    forall r d, r < length M ->
      nth r M' [] = nth r v d :: tl (nth r M []).
Proof.
  induction M as [|row M IH]; intros v M' Hset.
  - destruct v; simpl in Hset; [|discriminate].
    injection Hset as <-. split; [reflexivity|]. simpl. intros; lia.
  - destruct row as [|x row]; [discriminate|].
    destruct v as [|y v]; [discriminate|].
    cbn [set_col0] in Hset.
    destruct (set_col0 M v) as [rest|e] eqn:Hrest; [|discriminate].
    cbn [bind] in Hset. injection Hset as <-.
    destruct (IH v rest Hrest) as [Hlen Hnth].
    split; [simpl; now rewrite Hlen|].
    intros [|r] d Hr; [reflexivity|].
    simpl. apply Hnth. simpl in Hr. lia.
Qed.

(** What [predict] returns for ['prob']: whatever counts were requested,
    the first column holds [prob_zero] and every other column the
    truncated pmf of the positive stage times [prob_main]. *)
Lemma hurdle_prob_first_column (ext : CountModel.methods F)
    (m : Hurdle.t F) (params_zero params_main : list F) (exog : matrix F)
    (exposure offset : operand F) (y_values : option (list Z))
    (M : list (list F)) :
  Hurdle.predict_stages ext m params_zero params_main exog exposure offset
                        "prob" y_values = Ok (VMat M) ->
  exists (mu1 prob_main : list F) (P : list (list F)),
    CountModel.predict ext
      (GenericCensored.as_CountModel (Hurdle.model1 m))
      params_zero (Some exog) = Ok mu1 /\
    Base._prob_nonzero (GenericCensored.model_main (Hurdle.model1 m))
                       mu1 params_zero = Ok prob_main /\
    Hurdle.model2_predict ext (Hurdle.model2 m) params_main (Some exog)
      (Some (oexp exposure)) (Some offset) "prob" y_values = Ok (VMat P) /\
    length M = length (row_scale P prob_main) /\
    forall r, r < length M ->
      nth r M [] = nth r (one_minus prob_main) f0
                   :: tl (nth r (row_scale P prob_main) []).
Proof.
  unfold Hurdle.predict_stages.
  destruct (np_dot exog _) as [d|e]; [|discriminate]. cbn [bind].
  destruct (badd d exposure) as [s|e]; [|discriminate]. cbn [bind].
  destruct (badd s offset) as [lin_pred|e]; [|discriminate]. cbn [bind].
  destruct (CountModel.predict ext _ params_zero (Some exog)) as [mu1|e]
    eqn:Hmu1; [|discriminate]. cbn [bind].
  destruct (Base._prob_nonzero _ mu1 params_zero) as [prob_main|e]
    eqn:Hmain; [|discriminate]. cbn [bind].
  destruct (Base._prob_nonzero _ (vexp lin_pred) params_main)
    as [prob_ntrunc|e]; [|discriminate]. cbn [bind].
  cbn [String.eqb Ascii.eqb Bool.eqb].
  destruct (Hurdle.model2_predict _ _ _ _ _ _ _ _) as [[v|P|a|]|e]
    eqn:HP; try discriminate.
  cbn [bind].
  destruct (set_col0 _ _) as [M'|e] eqn:Hset; [|discriminate].
  cbn [bind]. intros Heq. injection Heq as <-.
  exists mu1, prob_main, P.
  split; [reflexivity|]. split; [exact Hmain|]. split; [reflexivity|].
  destruct (set_col0_spec _ _ Hset) as [Hlen Hnth].
  split; [exact Hlen|].
  intros r Hr. apply Hnth. now rewrite <- Hlen.
Qed.
End HurdleProb.

Section HurdleProbExample.
Import RealModel Inputs.
Local Open Scope R_scope.

(** C7 at a failing input.  Both stages Poisson, [endog = [0, 1]], a
    constant regressor, [params = [0, 0]] and the requested counts
    [[1, 0]]: count 0 is the second column.  [predict] writes
    [prob_zero = e^-1] into the first column, that of count 1, and leaves
    in the column of count 0 the truncated pmf at 0 times [prob_main],
    which is 0. *)
Theorem hurdle_prob_overwrites_first_column :
  match hurdle_pp with
  | Raise _ => False
  | Ok h =>
      let counts := [1; 0]%Z in
      let predict := fun which y_values =>
        Hurdle.predict methods h [0; 0] None None None None
                       which y_values in
      let probs := mat_of (predict "prob"%string (Some counts)) in
      let prob_zero := vec_of (predict "prob-zero"%string None) in
      HurdleDocumented.index_of_zero counts = Some 1%nat /\
      is_ok (predict "prob"%string (Some counts)) = true /\
      nth 0 (nth 0 probs []) 0 = nth 0 prob_zero 0 /\
      nth 1 (nth 0 probs []) 0 = 0 /\
      nth 0 prob_zero 0 = exp (- (1)) /\
      nth 1 (nth 0 probs []) 0 <> nth 0 prob_zero 0
  end.
Proof.
  destruct exp_minus1_bounds as [Hpos Hlt].
  cbv -[Rplus Rminus Rmult Rdiv Ropp exp ln IZR INR Rinv Rpower].
  replace (0 + 1 * 0) with 0 by lra.
  rewrite exp_0.
  repeat split; try reflexivity; lra.
Qed.
End HurdleProbExample.

(** ** TruncatedGeneralizedPoisson: the conditional mean *)

Section GeneralizedPoissonMean.
Context {F : Type} `{Float64 F}.

Lemma firstn_length_le {A : Type} (k : nat) (l : list A) :
  k <= length l -> length (firstn k l) = k.
Proof. intros Hk. rewrite length_firstn. lia. Qed.

(** C8.  With a truncation point above zero, [predict(which='mean')] of
    the truncated Generalized-Poisson model never returns a value; once
    the linear predictor is computed it raises NotImplementedError, which
    is what happens for a model without offset and exposure called with
    its own data and a parameter vector that covers the columns of
    [exog]. *)
Theorem generalized_poisson_mean_not_implemented
    (m : GenericTruncated.t F) (params : list F)
    (exog : option (matrix F)) (exposure offset : option (operand F))
    (count_prob : option (list Z)) :
  (0 < GenericTruncated.truncation m)%Z ->
  (forall v,
      TruncatedGeneralizedPoisson.predict m params exog exposure offset
                                          "mean" count_prob <> Ok v) /\
  (forall x,
      TruncatedGeneralizedPoisson.linear_pred m params exog exposure offset
      = Ok x ->
      TruncatedGeneralizedPoisson.predict m params exog exposure offset
                                          "mean" count_prob
      = Raise (NotImplementedError "conditional mean not implemented")) /\
  (GenericTruncated.offset m = None ->
   GenericTruncated.exposure m = None ->
   shape1 (GenericTruncated.exog m) <= length params ->
   TruncatedGeneralizedPoisson.predict m params None None None
                                       "mean" count_prob
   = Raise (NotImplementedError "conditional mean not implemented")).
Proof.
  intros Ht.
  assert (H0 : (GenericTruncated.truncation m =? 0)%Z = false)
    by (apply Z.eqb_neq; lia).
  assert (H1 : (GenericTruncated.truncation m =? -1)%Z = false)
    by (apply Z.eqb_neq; lia).
  assert (H2 : (0 <? GenericTruncated.truncation m)%Z = true)
    by (apply Z.ltb_lt; lia).
  assert (Hstep : forall ex ep off x,
    TruncatedGeneralizedPoisson.linear_pred m params ex ep off = Ok x ->
    TruncatedGeneralizedPoisson.predict m params ex ep off
                                        "mean" count_prob
    = Raise (NotImplementedError "conditional mean not implemented")).
  { intros ex ep off x Hx. unfold TruncatedGeneralizedPoisson.predict.
    rewrite Hx. destruct x as [[[X o] e] lp]. cbn [bind].
    cbn [String.eqb Ascii.eqb Bool.eqb]. now rewrite H0, H1, H2. }
  split; [|split].
  - intros v Hv.
    destruct (TruncatedGeneralizedPoisson.linear_pred m params exog
                                                      exposure offset)
      as [x|e] eqn:Hx.
    + rewrite (Hstep _ _ _ _ Hx) in Hv. discriminate.
    + unfold TruncatedGeneralizedPoisson.predict in Hv.
      rewrite Hx in Hv. discriminate.
  - intros x. apply Hstep.
  - intros Hoff Hexp Hlen.
    eapply Hstep.
    unfold TruncatedGeneralizedPoisson.linear_pred.
    rewrite Hoff, Hexp. cbn [getattr0 bind].
    unfold np_dot. rewrite (firstn_length_le _ Hlen), Nat.eqb_refl.
    cbn [bind badd]. reflexivity.
Qed.
End GeneralizedPoissonMean.

Section GeneralizedPoissonMeanExample.
Import RealModel Inputs.
Local Open Scope R_scope.

Lemma generalized_poisson_mean_not_implemented_witness :
  match tgp2 with
  | Raise _ => False
  | Ok m =>
      TruncatedGeneralizedPoisson.predict m [0; 1] None None None "mean" None
      = Raise (NotImplementedError "conditional mean not implemented")
  end.
Proof.
  destruct tgp2 as [m|e] eqn:E.
  - destruct (TruncatedGeneralizedPoisson_init_ok _ _ _ _ _ _ _ E)
      as (Hs & _).
    destruct (@generalized_poisson_mean_not_implemented R Float64_R m
                [0; 1] None None None None) as (_ & _ & Hraise).
    + rewrite Hs. simpl. lia.
    + apply Hraise; rewrite Hs; [reflexivity | reflexivity | simpl; lia].
  - discriminate E.
Defined.
End GeneralizedPoissonMeanExample.

(** ** The optimization method in [fit] *)

Section FitMethod.
Context {F : Type} `{Float64 F}.

(** C9.  The call that [GenericCensored.fit] makes to the inherited [fit]
    carries no [method], so two calls that differ only in [method] return
    the same result; [GenericTruncated.fit] passes its [method] on. *)
Theorem censored_fit_ignores_method (fx : CountModel.fitting F)
    (m : GenericCensored.t F) (start_params : option (list F))
    (method1 method2 : string) (maxiter full_output disp : Z)
    (cov_type : string) (cov_kwds : option kwargs) (use_t : option bool)
    (kwds : kwargs) :
  GenericCensored.fit fx m start_params method1 maxiter full_output disp
                      cov_type cov_kwds use_t kwds
  = GenericCensored.fit fx m start_params method2 maxiter full_output disp
                        cov_type cov_kwds use_t kwds /\
  (forall start : list F,
      GenericCensored.fit fx m (Some start) method1 maxiter full_output disp
                          cov_type cov_kwds use_t kwds
      = Ok (CountModel._get_robustcov_results fx
              (CountModel.wrap_result fx (GenericCensored.as_CountModel m)
                 (CountModel.fit fx (GenericCensored.as_CountModel m)
                    (GenericCensored.loglikeobs m)
                    (GenericCensored.score_obs m)
                    {| fc_start_params := Some start;
                       fc_method := None;
                       fc_maxiter := Some maxiter;
                       fc_disp := Some disp;
                       fc_full_output := Some full_output;
                       fc_kwargs := kwds |}))
              cov_type use_t
              (match cov_kwds with None => [] | Some k => k end))) /\
  (forall (mt : GenericTruncated.t F) (start : list F),
      GenericTruncated.fit fx mt (Some start) method1 maxiter full_output
                           disp cov_type cov_kwds use_t kwds
      = Ok (CountModel._get_robustcov_results fx
              (CountModel.wrap_result fx (GenericTruncated.as_CountModel mt)
                 (CountModel.fit fx (GenericTruncated.as_CountModel mt)
                    (fun p => Ok (GenericTruncated.loglikeobs mt p))
                    (fun p => Ok (GenericTruncated.score_obs mt p))
                    {| fc_start_params := Some start;
                       fc_method := Some method1;
                       fc_maxiter := Some maxiter;
                       fc_disp := Some disp;
                       fc_full_output := Some full_output;
                       fc_kwargs := kwds |}))
              cov_type use_t
              (match cov_kwds with None => [] | Some k => k end))) /\
  (forall (mt : GenericTruncated.t F) (start : list F),
      exists fx' : CountModel.fitting F,
        GenericTruncated.fit fx' mt (Some start) "bfgs" maxiter full_output
                             disp cov_type cov_kwds use_t kwds
        <> GenericTruncated.fit fx' mt (Some start) "newton" maxiter
                                full_output disp cov_type cov_kwds use_t
                                kwds).
Proof.
  split; [reflexivity|]. split; [reflexivity|]. split; [reflexivity|].
  intros mt start.
  exists {| CountModel.fit := fun _ _ _ call =>
              {| r_params := start;
                 r_converged :=
                   Conv (match fc_method call with
                         | Some s => String.eqb s "newton"
                         | None => false
                         end);
                 r_df_model := f0; r_k_extra := None;
                 r_cov_params := []; r_normalized_cov_params := [];
                 r_llnull := f0; r_bse := [] |};
            CountModel.base_fit_params := fun _ => [];
            CountModel.wrap_result := fun _ r => r;
            CountModel._get_robustcov_results := fun r _ _ _ => r |}.
  unfold GenericTruncated.fit. cbn. intros Heq. discriminate Heq.
Qed.
End FitMethod.

(** ** Hurdle: repeated [fit] *)

Section HurdleRefit.
Context {F : Type} `{Float64 F}.
Variable fx : CountModel.fitting F.
Variable start_params : option (list F).
Variable method : string.
Variables maxiter full_output disp : Z.
Variable cov_type : string.
Variable cov_kwds : option kwargs.
Variable use_t : option bool.
Variable kwds : kwargs.

Let fit (m : Hurdle.t F) :=
  Hurdle.fit fx m start_params method maxiter full_output disp
             cov_type cov_kwds use_t kwds.

Let fit_n (n : nat) (m : Hurdle.t F) :=
  Hurdle.fit_n fx n m start_params method maxiter full_output disp
               cov_type cov_kwds use_t kwds.




(** On a freshly constructed hurdle model [fit] returns: the stages carry
    neither offset nor exposure, so the start-value offset is [None]. *)
Lemma fit_returns_after_init (Poisson NegativeBinomialP : CountClass F)
    (truncatedpoisson truncatednegbin : GenericTruncated.dist F)
    (endog : list Z) (exog : matrix F) (offset exposure : option (list F))
    (dist zerodist : string) (p pzero : F) (h : Hurdle.t F) :
  Hurdle.__init__ Poisson NegativeBinomialP truncatedpoisson truncatednegbin
                  endog exog offset dist zerodist p pzero exposure = Ok h ->
  exists m1 r, fit h = Ok (m1, r).
Proof.
  unfold Hurdle.__init__.
  destruct (orb _ _); [discriminate|].
  destruct (Hurdle.positive_stage _ _ _ _ _ _ _ _) as [m2|e] eqn:E2;
    cbn [bind]; [|discriminate].
  intros Heq. injection Heq as <-.
  assert (Hoff : GenericTruncated.offset m2 = None /\
                 GenericTruncated.exposure m2 = None).
  { unfold Hurdle.positive_stage in E2.
    destruct (dist =? "poisson")%string.
    - destruct (TruncatedPoisson_init_ok _ _ _ _ _ _ _ E2) as (Hs & _).
      rewrite Hs. split; reflexivity.
    - destruct (TruncatedNegativeBinomialP_init_ok _ _ _ _ _ _ _ _ E2)
        as (Hs & _).
      rewrite Hs. split; reflexivity. }
  destruct Hoff as [Ho He].
  unfold fit, Hurdle.fit, GenericCensored.fit, GenericTruncated.fit.
  cbn [Hurdle.model1 Hurdle.model2]. rewrite Ho, He.
  destruct (zerodist =? "poisson")%string, start_params; cbn;
    eexists; eexists; reflexivity.
Qed.


End HurdleRefit.

Section HurdleRefitExample.
Import RealModel Inputs.
Local Open Scope R_scope.





End HurdleRefitExample.

(** * Further properties *)

(** ** GenericTruncated: entries and shapes *)

Section TruncatedLoglike.
Context {F : Type} `{Float64 F}.
Variable m : GenericTruncated.t F.
Variable params : list F.
Variable k : nat.

Let n : nat := length (GenericTruncated.endog m).

Hypothesis contract :
  shape_contract (klass (GenericTruncated.model_main m)) params
                 (GenericTruncated.exog m) n k.

Lemma loglikeobs_step_counterfactual (pmf : list F) (i : Z) :
  GenericTruncated.loglikeobs_step m params pmf i
  = vadd pmf (vexp (Base.loglikeobs (counterfactual m i) params)).
Proof.
  unfold GenericTruncated.loglikeobs_step, counterfactual.
  now rewrite ones_times.
Qed.

(** What the loop of [loglikeobs] has accumulated after the counts [l]. *)
Lemma loglikeobs_loop (l : list Z) :
  forall pmf0 : list F,
    length pmf0 = n ->
    length (fold_left (GenericTruncated.loglikeobs_step m params) l pmf0) = n /\
    forall r, r < n ->
      nth r (fold_left (GenericTruncated.loglikeobs_step m params) l pmf0) f0
      = fold_left fadd (map (fun i => pmf_at m params i r) l) (nth r pmf0 f0).
Proof.
  induction l as [|i l IH]; intros pmf0 Hp; cbn [fold_left map].
  - split; auto.
  - rewrite loglikeobs_step_counterfactual.
    destruct (counterfactual_shapes m i contract) as (Hll & _ & _).
    fold n in Hll.
    assert (Hpi : length (vexp (Base.loglikeobs (counterfactual m i) params))
                  = n) by (unfold vexp; now rewrite length_map).
    destruct (IH (vadd pmf0 (vexp (Base.loglikeobs (counterfactual m i) params))))
      as [H1 H2]; [now apply zipw_length_n|].
    split; [exact H1|]. intros r Hr. rewrite (H2 r Hr). f_equal.
    unfold vadd. rewrite (nth_zipw fadd _ _ f0 f0 f0) by lia.
    unfold pmf_at, vexp. f_equal.
    apply nth_map_lt with (da := f0). lia.
Qed.

Hypothesis on_data : main_on_data m.

(** X1.  [loglikeobs] returns one value per retained observation, and the
    value of observation [r] is the base log-likelihood minus
    [log(1 - Σ_{i=0}^{trunc} pmf_i)]. *)
Theorem truncated_loglikeobs_entries :
  length (GenericTruncated.loglikeobs m params) = n /\
  forall r, r < n ->
    nth r (GenericTruncated.loglikeobs m params) f0
    = fsub (nth r (Base.loglikeobs (GenericTruncated.model_main m) params) f0)
           (flog (fsub f1 (sum_pmf m params r))).
Proof.
  destruct (main_shapes on_data contract) as (Hll & _ & _). fold n in Hll.
  destruct (loglikeobs_loop (py_range (GenericTruncated.trunc m + 1))
              (zeros_like (GenericTruncated.endog m)))
    as [Hlen Hnth]; [apply repeat_length|].
  unfold GenericTruncated.loglikeobs.
  assert (Hnorm : length (vlog (one_minus
            (fold_left (GenericTruncated.loglikeobs_step m params)
               (py_range (GenericTruncated.trunc m + 1))
               (zeros_like (GenericTruncated.endog m))))) = n)
    by (unfold vlog, one_minus; now rewrite !length_map).
  split; [now apply zipw_length_n|].
  intros r Hr. unfold vsub.
  rewrite (nth_zipw fsub _ _ f0 f0 f0) by lia. f_equal.
  unfold vlog, one_minus.
  rewrite nth_map_lt with (da := f0) by (rewrite length_map; lia).
  rewrite nth_map_lt with (da := f0) by lia.
  rewrite (Hnth r Hr). unfold sum_pmf, fsum, zeros_like.
  now rewrite nth_repeat.
Qed.

(** X2.  [score_obs] has the shape of the base score: one row per retained
    observation and [k] entries per row. *)
Theorem truncated_score_obs_shape :
  length (GenericTruncated.score_obs m params) = n /\
  Forall (fun row => length row = k) (GenericTruncated.score_obs m params).
Proof.
  destruct (main_shapes on_data contract) as (_ & Hsm & Hrows).
  fold n in Hsm.
  unfold GenericTruncated.score_obs.
  pose proof (@score_obs_loop F _ m params k contract
                (py_range (GenericTruncated.trunc m + 1))
                (zeros_like (GenericTruncated.endog m))
                (zeros_like2
                   (Base.score_obs (GenericTruncated.model_main m) params)))
    as Hloop.
  destruct (fold_left (GenericTruncated.score_obs_step m params)
              (py_range (GenericTruncated.trunc m + 1))
              (zeros_like (GenericTruncated.endog m),
               zeros_like2
                 (Base.score_obs (GenericTruncated.model_main m) params)))
    as [pmf st].
  cbv zeta in Hloop. cbn [fst snd] in Hloop.
  destruct Hloop as (Hp & Hs & Hst & _).
  - unfold zeros_like. apply repeat_length.
  - unfold zeros_like2. now rewrite length_map.
  - unfold zeros_like2. apply Forall_forall. intros row Hin.
    apply in_map_iff in Hin. destruct Hin as (row0 & <- & Hin0).
    rewrite repeat_length. rewrite Forall_forall in Hrows. now apply Hrows.
  - split.
    + apply zipw_length_n; [exact Hsm|].
      apply zipw_length_n; [exact Hs|].
      unfold one_minus. now rewrite length_map.
    + apply madd_rows; [exact Hrows | now apply row_div_rows].
Qed.
End TruncatedLoglike.

(** ** GenericCensored: the index sets *)

Section CensoredSplit.
Context {F : Type} `{Float64 F}.

Lemma nonzero_from_In (mask : list bool) :
  forall i j,
    In j (nonzero_from i mask)
    <-> i <= j /\ nth_error mask (j - i) = Some true.
Proof.
  induction mask as [|b mask IH]; intros i j; cbn [nonzero_from].
  - split; [intros [] | intros [_ Hn]].
    destruct (j - i); discriminate.
  - assert (Hrest : In j (nonzero_from (S i) mask)
                    <-> i <= j /\ j <> i
                        /\ nth_error (b :: mask) (j - i) = Some true).
    { rewrite IH. split.
      - intros [Hle Hn]. repeat split; try lia.
        replace (j - i) with (S (j - S i)) by lia. exact Hn.
      - intros (Hle & Hne & Hn). split; [lia|].
        replace (j - i) with (S (j - S i)) in Hn by lia. exact Hn. }
    destruct b; cbn [In]; rewrite Hrest.
    + split.
      * intros [<- | (Hle & _ & Hn)]; [|tauto].
        split; [lia|]. now rewrite Nat.sub_diag.
      * intros [Hle Hn]. destruct (Nat.eq_dec i j); [now left|].
        right. repeat split; auto.
    + split; [tauto|]. intros [Hle Hn]. repeat split; auto.
      intros ->. rewrite Nat.sub_diag in Hn. discriminate.
Qed.

Lemma nonzero_from_sorted (mask : list bool) :
  forall i, StronglySorted lt (nonzero_from i mask).
Proof.
  induction mask as [|b mask IH]; intros i; cbn [nonzero_from];
    [constructor|].
  destruct b; [|apply IH].
  constructor; [apply IH|].
  apply Forall_forall. intros j Hj.
  apply nonzero_from_In in Hj. lia.
Qed.

Lemma nonzero_from_partition (t : Z -> bool) (ys : list Z) :
  forall i,
    Permutation (nonzero_from i (map t ys)
                 ++ nonzero_from i (map (fun y => negb (t y)) ys))
                (seq i (length ys)).
Proof.
  induction ys as [|y ys IH]; intros i; cbn [map nonzero_from length seq];
    [constructor|].
  destruct (t y); cbn [negb app].
  - constructor. apply IH.
  - apply Permutation_sym, Permutation_cons_app, Permutation_sym, IH.
Qed.

(** The index sets of a censored model split the observations:
    [zero_idx] holds the positions with [endog = 0], [nonzero_idx] those
    with [endog <> 0], each in increasing order, and together they hold
    every position once. *)
Lemma split_index_sets (endog : list Z) (exog : matrix F)
    (offset exposure : option (list F)) :
  let s := GenericCensored.__init__ endog exog offset exposure in
  Permutation (GenericCensored.zero_idx s ++ GenericCensored.nonzero_idx s)
              (seq 0 (length endog)) /\
  StronglySorted lt (GenericCensored.zero_idx s) /\
  StronglySorted lt (GenericCensored.nonzero_idx s) /\
  (forall i, In i (GenericCensored.zero_idx s)
             <-> nth_error endog i = Some 0%Z) /\
  (forall i, In i (GenericCensored.nonzero_idx s)
             <-> exists y, nth_error endog i = Some y /\ y <> 0%Z).
Proof.
  cbn [GenericCensored.__init__ GenericCensored.zero_idx
       GenericCensored.nonzero_idx]. unfold np_nonzero.
  split; [apply (nonzero_from_partition (fun y => (y =? 0)%Z))|].
  split; [apply nonzero_from_sorted|].
  split; [apply nonzero_from_sorted|].
  split; intros i; rewrite nonzero_from_In, Nat.sub_0_r, nth_error_map.
  - destruct (nth_error endog i) as [y|]; cbn [option_map].
    + destruct (Z.eqb_spec y 0).
      * subst. split; [reflexivity | split; [lia | reflexivity]].
      * split; [intros [_ Hf]; discriminate | intros Hy; congruence].
    + split; [intros [_ Hf]; discriminate | discriminate].
  - destruct (nth_error endog i) as [y|]; cbn [option_map].
    + destruct (Z.eqb_spec y 0); cbn [negb].
      * split; [intros [_ Hf]; discriminate|].
        intros (y' & Hy & Hne). congruence.
      * split; [intros _; now exists y | intros _; split; [lia|reflexivity]].
    + split; [intros [_ Hf]; discriminate|].
      intros (y' & Hy & _). discriminate.
Qed.

(** X3.  The index sets of a censored model split the observations:
    [zero_idx] holds the positions with [endog = 0], [nonzero_idx] those
    with [endog <> 0], each in increasing order, and together they hold
    every position once. *)
Theorem censored_split_partition (endog : list Z) (exog : matrix F)
    (offset exposure : option (list F)) :
  let s := GenericCensored.__init__ endog exog offset exposure in
  Permutation (GenericCensored.zero_idx s ++ GenericCensored.nonzero_idx s)
              (seq 0 (length endog)) /\
  StronglySorted lt (GenericCensored.zero_idx s) /\
  StronglySorted lt (GenericCensored.nonzero_idx s) /\
  (forall i, In i (GenericCensored.zero_idx s)
             <-> nth_error endog i = Some 0%Z) /\
  (forall i, In i (GenericCensored.nonzero_idx s)
             <-> exists y, nth_error endog i = Some y /\ y <> 0%Z).
Proof. exact (split_index_sets endog exog offset exposure). Qed.

Lemma take_idx_in_range {A : Type} (a : list A) (idx : list nat) :
  Forall (fun i => i < length a) idx ->
  exists v, take_idx a idx = Ok v /\ length v = length idx.
Proof.
  induction 1 as [|i idx Hi _ IH]; cbn [take_idx].
  - now exists [].
  - destruct IH as (v & Hv & Hlen).
    destruct (nth_error a i) as [x|] eqn:Hx.
    + rewrite Hv. cbn [bind]. exists (x :: v). split; [reflexivity|].
      cbn [length]. now rewrite Hlen.
    + apply nth_error_None in Hx. lia.
Qed.

Lemma take_idx_out_of_range {A : Type} (a : list A) (idx : list nat) :
  Exists (fun i => length a <= i) idx ->
  take_idx a idx = Raise (IndexError "index out of bounds").
Proof.
  induction idx as [|i idx IH]; intros Hex; [inversion Hex|].
  cbn [take_idx].
  destruct (nth_error a i) as [x|] eqn:Hx; [|reflexivity].
  inversion Hex as [? ? Hi | ? ? Hrest]; subst.
  - apply nth_error_None in Hi. congruence.
  - rewrite (IH Hrest). reflexivity.
Qed.

Lemma take_idx_total {A : Type} (a : list A) (idx : list nat) :
  (exists v, take_idx a idx = Ok v /\ length v = length idx) \/
  take_idx a idx = Raise (IndexError "index out of bounds").
Proof.
  destruct (Forall_Exists_dec (fun i => i < length a)
              (fun i => lt_dec i (length a)) idx) as [Hall | Hex].
  - left. now apply take_idx_in_range.
  - right. apply take_idx_out_of_range.
    eapply Exists_impl; [|exact Hex]. intros i Hi. cbv beta in Hi. lia.
Qed.

(** X4.  [loglikeobs] of a censored model indexes the base log-likelihood
    at every observation: it returns one value per observation when the
    base model supplies at least that many, and raises IndexError when it
    supplies fewer; it never returns a shorter vector. *)
Theorem censored_loglikeobs_complete (endog : list Z) (exog : matrix F)
    (offset exposure : option (list F)) (m : GenericCensored.t F)
    (params : list F) :
  censored_ctor endog exog offset exposure m ->
  let llf := Base.loglikeobs (GenericCensored.model_main m) params in
  (length endog <= length llf ->
   exists v, GenericCensored.loglikeobs m params = Ok v
             /\ length v = length endog) /\
  (length llf < length endog ->
   GenericCensored.loglikeobs m params
   = Raise (IndexError "index out of bounds")).
Proof.
  intros Hc llf.
  destruct (censored_ctor_fields Hc) as (Hself & _ & _).
  destruct (split_index_sets endog exog offset exposure)
    as (Hperm & _ & _ & Hz & Hnz).
  unfold GenericCensored.loglikeobs. fold llf. rewrite Hself.
  set (s := GenericCensored.__init__ endog exog offset exposure) in *.
  assert (Hbound : forall i,
             In i (GenericCensored.zero_idx s ++ GenericCensored.nonzero_idx s)
             <-> i < length endog).
  { intros i. split; intros Hi.
    - apply (Permutation_in _ Hperm) in Hi. apply in_seq in Hi. lia.
    - apply (Permutation_in _ (Permutation_sym Hperm)).
      apply in_seq. lia. }
  split.
  - intros Hle.
    destruct (@take_idx_in_range F llf (GenericCensored.zero_idx s))
      as (z & Hzv & Hzl).
    { apply Forall_forall. intros i Hi.
      assert (i < length endog) by (apply Hbound, in_or_app; now left). lia. }
    destruct (@take_idx_in_range F llf (GenericCensored.nonzero_idx s))
      as (nz & Hnv & Hnl).
    { apply Forall_forall. intros i Hi.
      assert (i < length endog) by (apply Hbound, in_or_app; now right). lia. }
    rewrite Hzv, Hnv. cbn [bind]. eexists. split; [reflexivity|].
    unfold vlog, one_minus, vexp.
    rewrite length_app, !length_map, Hzl, Hnl, <- length_app.
    rewrite (Permutation_length Hperm). apply length_seq.
  - intros Hlt.
    assert (Hin : In (length llf)
                     (GenericCensored.zero_idx s ++ GenericCensored.nonzero_idx s))
      by (now apply Hbound).
    apply in_app_or in Hin. destruct Hin as [Hin | Hin].
    + rewrite (@take_idx_out_of_range F llf (GenericCensored.zero_idx s));
        [reflexivity|].
      apply Exists_exists. exists (length llf). split; [exact Hin | lia].
    + assert (Hnzr : take_idx llf (GenericCensored.nonzero_idx s)
                     = Raise (IndexError "index out of bounds")).
      { apply take_idx_out_of_range.
        apply Exists_exists. exists (length llf). split; [exact Hin | lia]. }
      destruct (take_idx_total llf (GenericCensored.zero_idx s))
        as [(z & Hzv & _) | Hzr].
      * rewrite Hzv, Hnzr. reflexivity.
      * rewrite Hzr. reflexivity.
Qed.
End CensoredSplit.

(** ** GenericCensored: layout of [score_obs] *)

Section CensoredScore.
Context {F : Type} `{Float64 F}.

Lemma zipw_filtered {A B C : Type} (f : A -> B -> C) (t : Z -> bool)
    (a : list A) :
  forall (b : list B) (ys : list Z),
    length a = length ys -> length b = length ys ->
    zipw f (map fst (filter (fun p => t (snd p)) (combine a ys)))
           (map fst (filter (fun p => t (snd p)) (combine b ys)))
    = map (fun p => f (fst (fst p)) (snd (fst p)))
          (filter (fun p => t (snd p)) (combine (combine a b) ys)).
Proof.
  induction a as [|x a IH]; intros [|y b] [|z ys] Ha Hb; simpl in Ha, Hb;
    try discriminate; [reflexivity|].
  injection Ha as Ha. injection Hb as Hb.
  cbn [combine filter snd]. destruct (t z); cbn [map fst snd zipw].
  - now rewrite IH.
  - now apply IH.
Qed.

(** X5.  [score_obs] of a censored model returns its rows in the order of
    [loglikeobs]: first the base score rows of the observations with
    [endog = 0], then, for the observations with [endog <> 0], the base
    score row times [-exp(llf)] divided by [1 - exp(llf)]. *)
Theorem censored_score_obs_layout (endog : list Z) (exog : matrix F)
    (offset exposure : option (list F)) (m : GenericCensored.t F)
    (params : list F) :
  censored_ctor endog exog offset exposure m ->
  let score := Base.score_obs (GenericCensored.model_main m) params in
  let llf := Base.loglikeobs (GenericCensored.model_main m) params in
  length score = length endog ->
  length llf = length endog ->
  GenericCensored.score_obs m params
  = Ok (map fst (filter (fun p => (snd p =? 0)%Z) (combine score endog))
        ++ map (fun p =>
                  map (fun x => fdiv (fmul x (fneg (fexp (snd (fst p)))))
                                     (fsub f1 (fexp (snd (fst p)))))
                      (fst (fst p)))
               (filter (fun p => negb (snd p =? 0)%Z)
                       (combine (combine score llf) endog))).
Proof.
  intros Hc score llf Hs Hl.
  destruct (censored_ctor_fields Hc) as (Hself & _ & _).
  unfold GenericCensored.score_obs. fold score llf.
  rewrite Hself. cbn [GenericCensored.__init__ GenericCensored.zero_idx
                      GenericCensored.nonzero_idx].
  rewrite (take_idx_np_nonzero (fun y => (y =? 0)%Z) score endog Hs).
  cbn [bind].
  rewrite (take_idx_np_nonzero (fun y => negb (y =? 0)%Z) score endog Hs).
  cbn [bind].
  rewrite (take_idx_np_nonzero (fun y => negb (y =? 0)%Z) llf endog Hl).
  cbn [bind]. do 2 f_equal.
  exact (zipw_filtered
           (fun row c => map (fun x => fdiv (fmul x (fneg (fexp c)))
                                            (fsub f1 (fexp c))) row)
           (fun y => negb (y =? 0)%Z) score llf endog Hs Hl).
Qed.
End CensoredScore.

(** ** GenericTruncated: what the constructor keeps *)

Section TruncatedKeeps.
Context {F : Type} `{Float64 F}.

Lemma mask_select_length {A : Type} (t : Z -> bool) (l : list A) :
  forall ys : list Z,
    length l = length ys ->
    length (mask_select l (map t ys)) = length (filter t ys).
Proof.
  induction l as [|x l IH]; intros [|y ys] Hlen; simpl in Hlen;
    try discriminate; [reflexivity|].
  injection Hlen as Hlen. cbn [map mask_select filter].
  destruct (t y); cbn [length]; now rewrite IH.
Qed.

Lemma mask_select_all {A : Type} (t : Z -> bool) (l : list A) :
  forall ys : list Z,
    length l = length ys ->
    Forall (fun y => t y = true) ys ->
    mask_select l (map t ys) = l.
Proof.
  induction l as [|x l IH]; intros [|y ys] Hlen Hall; simpl in Hlen;
    try discriminate; [reflexivity|].
  injection Hlen as Hlen. inversion Hall as [|? ? Hy Hys]; subst.
  cbn [map mask_select]. rewrite Hy. f_equal. now apply IH.
Qed.

Lemma filter_all (t : Z -> bool) (ys : list Z) :
  Forall (fun y => t y = true) (filter t ys).
Proof.
  apply Forall_forall. intros y Hy. now apply filter_In in Hy.
Qed.

(** X6.  Every response the constructor keeps exceeds the truncation
    point, no row is added, data that already lie above the truncation
    point are kept whole, and constructing again from the kept data with
    the same truncation point keeps all of it. *)
Theorem truncated_init_keeps (endog : list Z) (exog : matrix F)
    (truncation : Z) (offset exposure : option (list F)) :
  length (rows exog) = length endog ->
  let self := GenericTruncated.__init__ endog exog truncation
                                        offset exposure in
  let again := GenericTruncated.__init__ (GenericTruncated.endog self)
                 (GenericTruncated.exog self) truncation offset exposure in
  Forall (fun y => (truncation < y)%Z) (GenericTruncated.endog self) /\
  length (GenericTruncated.endog self) <= length endog /\
  (Forall (fun y => (truncation < y)%Z) endog ->
   GenericTruncated.endog self = endog /\
   GenericTruncated.exog self = exog) /\
  GenericTruncated.endog again = GenericTruncated.endog self /\
  GenericTruncated.exog again = GenericTruncated.exog self.
Proof.
  intros Hlen self again.
  set (t := fun y : Z => (truncation + 1 <=? y)%Z).
  assert (Ht : forall y, t y = true <-> (truncation < y)%Z).
  { intros y. unfold t. rewrite Z.leb_le. lia. }
  assert (He : GenericTruncated.endog self = filter t endog)
    by apply mask_select_self.
  assert (Hx : GenericTruncated.exog self
               = {| shape1 := shape1 exog;
                    rows := mask_select (rows exog) (map t endog) |})
    by reflexivity.
  assert (Hkept : Forall (fun y => t y = true) (GenericTruncated.endog self))
    by (rewrite He; apply filter_all).
  split; [|split; [|split; [|split]]].
  - eapply Forall_impl; [|exact Hkept]. intros y. apply Ht.
  - rewrite He. apply filter_length_le.
  - intros Hall.
    assert (Hall' : Forall (fun y => t y = true) endog)
      by (eapply Forall_impl; [|exact Hall]; intros y; apply Ht).
    split.
    + rewrite He. apply forallb_filter_id.
      apply forallb_forall. rewrite Forall_forall in Hall'. exact Hall'.
    + rewrite Hx, (@mask_select_all _ t (rows exog) endog Hlen Hall').
      now destruct exog.
  - change (GenericTruncated.endog again)
      with (mask_select (GenericTruncated.endog self)
                        (map t (GenericTruncated.endog self))).
    apply mask_select_all; [reflexivity | exact Hkept].
  - change (GenericTruncated.exog again)
      with {| shape1 := shape1 (GenericTruncated.exog self);
              rows := mask_select (rows (GenericTruncated.exog self))
                                  (map t (GenericTruncated.endog self)) |}.
    rewrite mask_select_all; [now destruct (GenericTruncated.exog self)| |].
    + rewrite Hx, He. cbn [rows]. now apply mask_select_length.
    + exact Hkept.
Qed.
End TruncatedKeeps.

(** ** Hurdle: construction *)

Section HurdleInit.
Context {F : Type} `{Float64 F}.
Variable Poisson NegativeBinomialP : CountClass F.
Variable truncatedpoisson truncatednegbin : GenericTruncated.dist F.

Let init := Hurdle.__init__ Poisson NegativeBinomialP
                            truncatedpoisson truncatednegbin.

Lemma in_list_tags (s : string) :
  Hurdle.in_list s ["poisson"; "negbin"]%string = true
  <-> s = "poisson"%string \/ s = "negbin"%string.
Proof.
  unfold Hurdle.in_list. cbn [existsb]. rewrite !orb_true_iff, !String.eqb_eq.
  intuition discriminate.
Qed.

(** What the constructor of the positive stage returns, when it
    returns. *)
Lemma positive_stage_ok (dist : string) (p : F) (endog : list Z)
    (exog : matrix F) (m2 : GenericTruncated.t F) :
  Hurdle.positive_stage Poisson NegativeBinomialP truncatedpoisson
                        truncatednegbin dist p endog exog = Ok m2 ->
  GenericTruncated.self m2
  = GenericTruncated.__init__ endog exog 0 None None /\
  klass (GenericTruncated.model_main m2)
  = (if (dist =? "poisson")%string then Poisson else NegativeBinomialP) /\
  GenericTruncated.pyclass m2
  = (if (dist =? "poisson")%string then GenericTruncated.TruncatedPoisson
     else GenericTruncated.TruncatedNegativeBinomialP).
Proof.
  unfold Hurdle.positive_stage. intros E.
  destruct (dist =? "poisson")%string.
  - destruct (TruncatedPoisson_init_ok _ _ _ _ _ _ _ E)
      as (Hs & Hm & Hc & _).
    rewrite Hs, Hm, Hc. repeat split.
  - destruct (TruncatedNegativeBinomialP_init_ok _ _ _ _ _ _ _ _ E)
      as (Hs & Hm & Hc & _).
    rewrite Hs, Hm, Hc. repeat split.
Qed.

(** What [__init__] returns, when it returns. *)
Lemma hurdle_init_ok (endog : list Z) (exog : matrix F)
    (offset exposure : option (list F)) (dist zerodist : string)
    (p pzero : F) (h : Hurdle.t F) :
  init endog exog offset dist zerodist p pzero exposure = Ok h ->
  Hurdle.in_list dist ["poisson"; "negbin"]%string = true /\
  Hurdle.in_list zerodist ["poisson"; "negbin"]%string = true /\
  Hurdle.positive_stage Poisson NegativeBinomialP truncatedpoisson
                        truncatednegbin dist p endog exog
  = Ok (Hurdle.model2 h) /\
  Hurdle.model1 h
  = (if (zerodist =? "poisson")%string
     then Censored.__init__ endog exog Poisson truncatedpoisson None None
     else Censored.__init__ endog exog NegativeBinomialP truncatedpoisson
                            None None) /\
  Hurdle.k_extra1 h = 0%Z /\ Hurdle.k_extra2 h = 0%Z.
Proof.
  unfold init, Hurdle.__init__.
  destruct (Hurdle.in_list dist ["poisson"; "negbin"]%string);
    destruct (Hurdle.in_list zerodist ["poisson"; "negbin"]%string);
    cbn [negb orb]; try discriminate.
  cbn [CountModel.__init__ CountModel.endog CountModel.exog].
  destruct (Hurdle.positive_stage _ _ _ _ _ _ _ _) as [m2|e];
    cbn [bind]; [|discriminate].
  intros Heq. injection Heq as <-. repeat split.
Qed.

(** X7.  The constructor checks the family tags before it builds a stage:
    a tag other than ['poisson'] and ['negbin'] raises NotImplementedError
    with the message of [_initialize].  With two valid tags the outcome is
    that of the constructor of the positive stage on the data of the
    model: what it raises leaves [__init__]; the model it returns becomes
    [model2] of a hurdle model whose [k_extra] counters are zero, whose
    zero stage is on the base class named by [zerodist] and whose positive
    stage, truncated at zero, is of the class named by [dist]. *)
Theorem hurdle_init_tags (endog : list Z) (exog : matrix F)
    (offset exposure : option (list F)) (dist zerodist : string)
    (p pzero : F) :
  let valid := (dist = "poisson"%string \/ dist = "negbin"%string) /\
               (zerodist = "poisson"%string \/ zerodist = "negbin"%string) in
  let stage2 := Hurdle.positive_stage Poisson NegativeBinomialP
                  truncatedpoisson truncatednegbin dist p endog exog in
  (~ valid ->
   init endog exog offset dist zerodist p pzero exposure
   = Raise (NotImplementedError Hurdle.tags_message)) /\
  (valid ->
   forall e, stage2 = Raise e ->
     init endog exog offset dist zerodist p pzero exposure = Raise e) /\
  (valid ->
   forall m2, stage2 = Ok m2 ->
     exists h,
       init endog exog offset dist zerodist p pzero exposure = Ok h /\
       Hurdle.model2 h = m2 /\
       Hurdle.k_extra1 h = 0%Z /\ Hurdle.k_extra2 h = 0%Z /\
       GenericTruncated.truncation m2 = 0%Z /\
       klass (GenericCensored.model_main (Hurdle.model1 h))
       = (if (zerodist =? "poisson")%string then Poisson
          else NegativeBinomialP) /\
       klass (GenericTruncated.model_main m2)
       = (if (dist =? "poisson")%string then Poisson
          else NegativeBinomialP) /\
       GenericTruncated.pyclass m2
       = (if (dist =? "poisson")%string
          then GenericTruncated.TruncatedPoisson
          else GenericTruncated.TruncatedNegativeBinomialP)).
Proof.
  intros valid stage2.
  assert (Hv : valid <->
               Hurdle.in_list dist ["poisson"; "negbin"]%string = true /\
               Hurdle.in_list zerodist ["poisson"; "negbin"]%string = true).
  { unfold valid. now rewrite !in_list_tags. }
  unfold init, Hurdle.__init__.
  cbn [CountModel.__init__ CountModel.endog CountModel.exog].
  fold stage2.
  destruct (Hurdle.in_list dist ["poisson"; "negbin"]%string) eqn:Hd;
    destruct (Hurdle.in_list zerodist ["poisson"; "negbin"]%string) eqn:Hz;
    cbn [negb orb].
  - split; [intros Hn; exfalso; apply Hn, Hv; now split|].
    split.
    + intros _ e He. now rewrite He.
    + intros _ m2 He. rewrite He. cbn [bind].
      destruct (positive_stage_ok _ _ _ _ He) as (Hs & Hk & Hc).
      eexists. split; [reflexivity|].
      cbn [Hurdle.model2 Hurdle.model1 Hurdle.k_extra1 Hurdle.k_extra2].
      split; [reflexivity|]. split; [reflexivity|]. split; [reflexivity|].
      split; [now rewrite Hs|].
      split; [now destruct (zerodist =? "poisson")%string|].
      split; [exact Hk | exact Hc].
  - split; [reflexivity|].
    split; intros Hval; apply Hv in Hval; destruct Hval; discriminate.
  - split; [reflexivity|].
    split; intros Hval; apply Hv in Hval; destruct Hval; discriminate.
  - split; [reflexivity|].
    split; intros Hval; apply Hv in Hval; destruct Hval; discriminate.
Qed.

(** X8.  The stages of an accepted model are built on the data alone: the
    offset and exposure given to the hurdle model reach neither stage, the
    parameterization [p] reaches only the positive stage, and [pzero] has
    no effect at all. *)
Theorem hurdle_init_stage_arguments (endog : list Z) (exog : matrix F)
    (offset exposure : option (list F)) (dist zerodist : string)
    (p pzero : F) (h : Hurdle.t F) :
  init endog exog offset dist zerodist p pzero exposure = Ok h ->
  GenericCensored.offset (Hurdle.model1 h) = None /\
  GenericCensored.exposure (Hurdle.model1 h) = None /\
  GenericTruncated.offset (Hurdle.model2 h) = None /\
  GenericTruncated.exposure (Hurdle.model2 h) = None /\
  b_p (args (GenericCensored.model_main (Hurdle.model1 h))) = None /\
  (forall offset' exposure' pzero',
      exists h',
        init endog exog offset' dist zerodist p pzero' exposure' = Ok h' /\
        Hurdle.model1 h' = Hurdle.model1 h /\
        Hurdle.model2 h' = Hurdle.model2 h).
Proof.
  intros E.
  destruct (hurdle_init_ok _ _ _ _ _ _ _ _ E)
    as (Hd & Hz & H2 & H1 & _).
  destruct (positive_stage_ok _ _ _ _ H2) as (Hs & _).
  split; [|split; [|split; [|split; [|split]]]].
  - rewrite H1. now destruct (zerodist =? "poisson")%string.
  - rewrite H1. now destruct (zerodist =? "poisson")%string.
  - now rewrite Hs.
  - now rewrite Hs.
  - rewrite H1. now destruct (zerodist =? "poisson")%string.
  - intros offset' exposure' pzero'.
    unfold init, Hurdle.__init__.
    cbn [CountModel.__init__ CountModel.endog CountModel.exog].
    rewrite Hd, Hz, H2. cbn [negb orb bind].
    eexists. split; [reflexivity|].
    cbn [Hurdle.model1 Hurdle.model2]. split; [now rewrite H1 | reflexivity].
Qed.

(** X9.  For count data (no negative response) the two stages share the
    sample as the model intends: the positive stage holds exactly the rows
    that the zero stage indexes as nonzero, in the same order, and the
    zero rows and the positive-stage rows add up to the sample. *)
Theorem hurdle_stage_samples (endog : list Z) (exog : matrix F)
    (offset exposure : option (list F)) (dist zerodist : string)
    (p pzero : F) (h : Hurdle.t F) :
  init endog exog offset dist zerodist p pzero exposure = Ok h ->
  Forall (fun y => (0 <= y)%Z) endog ->
  length (rows exog) = length endog ->
  take_idx endog (GenericCensored.nonzero_idx (Hurdle.model1 h))
  = Ok (GenericTruncated.endog (Hurdle.model2 h)) /\
  take_idx (rows exog) (GenericCensored.nonzero_idx (Hurdle.model1 h))
  = Ok (rows (GenericTruncated.exog (Hurdle.model2 h))) /\
  length (GenericCensored.zero_idx (Hurdle.model1 h))
  + length (GenericTruncated.endog (Hurdle.model2 h)) = length endog.
Proof.
  intros E Hnn Hlen.
  destruct (hurdle_init_ok _ _ _ _ _ _ _ _ E)
    as (_ & _ & Hm2 & Hm1 & _).
  destruct (positive_stage_ok _ _ _ _ Hm2) as (Hs & _).
  set (nz := fun y : Z => negb (y =? 0)%Z).
  assert (Hmask : map (fun y => (0 + 1 <=? y)%Z) endog = map nz endog).
  { apply map_ext_in. intros y Hy. rewrite Forall_forall in Hnn.
    specialize (Hnn y Hy). unfold nz.
    destruct (Z.leb_spec (0 + 1) y), (Z.eqb_spec y 0); simpl; auto; lia. }
  assert (H1 : GenericCensored.nonzero_idx (Hurdle.model1 h)
               = np_nonzero (map nz endog)).
  { rewrite Hm1. now destruct (zerodist =? "poisson")%string. }
  assert (H0 : GenericCensored.zero_idx (Hurdle.model1 h)
               = np_nonzero (map (fun y => (y =? 0)%Z) endog)).
  { rewrite Hm1. now destruct (zerodist =? "poisson")%string. }
  assert (He : GenericTruncated.endog (Hurdle.model2 h)
               = mask_select endog (map nz endog))
    by (rewrite Hs; cbn; now rewrite <- Hmask).
  assert (Hr : rows (GenericTruncated.exog (Hurdle.model2 h))
               = mask_select (rows exog) (map nz endog))
    by (rewrite Hs; cbn; now rewrite <- Hmask).
  rewrite H1, H0, He, Hr.
  split; [|split].
  - rewrite (take_idx_np_nonzero nz endog endog eq_refl).
    now rewrite (mask_select_filter nz endog endog eq_refl).
  - rewrite (take_idx_np_nonzero nz (rows exog) endog Hlen).
    now rewrite (mask_select_filter nz (rows exog) endog Hlen).
  - destruct (split_index_sets endog exog None None)
      as (Hperm & _).
    apply Permutation_length in Hperm.
    rewrite length_app, length_seq in Hperm.
    cbn [GenericCensored.__init__ GenericCensored.zero_idx
         GenericCensored.nonzero_idx] in Hperm.
    destruct (@take_idx_in_range Z endog (np_nonzero (map nz endog)))
      as (v & Hv & Hvl).
    { apply Forall_forall. intros i Hi. unfold np_nonzero in Hi.
      apply nonzero_from_In in Hi. destruct Hi as [_ Hi].
      rewrite Nat.sub_0_r in Hi.
      assert (Hsome : nth_error (map nz endog) i <> None) by congruence.
      apply nth_error_Some in Hsome. now rewrite length_map in Hsome. }
    rewrite (take_idx_np_nonzero nz endog endog eq_refl) in Hv.
    injection Hv as <-.
    rewrite (mask_select_filter nz endog endog eq_refl).
    unfold nz in *. lia.
Qed.
End HurdleInit.

(** ** Hurdle: concatenated parameters *)

Section HurdleConcat.
Context {F : Type} `{Float64 F}.




End HurdleConcat.

(** ** Hurdle: the result kind *)

Section HurdleKinds.
Context {F : Type} `{Float64 F}.

Lemma lower_ascii_idempotent (c : Ascii.ascii) :
  lower_ascii (lower_ascii c) = lower_ascii c.
Proof.
  destruct c as [[] [] [] [] [] [] [] []]; reflexivity.
Qed.

Lemma lower_idempotent (s : string) : lower (lower s) = lower s.
Proof.
  induction s as [|c s IH]; [reflexivity|].
  cbn [lower]. now rewrite lower_ascii_idempotent, IH.
Qed.

Lemma not_in_eqb (s : string) (kinds : list string) :
  ~ In s kinds -> forall k, In k kinds -> (s =? k)%string = false.
Proof.
  intros Hn k Hk. apply String.eqb_neq. intros ->. now apply Hn.
Qed.

(** X11.  [predict] of a hurdle model reads the result kind without regard
    to case: a kind and its lower-case form give the same result. *)
Theorem hurdle_predict_case_insensitive (ext : CountModel.methods F)
    (m : Hurdle.t F) (params : list F) (exog exog_zero : option (matrix F))
    (exposure offset : option (operand F)) (which : string)
    (y_values : option (list Z)) :
  Hurdle.predict ext m params exog exog_zero exposure offset which y_values
  = Hurdle.predict ext m params exog exog_zero exposure offset
                   (lower which) y_values /\
  Hurdle.predict ext m params exog exog_zero exposure offset "MEAN" y_values
  = Hurdle.predict ext m params exog exog_zero exposure offset "mean"
                   y_values.
Proof.
  unfold Hurdle.predict. rewrite lower_idempotent. split; reflexivity.
Qed.

Lemma hurdle_stages_unknown_kind (ext : CountModel.methods F)
    (m : Hurdle.t F) (params_zero params_main : list F) (exog : matrix F)
    (exposure offset : operand F) (which : string)
    (y_values : option (list Z)) :
  ~ In which Hurdle_kinds ->
  (forall v,
      Hurdle.predict_stages ext m params_zero params_main exog exposure
                            offset which y_values <> Ok v) /\
  (forall lin_pred mu1 prob_main prob_ntrunc,
      (d <- np_dot exog (firstn (shape1 (Hurdle.exog m)) params_main) ;;
       s <- badd d exposure ;; badd s offset) = Ok lin_pred ->
      CountModel.predict ext
        (GenericCensored.as_CountModel (Hurdle.model1 m))
        params_zero (Some exog) = Ok mu1 ->
      Base._prob_nonzero (GenericCensored.model_main (Hurdle.model1 m))
                         mu1 params_zero = Ok prob_main ->
      Base._prob_nonzero (GenericCensored.model_main (Hurdle.model1 m))
                         (vexp lin_pred) params_main = Ok prob_ntrunc ->
      Hurdle.predict_stages ext m params_zero params_main exog exposure
                            offset which y_values
      = Raise (ValueError ("which = " ++ which ++ " is not available"))).
Proof.
  intros Hn.
  pose proof (@not_in_eqb which Hurdle_kinds Hn) as Hk.
  split.
  - intros v. unfold Hurdle.predict_stages, Hurdle.self_exog.
    destruct (np_dot exog _) as [d|e]; [|discriminate]. cbn [bind].
    destruct (badd d exposure) as [s|e]; [|discriminate]. cbn [bind].
    destruct (badd s offset) as [lin_pred|e]; [|discriminate]. cbn [bind].
    destruct (CountModel.predict ext _ params_zero (Some exog)) as [mu1|e];
      [|discriminate]. cbn [bind].
    destruct (Base._prob_nonzero _ mu1 params_zero) as [prob_main|e];
      [|discriminate]. cbn [bind].
    destruct (Base._prob_nonzero _ (vexp lin_pred) params_main)
      as [prob_ntrunc|e]; [|discriminate]. cbn [bind].
    rewrite !Hk by (cbn; tauto). discriminate.
  - intros lin_pred mu1 prob_main prob_ntrunc Hlp Hmu1 Hmain Hnt.
    unfold Hurdle.predict_stages, Hurdle.self_exog.
    destruct (np_dot exog _) as [d|e]; [|discriminate]. cbn [bind] in *.
    destruct (badd d exposure) as [s|e]; [|discriminate]. cbn [bind] in *.
    rewrite Hlp. cbn [bind]. rewrite Hmu1. cbn [bind].
    rewrite Hmain. cbn [bind]. rewrite Hnt. cbn [bind].
    rewrite !Hk by (cbn; tauto). reflexivity.
Qed.

(** X12.  A result kind whose lower-case form is outside the eight that
    [predict] of a hurdle model knows never yields a value.  The kind is
    looked at last: once the statements before the dispatch have run (the
    linear predictor, [model1.predict] and the two calls of
    [_prob_nonzero]) the call raises ValueError naming the lower-cased
    kind.  The variance kind ['var'] is among the refused ones. *)
Theorem hurdle_predict_unknown_kind (ext : CountModel.methods F)
    (m : Hurdle.t F) (params : list F) (exog exog_zero : option (matrix F))
    (exposure offset : option (operand F)) (which : string)
    (y_values : option (list Z)) :
  ~ In (lower which) Hurdle_kinds ->
  (forall v,
      Hurdle.predict ext m params exog exog_zero exposure offset
                     which y_values <> Ok v) /\
  (forall (params_zero params_main : list F) (X : matrix F)
          (expo off : operand F) (lin_pred mu1 prob_main prob_ntrunc : list F),
      (d <- np_dot X (firstn (shape1 (Hurdle.exog m)) params_main) ;;
       s <- badd d expo ;; badd s off) = Ok lin_pred ->
      CountModel.predict ext
        (GenericCensored.as_CountModel (Hurdle.model1 m))
        params_zero (Some X) = Ok mu1 ->
      Base._prob_nonzero (GenericCensored.model_main (Hurdle.model1 m))
                         mu1 params_zero = Ok prob_main ->
      Base._prob_nonzero (GenericCensored.model_main (Hurdle.model1 m))
                         (vexp lin_pred) params_main = Ok prob_ntrunc ->
      Hurdle.predict_stages ext m params_zero params_main X expo off
                            (lower which) y_values
      = Raise (ValueError ("which = " ++ lower which
                           ++ " is not available"))) /\
  ~ In "var"%string Hurdle_kinds.
Proof.
  intros Hn. split; [|split].
  - intros v. unfold Hurdle.predict.
    destruct (CountModel._get_predict_arrays ext (Hurdle.as_CountModel m)
                                             exog offset exposure)
      as [[X off] expo].
    apply (hurdle_stages_unknown_kind ext m _ _ X expo off y_values Hn).
  - intros params_zero params_main X expo off lin_pred mu1 prob_main
           prob_ntrunc.
    exact (proj2 (hurdle_stages_unknown_kind ext m params_zero params_main
                    X expo off y_values Hn)
                 lin_pred mu1 prob_main prob_ntrunc).
  - cbn. intuition discriminate.
Qed.

(** X13.  For ['prob'] the first column of the returned matrix is the
    vector that ['prob-zero'] returns, whatever counts are requested, and
    the matrix has one row per row of the positive-stage pmf. *)
Theorem hurdle_prob_column0_is_prob_zero (ext : CountModel.methods F)
    (m : Hurdle.t F) (params_zero params_main : list F) (exog : matrix F)
    (exposure offset : operand F) (y_values : option (list Z))
    (M : list (list F)) :
  Hurdle.predict_stages ext m params_zero params_main exog exposure offset
                        "prob" y_values = Ok (VMat M) ->
  exists prob_zero,
    Hurdle.predict_stages ext m params_zero params_main exog exposure offset
                          "prob-zero" y_values = Ok (VVec prob_zero) /\
    length prob_zero = length M /\
    forall r, r < length M ->
      exists rest, nth r M [] = nth r prob_zero f0 :: rest.
Proof.
  unfold Hurdle.predict_stages.
  destruct (np_dot exog _) as [d|e]; [|discriminate]. cbn [bind].
  destruct (badd d exposure) as [s|e]; [|discriminate]. cbn [bind].
  destruct (badd s offset) as [lin_pred|e]; [|discriminate]. cbn [bind].
  destruct (CountModel.predict ext _ params_zero (Some exog)) as [mu1|e];
    [|discriminate]. cbn [bind].
  destruct (Base._prob_nonzero _ mu1 params_zero) as [prob_main|e];
    [|discriminate]. cbn [bind].
  destruct (Base._prob_nonzero _ (vexp lin_pred) params_main)
    as [prob_ntrunc|e]; [|discriminate]. cbn [bind].
  cbn [String.eqb Ascii.eqb Bool.eqb].
  destruct (Hurdle.model2_predict _ _ _ _ _ _ _ _) as [[v|P|a|]|e];
    try discriminate.
  cbn [bind].
  destruct (set_col0 _ _) as [M'|e] eqn:Hset; [|discriminate].
  cbn [bind]. intros Heq. injection Heq as <-.
  eexists. split; [reflexivity|].
  destruct (set_col0_spec _ _ Hset) as [Hlen Hnth].
  assert (Hpz : forall (A : list (list F)) (v : list F) (A' : list (list F)),
             set_col0 A v = Ok A' -> length v = length A').
  { induction A as [|row A IH]; intros v A' HA.
    - destruct v; [|discriminate]. now injection HA as <-.
    - destruct row as [|x row]; [discriminate|].
      destruct v as [|y v]; [discriminate|]. cbn [set_col0] in HA.
      destruct (set_col0 A v) as [rest|e] eqn:Hr; [|discriminate].
      cbn [bind] in HA. injection HA as <-. cbn [length].
      f_equal. now apply (IH v rest). }
  split; [exact (Hpz _ _ _ Hset)|].
  intros r Hr. eexists. apply Hnth. now rewrite <- Hlen.
Qed.
End HurdleKinds.

(** ** Hurdle: the method of the two stage fits *)

Section HurdleFitMethod.
Context {F : Type} `{Float64 F}.

(** X14.  [fit] of a hurdle model hands [method] to both stages, but the
    zero stage does not pass it on: whatever two methods are requested, the
    zero-stage results and the counter [k_extra1] come out the same. *)
Theorem hurdle_fit_zero_stage_ignores_method (fx : CountModel.fitting F)
    (m h1 h2 : Hurdle.t F) (r1 r2 : Hurdle.HurdleResults F)
    (start_params : option (list F)) (method1 method2 : string)
    (maxiter full_output disp : Z) (cov_type : string)
    (cov_kwds : option kwargs) (use_t : option bool) (kwds : kwargs) :
  Hurdle.fit fx m start_params method1 maxiter full_output disp
             cov_type cov_kwds use_t kwds = Ok (h1, r1) ->
  Hurdle.fit fx m start_params method2 maxiter full_output disp
             cov_type cov_kwds use_t kwds = Ok (h2, r2) ->
  Hurdle.results_model1 r1 = Hurdle.results_model1 r2 /\
  Hurdle.k_extra1 h1 = Hurdle.k_extra1 h2.
Proof.
  unfold Hurdle.fit.
  change (GenericCensored.fit fx (Hurdle.model1 m) start_params method2
            maxiter full_output disp "nonrobust" None None kwds)
    with (GenericCensored.fit fx (Hurdle.model1 m) start_params method1
            maxiter full_output disp "nonrobust" None None kwds).
  destruct (GenericCensored.fit fx (Hurdle.model1 m) start_params method1
              maxiter full_output disp "nonrobust" None None kwds)
    as [ra|e]; cbn [bind]; [|discriminate].
  destruct (GenericTruncated.fit fx (Hurdle.model2 m) start_params method1
              maxiter full_output disp "nonrobust" None None kwds)
    as [rb|e]; cbn [bind]; [|discriminate].
  destruct (GenericTruncated.fit fx (Hurdle.model2 m) start_params method2
              maxiter full_output disp "nonrobust" None None kwds)
    as [rc|e]; cbn [bind]; [|discriminate].
  intros E1 E2. injection E1 as <- <-. injection E2 as <- <-.
  split; reflexivity.
Qed.
End HurdleFitMethod.

(** ** The truncated [predict] methods: kinds and edge cases *)

Section TruncatedPredictEdges.
Context {F : Type} `{Float64 F}.
Variable ext : CountModel.methods F.
Variable m : GenericTruncated.t F.
Variable params : list F.
Variable exog : option (matrix F).
Variables exposure offset : option (operand F).
Variable count_prob : option (list Z).

(** X15.  The truncated Poisson and negative binomial [predict] know six
    result kinds, the Generalized-Poisson one four (not ['prob-main'] and
    ['var']); the kinds are matched as written, so ['Mean'] is unknown.
    An unknown kind never yields a value, and raises TypeError naming the
    kind once the part of the method before the dispatch has run. *)
Theorem truncated_predict_unknown_kind (which : string) :
  (~ In which TruncatedPoisson_kinds ->
   (forall v, TruncatedPoisson.predict ext m params exog exposure offset
                                       which count_prob <> Ok v) /\
   (forall x, linear_predictor ext m params exog exposure offset = Ok x ->
              TruncatedPoisson.predict ext m params exog exposure offset
                                       which count_prob
              = Raise (TypeError ("argument wich == " ++ which
                                  ++ " not handled"))) /\
   (forall v, TruncatedNegativeBinomialP.predict ext m params exog exposure
                offset which count_prob <> Ok v) /\
   (forall x alpha,
       linear_predictor ext m params exog exposure offset = Ok x ->
       last_param params = Ok alpha ->
       TruncatedNegativeBinomialP.predict ext m params exog exposure offset
                                          which count_prob
       = Raise (TypeError ("argument wich == " ++ which
                           ++ " not handled")))) /\
  (~ In which TruncatedGeneralizedPoisson_kinds ->
   (forall v, TruncatedGeneralizedPoisson.predict m params exog exposure
                offset which count_prob <> Ok v) /\
   (forall x,
       TruncatedGeneralizedPoisson.linear_pred m params exog exposure offset
       = Ok x ->
       TruncatedGeneralizedPoisson.predict m params exog exposure offset
                                           which count_prob
       = Raise (TypeError ("argument wich == " ++ which
                           ++ " not handled")))) /\
  ~ In "Mean"%string TruncatedPoisson_kinds /\
  ~ In "prob-main"%string TruncatedGeneralizedPoisson_kinds /\
  ~ In "var"%string TruncatedGeneralizedPoisson_kinds.
Proof.
  split; [|split; [|repeat split; cbn; intuition discriminate]].
  - intros Hn. pose proof (@not_in_eqb which TruncatedPoisson_kinds Hn) as Hk.
    assert (Hp : forall x,
      linear_predictor ext m params exog exposure offset = Ok x ->
      TruncatedPoisson.predict ext m params exog exposure offset
                               which count_prob
      = Raise (TypeError ("argument wich == " ++ which ++ " not handled"))).
    { intros x Hx. unfold TruncatedPoisson.predict. rewrite Hx.
      destruct x as [[[X o] e] lp]. cbn [bind].
      rewrite !Hk by (cbn; tauto). reflexivity. }
    assert (Hnb : forall x alpha,
      linear_predictor ext m params exog exposure offset = Ok x ->
      last_param params = Ok alpha ->
      TruncatedNegativeBinomialP.predict ext m params exog exposure offset
                                         which count_prob
      = Raise (TypeError ("argument wich == " ++ which ++ " not handled"))).
    { intros x alpha Hx Ha. unfold TruncatedNegativeBinomialP.predict.
      rewrite Hx. destruct x as [[[X o] e] lp]. cbn [bind].
      rewrite Ha. cbn [bind].
      rewrite !Hk by (cbn; tauto). reflexivity. }
    split; [|split; [exact Hp | split; [|exact Hnb]]].
    + intros v Hv.
      destruct (linear_predictor ext m params exog exposure offset)
        as [x|e] eqn:Hx.
      * rewrite (Hp x eq_refl) in Hv. discriminate.
      * unfold TruncatedPoisson.predict in Hv. rewrite Hx in Hv.
        discriminate.
    + intros v Hv.
      destruct (linear_predictor ext m params exog exposure offset)
        as [x|e] eqn:Hx.
      * destruct (last_param params) as [alpha|e] eqn:Ha.
        -- rewrite (Hnb x alpha eq_refl eq_refl) in Hv. discriminate.
        -- unfold TruncatedNegativeBinomialP.predict in Hv.
           rewrite Hx in Hv. destruct x as [[[X o] e'] lp].
           cbn [bind] in Hv. rewrite Ha in Hv. discriminate.
      * unfold TruncatedNegativeBinomialP.predict in Hv. rewrite Hx in Hv.
        discriminate.
  - intros Hn.
    pose proof (@not_in_eqb which TruncatedGeneralizedPoisson_kinds Hn) as Hk.
    assert (Hp : forall x,
      TruncatedGeneralizedPoisson.linear_pred m params exog exposure offset
      = Ok x ->
      TruncatedGeneralizedPoisson.predict m params exog exposure offset
                                          which count_prob
      = Raise (TypeError ("argument wich == " ++ which ++ " not handled"))).
    { intros x Hx. unfold TruncatedGeneralizedPoisson.predict. rewrite Hx.
      destruct x as [[[X o] e] lp]. cbn [bind].
      rewrite !Hk by (cbn; tauto). reflexivity. }
    split; [|exact Hp].
    intros v Hv.
    destruct (TruncatedGeneralizedPoisson.linear_pred m params exog
                                                      exposure offset)
      as [x|e] eqn:Hx.
    + rewrite (Hp x eq_refl) in Hv. discriminate.
    + unfold TruncatedGeneralizedPoisson.predict in Hv. rewrite Hx in Hv.
      discriminate.
Qed.

(** X16.  With a truncation point below -1 the branch ['mean'] matches
    none of its three cases: the call returns [None] instead of a mean. *)
Theorem truncated_mean_below_minus1_is_None :
  (GenericTruncated.truncation m < -1)%Z ->
  (forall x, linear_predictor ext m params exog exposure offset = Ok x ->
             TruncatedPoisson.predict ext m params exog exposure offset
                                      "mean" count_prob = Ok VNone) /\
  (forall x alpha,
      linear_predictor ext m params exog exposure offset = Ok x ->
      last_param params = Ok alpha ->
      TruncatedNegativeBinomialP.predict ext m params exog exposure offset
                                         "mean" count_prob = Ok VNone) /\
  (forall x,
      TruncatedGeneralizedPoisson.linear_pred m params exog exposure offset
      = Ok x ->
      TruncatedGeneralizedPoisson.predict m params exog exposure offset
                                          "mean" count_prob = Ok VNone).
Proof.
  intros Ht.
  assert (H0 : (GenericTruncated.truncation m =? 0)%Z = false)
    by (apply Z.eqb_neq; lia).
  assert (H1 : (GenericTruncated.truncation m =? -1)%Z = false)
    by (apply Z.eqb_neq; lia).
  assert (H2 : (0 <? GenericTruncated.truncation m)%Z = false)
    by (apply Z.ltb_ge; lia).
  split; [|split].
  - intros x Hx. unfold TruncatedPoisson.predict. rewrite Hx.
    destruct x as [[[X o] e] lp]. cbn [bind].
    cbn [String.eqb Ascii.eqb Bool.eqb]. now rewrite H0, H1, H2.
  - intros x alpha Hx Ha. unfold TruncatedNegativeBinomialP.predict.
    rewrite Hx. destruct x as [[[X o] e] lp]. cbn [bind].
    rewrite Ha. cbn [bind].
    cbn [String.eqb Ascii.eqb Bool.eqb]. now rewrite H0, H1, H2.
  - intros x Hx. unfold TruncatedGeneralizedPoisson.predict. rewrite Hx.
    destruct x as [[[X o] e] lp]. cbn [bind].
    cbn [String.eqb Ascii.eqb Bool.eqb]. now rewrite H0, H1, H2.
Qed.

End TruncatedPredictEdges.

(** ** The truncated constructors: what the base class is handed *)

Section TruncatedInitRejects.
Context {F : Type} `{Float64 F}.

Lemma filter_shorter (t : Z -> bool) (ys : list Z) :
  (exists y, In y ys /\ t y = false) ->
  length (filter t ys) < length ys.
Proof.
  intros (y & Hin & Hy). induction ys as [|x ys IH]; [destruct Hin|].
  cbn [filter]. destruct Hin as [->|Hin].
  - rewrite Hy. pose proof (filter_length_le t ys). simpl. lia.
  - specialize (IH Hin). destruct (t x); simpl; lia.
Qed.

Lemma new_rejected (c : CountClass F) (a : BaseArgs F) {A : Type}
    (k : BaseModel F -> result A) :
  is_ok (cls_init c a) = false ->
  is_ok (model <- Base.new c a ;; k model) = false.
Proof.
  unfold Base.new. destruct (cls_init c a) as [u|e]; [discriminate|].
  reflexivity.
Qed.

(** X17.  The subclass constructors build the base model on the retained
    rows, but hand [offset] and [exposure] over as they were passed, with
    one entry per row of the input.  For a base class that takes an
    observation set (it rejects an empty sample, and an offset or exposure
    that has not one entry per observation), no truncated model is
    constructed when every response lies at or below the truncation
    point, nor when an offset or exposure with one entry per input row is
    given and a row is discarded. *)
Theorem truncated_init_rejected_samples (c : CountClass F)
    (d : GenericTruncated.dist F) (endog : list Z) (exog : matrix F)
    (offset exposure : option (list F)) (truncation : Z) (p : F) :
  (forall a, b_endog a = [] -> is_ok (cls_init c a) = false) ->
  (forall a v, b_offset a = Some v \/ b_exposure a = Some v ->
               length v <> length (b_endog a) ->
               is_ok (cls_init c a) = false) ->
  Forall (fun y => (y <= truncation)%Z) endog \/
  ((exists y, In y endog /\ (y <= truncation)%Z) /\
   exists v, (offset = Some v \/ exposure = Some v) /\
             length v = length endog) ->
  is_ok (TruncatedPoisson.__init__ c d endog exog offset exposure
                                   truncation) = false /\
  is_ok (TruncatedNegativeBinomialP.__init__ c d endog exog offset exposure
                                             truncation p) = false /\
  is_ok (TruncatedGeneralizedPoisson.__init__ c endog exog offset exposure
                                              truncation p) = false.
Proof.
  intros Hempty Hlen Hcase.
  set (self := GenericTruncated.__init__ endog exog truncation
                                         offset exposure).
  assert (He : GenericTruncated.endog self
               = filter (fun y => (truncation + 1 <=? y)%Z) endog).
  { unfold self. cbn [GenericTruncated.__init__ GenericTruncated.endog
                      CountModel.__init__ CountModel.endog].
    apply mask_select_self. }
  assert (Hrej : forall bp,
    is_ok (cls_init c {| b_endog := GenericTruncated.endog self;
                         b_exog := GenericTruncated.exog self;
                         b_offset := offset; b_exposure := exposure;
                         b_p := bp |}) = false).
  { intros bp. destruct Hcase as [Hall | [Hex (v & Hv & Hvl)]].
    - apply Hempty. cbn [b_endog]. rewrite He. clear He.
      induction Hall as [|y ys Hy _ IH]; [reflexivity|].
      cbn [filter]. destruct (Z.leb_spec (truncation + 1) y); [lia|].
      exact IH.
    - apply (Hlen _ v); [exact Hv|]. cbn [b_endog]. rewrite He, Hvl.
      assert (Hlt : length (filter (fun y => (truncation + 1 <=? y)%Z) endog)
                    < length endog).
      { apply filter_shorter. destruct Hex as (y & Hin & Hy).
        exists y. split; [exact Hin|]. apply Z.leb_gt. lia. }
      lia. }
  split; [|split].
  - unfold TruncatedPoisson.__init__. fold self. apply new_rejected, Hrej.
  - unfold TruncatedNegativeBinomialP.__init__. fold self.
    apply new_rejected, Hrej.
  - unfold TruncatedGeneralizedPoisson.__init__. fold self.
    apply new_rejected, Hrej.
Qed.
End TruncatedInitRejects.

(** ** TruncatedGeneralizedPoisson: the branch ['prob'] *)

Section GeneralizedPoissonProb.
Context {F : Type} `{Float64 F}.

(** X18.  The constructor of TruncatedGeneralizedPoisson sets
    [model_dist = None], and the branch ['prob'] of its [predict] ends in
    [self.model_dist.pmf(...)]: on a model made by the constructor the
    branch never yields a value, whatever the parameters, the data and
    [count_prob].  Before that call the branch reads
    [self.model_main.parametrization]; where the base class has no
    attribute of that spelling, what the read raises is what leaves
    [predict], once the counts and the mean are computed. *)
Theorem generalized_poisson_prob_never_returns
    (GeneralizedPoisson : CountClass F) (endog : list Z) (X : matrix F)
    (off expo : option (list F)) (truncation : Z) (p : F)
    (m : GenericTruncated.t F)
    (params : list F) (exog : option (matrix F))
    (exposure offset : option (operand F)) (count_prob : option (list Z)) :
  TruncatedGeneralizedPoisson.__init__ GeneralizedPoisson endog X
                                       off expo truncation p = Ok m ->
  (forall v, TruncatedGeneralizedPoisson.predict m params exog exposure
               offset "prob" count_prob <> Ok v) /\
  (forall X' o' e' lin x' err counts,
      TruncatedGeneralizedPoisson.linear_pred m params exog exposure offset
      = Ok (X', o', e', lin) ->
      TruncatedGeneralizedPoisson.linear_pred m params (Some X') (Some e')
                                              (Some o') = Ok x' ->
      cls_parametrization GeneralizedPoisson
        (args (GenericTruncated.model_main m)) = Raise err ->
      TruncatedGeneralizedPoisson.predict m params exog exposure offset
                                          "prob" (Some counts)
      = Raise err).
Proof.
  intros E.
  destruct (TruncatedGeneralizedPoisson_init_ok _ _ _ _ _ _ _ E)
    as (_ & Hm & _ & Hd).
  assert (Hk : klass (GenericTruncated.model_main m) = GeneralizedPoisson)
    by (now rewrite Hm).
  split.
  - intros v. unfold TruncatedGeneralizedPoisson.predict.
    destruct (TruncatedGeneralizedPoisson.linear_pred m params exog
                                                      exposure offset)
      as [[[[X' o'] e'] lin]|e]; [|discriminate].
    cbn [bind]. cbn [String.eqb Ascii.eqb Bool.eqb].
    destruct (prob_counts m count_prob) as [counts|e]; [|discriminate].
    cbn [bind].
    destruct (TruncatedGeneralizedPoisson.linear_pred m params (Some X')
                (Some e') (Some o')) as [[[[X2 o2] e2] lin2]|e];
      [|discriminate].
    cbn [bind].
    destruct (cls_parametrization (klass (GenericTruncated.model_main m))
                                  (args (GenericTruncated.model_main m)))
      as [q|e]; [|discriminate].
    cbn [bind]. rewrite Hd. discriminate.
  - intros X' o' e' lin x' err counts H1 H2 H3.
    unfold TruncatedGeneralizedPoisson.predict. rewrite H1.
    cbn [bind]. cbn [String.eqb Ascii.eqb Bool.eqb].
    cbn [prob_counts bind]. rewrite H2.
    destruct x' as [[[X2 o2] e2] lin2]. cbn [bind].
    rewrite Hk, H3. reflexivity.
Qed.
End GeneralizedPoissonProb.

(** ** fit_regularized *)

Section RegularizedFit.
Context {F : Type} `{Float64 F}.

Lemma fit_regularized_unknown_method (rx : regularized F)
    (view : CountModel.t F) (model_main : BaseModel F)
    (loglikeobs : list F -> result (list F))
    (score_obs : list F -> result (list (list F)))
    (start_params : option (list F)) (method : string)
    (maxiter : iterations) (full_output disp : Z) (alpha : operand F)
    (trim_mode : string) (auto_trim_tol size_trim_tol qc_tol : F)
    (kwds : kwargs) (r : Results F) :
  ~ In method ["l1"; "l1_cvxopt_cp"]%string ->
  Regularized.fit_regularized rx view model_main loglikeobs score_obs
    start_params method maxiter full_output disp alpha trim_mode
    auto_trim_tol size_trim_tol qc_tol kwds <> Ok r.
Proof.
  intros Hn. unfold Regularized.fit_regularized.
  cbv zeta.
  match goal with
  | |- bind ?s _ <> _ => destruct s as [sp|e]; [|discriminate]
  end.
  cbn [bind].
  match goal with
  | |- bind ?s _ <> _ => destruct s as [cntfit|e]; [|discriminate]
  end.
  cbn [bind existsb].
  rewrite !(@not_in_eqb method ["l1"; "l1_cvxopt_cp"]%string Hn)
    by (cbn; tauto).
  discriminate.
Qed.

(** X19.  [fit_regularized] of the truncated and of the censored classes
    returns a result only for the methods ['l1'] and ['l1_cvxopt_cp']:
    for any other method no result is returned, whatever the penalized
    optimizer does with it.  When start values are passed, the base model
    is not fitted: the outcome does not depend on its penalized fit. *)
Theorem fit_regularized_methods (rx rx' : regularized F)
    (m : GenericTruncated.t F) (c : GenericCensored.t F)
    (start_params : option (list F)) (sp : list F) (method : string)
    (maxiter : iterations) (full_output disp : Z) (alpha : operand F)
    (trim_mode : string) (auto_trim_tol size_trim_tol qc_tol : F)
    (kwds : kwargs) :
  ~ In method ["l1"; "l1_cvxopt_cp"]%string ->
  reg_fit rx = reg_fit rx' ->
  reg_wrap rx = reg_wrap rx' ->
  (forall r,
      Regularized.GenericTruncated_fit_regularized rx m start_params method
        maxiter full_output disp alpha trim_mode auto_trim_tol size_trim_tol
        qc_tol kwds <> Ok r) /\
  (forall r,
      Regularized.GenericCensored_fit_regularized rx c start_params method
        maxiter full_output disp alpha trim_mode auto_trim_tol size_trim_tol
        qc_tol kwds <> Ok r) /\
  (forall method',
      Regularized.GenericTruncated_fit_regularized rx m (Some sp) method'
        maxiter full_output disp alpha trim_mode auto_trim_tol size_trim_tol
        qc_tol kwds
      = Regularized.GenericTruncated_fit_regularized rx' m (Some sp) method'
          maxiter full_output disp alpha trim_mode auto_trim_tol
          size_trim_tol qc_tol kwds) /\
  (forall method',
      Regularized.GenericCensored_fit_regularized rx c (Some sp) method'
        maxiter full_output disp alpha trim_mode auto_trim_tol size_trim_tol
        qc_tol kwds
      = Regularized.GenericCensored_fit_regularized rx' c (Some sp) method'
          maxiter full_output disp alpha trim_mode auto_trim_tol
          size_trim_tol qc_tol kwds).
Proof.
  intros Hn Hfit Hwrap.
  split; [|split; [|split]].
  - intros r. now apply fit_regularized_unknown_method.
  - intros r. now apply fit_regularized_unknown_method.
  - intros method'.
    unfold Regularized.GenericTruncated_fit_regularized,
      Regularized.fit_regularized.
    cbn [bind]. now rewrite Hfit, Hwrap.
  - intros method'.
    unfold Regularized.GenericCensored_fit_regularized,
      Regularized.fit_regularized.
    cbn [bind]. now rewrite Hfit, Hwrap.
Qed.
End RegularizedFit.

(** ** Hurdle: the parameter names *)

Section HurdleNames.

Lemma fold_insert_front {A B : Type} (f : A -> B) (l : list A) (acc : list B) :
  fold_left (fun names i => f i :: names) l acc = rev (map f l) ++ acc.
Proof.
  revert acc. induction l as [|x l IH]; intros acc; [reflexivity|].
  cbn [fold_left map rev]. rewrite IH, <- app_assoc. reflexivity.
Qed.

Lemma rev_names (n c : nat) :
  rev (map (fun j => zero_name (Z.of_nat (c + n) - Z.of_nat j))
           (seq 0 n))
  = map (fun j => zero_name (Z.of_nat j)) (seq (c + 1) n).
Proof.
  revert c. induction n as [|n IH]; intros c; [reflexivity|].
  rewrite (seq_S n (c + 1)), map_app.
  change (seq 0 (S n)) with (0%nat :: seq 1 n).
  cbn [map rev]. rewrite <- seq_shift, map_map.
  rewrite (map_ext _ (fun j => zero_name (Z.of_nat (c + n) - Z.of_nat j)))
    by (intros j; f_equal; lia).
  rewrite IH.
  replace (Z.of_nat (c + S n) - Z.of_nat 0)%Z
    with (Z.of_nat (c + 1 + n)) by lia.
  reflexivity.
Qed.

(** X20.  After the loop of [Hurdle.__init__] the list of names reads
    [zero_x1, ..., zero_x(k-1), inflate_const], followed by the names it
    held before, where [k] is the number of columns of [exog]: the loop
    inserts at the front while counting down.  The constructor adds
    [max(1, k)] names. *)
Theorem hurdle_exog_names_layout {F : Type} (exog : matrix F)
    (exog_names : list string) :
  hurdle_exog_names exog exog_names
  = map (fun j => zero_name (Z.of_nat j)) (seq 1 (shape1 exog - 1))
    ++ "inflate_const"%string :: exog_names /\
  length (hurdle_exog_names exog exog_names)
  = Nat.max 1 (shape1 exog) + length exog_names.
Proof.
  assert (E : hurdle_exog_names exog exog_names
              = map (fun j => zero_name (Z.of_nat j))
                    (seq 1 (shape1 exog - 1))
                ++ "inflate_const"%string :: exog_names).
  { unfold hurdle_exog_names, py_range_down.
    rewrite fold_insert_front, map_map.
    replace (Z.to_nat (Z.of_nat (shape1 exog) - 1)) with (shape1 exog - 1)
      by lia.
    rewrite (map_ext_in _ (fun j => zero_name
               (Z.of_nat (0 + (shape1 exog - 1)) - Z.of_nat j))).
    - now rewrite rev_names.
    - intros j Hj. apply in_seq in Hj. f_equal. lia. }
  split; [exact E|].
  rewrite E, length_app, length_map, length_seq. cbn [length]. lia.
Qed.
End HurdleNames.

(** ** The dispersion factor *)

Section DispersionFactor.
Context {F : Type} `{Float64 F}.

(** X21.  The dispersion factor of the truncated Poisson and negative
    binomial results exists for zero truncation only: at any other
    truncation point reading it raises NotImplementedError, before the
    parameters or the data are looked at. *)
Theorem dispersion_factor_needs_zero_truncation (ext : CountModel.methods F)
    (model : GenericTruncated.t F) (params : list F) :
  GenericTruncated.trunc model <> 0%Z ->
  TruncatedPoissonResults._dispersion_factor ext model params
  = Raise (NotImplementedError
             "dispersion is only available for zero-truncation") /\
  TruncatedNegativeBinomialResults._dispersion_factor ext model params
  = Raise (NotImplementedError
             "dispersion is only available for zero-truncation").
Proof.
  intros Ht. apply Z.eqb_neq in Ht.
  unfold TruncatedPoissonResults._dispersion_factor,
    TruncatedNegativeBinomialResults._dispersion_factor.
  now rewrite Ht.
Qed.
End DispersionFactor.

(** ** Hurdle: where [predict] consults the positive stage *)

Section HurdleStages.
Context {F : Type} `{Float64 F}.

Lemma stages_ignore_model2 (ext : CountModel.methods F) (m : Hurdle.t F)
    (model2 : GenericTruncated.t F) (params_zero params_main : list F)
    (exog : matrix F) (exposure offset : operand F) (which : string)
    (y_values : option (list Z)) :
  which <> "prob"%string ->
  Hurdle.predict_stages ext (HurdleDocumented.with_model2 m model2)
                        params_zero params_main exog exposure offset
                        which y_values
  = Hurdle.predict_stages ext m params_zero params_main exog exposure offset
                          which y_values.
Proof.
  intros Hw. apply String.eqb_neq in Hw.
  unfold Hurdle.predict_stages, Hurdle.self_exog.
  cbn [HurdleDocumented.with_model2 Hurdle.exog Hurdle.model1
       Hurdle.model2].
  destruct (np_dot exog _) as [d|e]; [|reflexivity]. cbn [bind].
  destruct (badd d exposure) as [s|e]; [|reflexivity]. cbn [bind].
  destruct (badd s offset) as [lin_pred|e]; [|reflexivity]. cbn [bind].
  destruct (CountModel.predict ext _ params_zero (Some exog)) as [mu1|e];
    [|reflexivity]. cbn [bind].
  destruct (Base._prob_nonzero _ mu1 params_zero) as [prob_main|e];
    [|reflexivity]. cbn [bind].
  destruct (Base._prob_nonzero _ (vexp lin_pred) params_main)
    as [prob_ntrunc|e]; [|reflexivity]. cbn [bind].
  now rewrite Hw.
Qed.

(** X22.  [predict] of a hurdle model consults its positive stage,
    [model2], for the kind ['prob'] alone: for every other kind the
    outcome, value or exception, is the same whatever truncated model is
    in the place of [model2]. *)
Theorem hurdle_predict_ignores_positive_stage (ext : CountModel.methods F)
    (m : Hurdle.t F) (model2 : GenericTruncated.t F) (params : list F)
    (exog exog_zero : option (matrix F))
    (exposure offset : option (operand F)) (which : string)
    (y_values : option (list Z)) :
  lower which <> "prob"%string ->
  Hurdle.predict ext (HurdleDocumented.with_model2 m model2) params
                 exog exog_zero exposure offset which y_values
  = Hurdle.predict ext m params exog exog_zero exposure offset
                   which y_values.
Proof.
  intros Hw. unfold Hurdle.predict.
  change (Hurdle.as_CountModel (HurdleDocumented.with_model2 m model2))
    with (Hurdle.as_CountModel m).
  destruct (CountModel._get_predict_arrays ext (Hurdle.as_CountModel m)
                                           exog offset exposure)
    as [[X off] expo].
  cbn [HurdleDocumented.with_model2 Hurdle.k_extra1 Hurdle.k_extra2].
  now apply stages_ignore_model2.
Qed.
End HurdleStages.

(** ** GenericTruncated: what the truncated mass is computed from *)

Section TruncatedContext.
Context {F : Type} `{Float64 F}.

Lemma loglikeobs_steps_agree (m m' : GenericTruncated.t F)
    (params : list F) :
  GenericTruncated.endog m' = GenericTruncated.endog m ->
  GenericTruncated.exog m' = GenericTruncated.exog m ->
  klass (GenericTruncated.model_main m')
  = klass (GenericTruncated.model_main m) ->
  forall (l : list Z) (pmf : list F),
    fold_left (GenericTruncated.loglikeobs_step m' params) l pmf
    = fold_left (GenericTruncated.loglikeobs_step m params) l pmf.
Proof.
  intros He HX Hk l. induction l as [|i l IH]; intros pmf; [reflexivity|].
  cbn [fold_left]. rewrite IH. f_equal.
  unfold GenericTruncated.loglikeobs_step. now rewrite He, HX, Hk.
Qed.

(** X23.  The truncated mass that [loglikeobs] subtracts is computed from
    the class of [model_main], the retained responses, [exog] and the
    truncation point, and from nothing else: two truncated models that
    agree on these have the same mass for every observation, whatever
    offset, exposure and parameterization their base models were built
    with; their [loglikeobs] differ by what their base models differ. *)
Theorem truncated_mass_ignores_context (m m' : GenericTruncated.t F)
    (params : list F) :
  GenericTruncated.endog m' = GenericTruncated.endog m ->
  GenericTruncated.exog m' = GenericTruncated.exog m ->
  GenericTruncated.trunc m' = GenericTruncated.trunc m ->
  klass (GenericTruncated.model_main m')
  = klass (GenericTruncated.model_main m) ->
  (forall r, sum_pmf m' params r = sum_pmf m params r) /\
  exists pmf : list F,
    GenericTruncated.loglikeobs m params
    = vsub (Base.loglikeobs (GenericTruncated.model_main m) params)
           (vlog (one_minus pmf)) /\
    GenericTruncated.loglikeobs m' params
    = vsub (Base.loglikeobs (GenericTruncated.model_main m') params)
           (vlog (one_minus pmf)).
Proof.
  intros He HX Ht Hk. split.
  - intros r. unfold sum_pmf, pmf_at, counterfactual.
    now rewrite He, HX, Ht, Hk.
  - exists (fold_left (GenericTruncated.loglikeobs_step m params)
                      (py_range (GenericTruncated.trunc m + 1))
                      (zeros_like (GenericTruncated.endog m))).
    split; [reflexivity|].
    unfold GenericTruncated.loglikeobs.
    rewrite (loglikeobs_steps_agree m m' params He HX Hk), Ht.
    unfold zeros_like. now rewrite He.
Qed.
End TruncatedContext.

(** ** GenericTruncated: the truncated mass under an offset *)

Section TruncatedOffsetExample.
Import RealModel Inputs.
Local Open Scope R_scope.

(** X24.  The models rebuilt in the loops of [loglikeobs] and [score_obs]
    receive neither offset nor exposure.  On the zero-truncated Poisson
    model with the single observation [y = 1], [x = 1] and the offset
    [[1]], at [params = [0]], the mass that the code subtracts is
    [e^-1], the probability of a zero at the mean [e^0]; the base
    distribution of that observation has the mean [e^1] and gives a zero
    the probability [e^-e]. *)
Theorem truncated_mass_drops_offset :
  match tp_offset with
  | Raise _ => False
  | Ok m =>
      sum_pmf m [0] 0 = exp (- (1)) /\
      sum_pmf_in_context m [0] 0 = exp (- exp 1) /\
      sum_pmf m [0] 0 <> sum_pmf_in_context m [0] 0
  end.
Proof.
  cbv -[Rplus Rminus Rmult Rdiv Ropp exp ln IZR INR Rinv Rpower].
  replace (0 + 1 * 0 + 0 + 0) with 0 by lra.
  replace (0 + 1 * 0 + 1 + 0) with 1 by lra.
  rewrite exp_0. simpl INR. rewrite ln_1.
  replace (- (1) + 0 * 0 - 0) with (- (1)) by lra.
  replace (- exp 1 + 0 * 1 - 0) with (- exp 1) by lra.
  assert (Hlt : exp (- exp 1) < exp (- (1))).
  { apply exp_increasing.
    assert (He : 1 + 1 < exp 1) by (apply exp_ineq1; lra). lra. }
  repeat split; lra.
Qed.
End TruncatedOffsetExample.

(** ** The further properties on concrete data *)

Section FurtherExamples.
Import RealModel Inputs.
Local Open Scope R_scope.

Lemma truncated_loglikeobs_entries_witness :
  match tp0 with
  | Raise _ => False
  | Ok m =>
      length (GenericTruncated.loglikeobs m [0]) = 1%nat /\
      forall r, (r < 1)%nat ->
        nth r (GenericTruncated.loglikeobs m [0]) 0
        = nth r (Base.loglikeobs (GenericTruncated.model_main m) [0]) 0
          - ln (1 - sum_pmf m [0] r)
  end.
Proof.
  destruct tp0 as [m|e] eqn:E; [|discriminate E].
  destruct (@tp_single_built None 0%Z m E ltac:(lia))
    as (Hd & He & _ & _ & _ & _ & Hc).
  pose proof (@truncated_loglikeobs_entries R Float64_R m [0] 1%nat
                (Hc [0]) Hd) as Hw.
  rewrite He in Hw. exact Hw.
Defined.

Lemma truncated_score_obs_shape_witness :
  match tp0 with
  | Raise _ => False
  | Ok m =>
      length (GenericTruncated.score_obs m [0]) = 1%nat /\
      Forall (fun row => length row = 1%nat)
             (GenericTruncated.score_obs m [0])
  end.
Proof.
  destruct tp0 as [m|e] eqn:E; [|discriminate E].
  destruct (@tp_single_built None 0%Z m E ltac:(lia))
    as (Hd & He & _ & _ & _ & _ & Hc).
  pose proof (@truncated_score_obs_shape R Float64_R m [0] 1%nat
                (Hc [0]) Hd) as Hw.
  rewrite He in Hw. exact Hw.
Defined.

(** For [endog = [0, 2, 0, 5]] the score has its four rows. *)
Lemma censored_score_obs_layout_witness :
  exists s, GenericCensored.score_obs cens4 [0] = Ok s /\ length s = 4%nat.
Proof.
  rewrite (@censored_score_obs_layout R Float64_R [0; 2; 0; 5]%Z X4
             None None cens4 [0]
             (by_Censored [0; 2; 0; 5]%Z X4 None None
                          Poisson truncatedpoisson)
             eq_refl eq_refl).
  eexists. split; reflexivity.
Defined.

Lemma censored_loglikeobs_complete_witness :
  exists v, GenericCensored.loglikeobs cens4 [0] = Ok v /\ length v = 4%nat.
Proof.
  destruct (@censored_loglikeobs_complete R Float64_R [0; 2; 0; 5]%Z X4
              None None cens4 [0]
              (by_Censored [0; 2; 0; 5]%Z X4 None None
                           Poisson truncatedpoisson)) as [Hok _].
  apply Hok. simpl. lia.
Defined.

Lemma truncated_init_keeps_witness :
  Forall (fun y => (0 < y)%Z)
         (GenericTruncated.endog
            (GenericTruncated.__init__ [0; 2; 0; 5]%Z X4 0 None None)) /\
  (length (GenericTruncated.endog
             (GenericTruncated.__init__ [0; 2; 0; 5]%Z X4 0 None None))
   <= 4)%nat.
Proof.
  destruct (@truncated_init_keeps R Float64_R [0; 2; 0; 5]%Z X4 0
              None None eq_refl) as (Hall & Hlen & _).
  split; [exact Hall | exact Hlen].
Defined.

(** The positive stage of the hurdle models of the inputs is
    constructed. *)
Lemma positive_stage_built :
  exists m2,
    Hurdle.positive_stage Poisson Poisson truncatedpoisson truncatedpoisson
                          "poisson" 2 [0; 1]%Z X2 = Ok m2.
Proof. eexists. reflexivity. Qed.

Lemma hurdle_pp_built : exists h, hurdle_pp = Ok h.
Proof. eexists. reflexivity. Qed.

Lemma hurdle_init_tags_witness :
  hurdle_init Poisson truncatedpoisson "gamma" "poisson"
  = Raise (NotImplementedError Hurdle.tags_message) /\
  match hurdle_pp with
  | Raise _ => False
  | Ok h =>
      Hurdle.k_extra1 h = 0%Z /\ Hurdle.k_extra2 h = 0%Z /\
      GenericTruncated.truncation (Hurdle.model2 h) = 0%Z
  end.
Proof.
  split.
  - destruct (@hurdle_init_tags R Float64_R Poisson Poisson truncatedpoisson
                truncatedpoisson [0; 1]%Z X2 None None
                "gamma"%string "poisson"%string 2 2) as [Hbad _].
    apply Hbad. intros [[Hd|Hd] _]; discriminate Hd.
  - destruct positive_stage_built as [m2 Hm2].
    destruct (@hurdle_init_tags R Float64_R Poisson Poisson truncatedpoisson
                truncatedpoisson [0; 1]%Z X2 None None
                "poisson"%string "poisson"%string 2 2) as (_ & _ & Hok).
    destruct (Hok ltac:(split; left; reflexivity) m2 Hm2)
      as (h & Hh & Hm & H1 & H2 & Ht & _).
    unfold hurdle_pp, hurdle_init. rewrite Hh, Hm.
    split; [exact H1 | split; [exact H2 | exact Ht]].
Defined.

Lemma hurdle_init_stage_arguments_witness :
  match hurdle_pp with
  | Raise _ => False
  | Ok h =>
      GenericCensored.offset (Hurdle.model1 h) = None /\
      GenericTruncated.exposure (Hurdle.model2 h) = None
  end.
Proof.
  destruct hurdle_pp as [h|e] eqn:E; [|discriminate E].
  destruct (@hurdle_init_stage_arguments R Float64_R Poisson Poisson
              truncatedpoisson truncatedpoisson [0; 1]%Z X2 None None
              "poisson"%string "poisson"%string 2 2 h E)
    as (H1 & _ & _ & H4 & _).
  split; [exact H1 | exact H4].
Defined.

Lemma hurdle_stage_samples_witness :
  match hurdle_pp with
  | Raise _ => False
  | Ok h =>
      take_idx [0; 1]%Z (GenericCensored.nonzero_idx (Hurdle.model1 h))
      = Ok (GenericTruncated.endog (Hurdle.model2 h))
  end.
Proof.
  destruct hurdle_pp as [h|e] eqn:E; [|discriminate E].
  destruct (@hurdle_stage_samples R Float64_R Poisson Poisson
              truncatedpoisson truncatedpoisson [0; 1]%Z X2 None None
              "poisson"%string "poisson"%string 2 2 h E)
    as (H1 & _).
  - repeat constructor; lia.
  - reflexivity.
  - exact H1.
Defined.


Lemma hurdle_predict_unknown_kind_witness :
  match hurdle_pp with
  | Raise _ => False
  | Ok h =>
      is_ok (Hurdle.predict methods h [0; 0] None None None None
                            "var" None) = false
  end.
Proof.
  destruct hurdle_pp as [h|e] eqn:E; [|discriminate E].
  destruct (@hurdle_predict_unknown_kind R Float64_R methods h [0; 0]
              None None None None "var"%string None) as [Hno _].
  - cbn. intuition discriminate.
  - destruct (Hurdle.predict methods h [0; 0] None None None None
                             "var" None) as [v|e].
    + exfalso. exact (Hno v eq_refl).
    + reflexivity.
Defined.

(** ['prob'] over the counts [[1, 0]] on the Poisson-Poisson hurdle model
    returns a matrix. *)
Lemma hurdle_pp_prob (h : Hurdle.t R) :
  hurdle_pp = Ok h ->
  exists M,
    Hurdle.predict_stages methods h [0] [0] X2 (Scal 0) (Scal 0)
                          "prob" (Some [1; 0]%Z) = Ok (VMat M).
Proof.
  intros E.
  cbv -[Rplus Rminus Rmult Rdiv Ropp exp ln IZR INR Rinv Rpower] in E.
  injection E as <-.
  eexists. reflexivity.
Qed.

(** The requested counts [[1, 0]] on the Poisson-Poisson hurdle model:
    the first column of ['prob'] holds the probabilities of a zero. *)
Lemma hurdle_prob_column0_is_prob_zero_witness :
  match hurdle_pp with
  | Raise _ => False
  | Ok h =>
      exists M prob_zero,
        Hurdle.predict_stages methods h [0] [0] X2 (Scal 0) (Scal 0)
                              "prob" (Some [1; 0]%Z) = Ok (VMat M) /\
        Hurdle.predict_stages methods h [0] [0] X2 (Scal 0) (Scal 0)
                              "prob-zero" (Some [1; 0]%Z)
        = Ok (VVec prob_zero) /\
        length prob_zero = length M
  end.
Proof.
  destruct hurdle_pp as [h|e] eqn:E; [|discriminate E].
  destruct (hurdle_pp_prob E) as [M HM].
  destruct (@hurdle_prob_column0_is_prob_zero R Float64_R methods h [0] [0]
              X2 (Scal 0) (Scal 0) (Some [1; 0]%Z) M HM)
    as (pz & Hpz & Hlen & _).
  exists M, pz. split; [exact HM | split; [exact Hpz | exact Hlen]].
Defined.

Lemma hurdle_fit_zero_stage_ignores_method_witness :
  match hurdle_pp with
  | Raise _ => False
  | Ok h =>
      exists h1 r1 h2 r2,
        Hurdle.fit fitting h None "bfgs" 35 1 1
                   "nonrobust" None None [] = Ok (h1, r1) /\
        Hurdle.fit fitting h None "newton" 35 1 1
                   "nonrobust" None None [] = Ok (h2, r2) /\
        Hurdle.results_model1 r1 = Hurdle.results_model1 r2 /\
        Hurdle.k_extra1 h1 = Hurdle.k_extra1 h2
  end.
Proof.
  destruct hurdle_pp as [h|e] eqn:E; [|discriminate E].
  unfold hurdle_pp, hurdle_init in E.
  destruct (@fit_returns_after_init R Float64_R fitting None "bfgs"%string
              35%Z 1%Z 1%Z "nonrobust"%string None None []
              _ _ _ _ _ _ _ _ _ _ _ _ h E) as (h1 & r1 & H1).
  destruct (@fit_returns_after_init R Float64_R fitting None "newton"%string
              35%Z 1%Z 1%Z "nonrobust"%string None None []
              _ _ _ _ _ _ _ _ _ _ _ _ h E) as (h2 & r2 & H2).
  destruct (@hurdle_fit_zero_stage_ignores_method R Float64_R fitting h
              h1 h2 r1 r2 None "bfgs"%string "newton"%string
              35%Z 1%Z 1%Z "nonrobust"%string None None [] H1 H2)
    as [Hr Hk].
  exists h1, r1, h2, r2.
  split; [exact H1 | split; [exact H2 | split; [exact Hr | exact Hk]]].
Defined.

(** The opening of [predict] on the truncated Poisson models of one
    observation. *)
Lemma tp0_linear (m : GenericTruncated.t R) :
  tp0 = Ok m ->
  exists x, linear_predictor methods m [0] None None None = Ok x.
Proof.
  intros E.
  cbv -[Rplus Rminus Rmult Rdiv Ropp exp ln IZR INR Rinv Rpower] in E.
  injection E as <-.
  eexists. reflexivity.
Qed.

Lemma tp_low_linear (m : GenericTruncated.t R) :
  TruncatedPoisson.__init__ Poisson truncatedpoisson [1%Z] X1
                            None None (-2) = Ok m ->
  exists x, linear_predictor methods m [0] None None None = Ok x.
Proof.
  intros E.
  cbv -[Rplus Rminus Rmult Rdiv Ropp exp ln IZR INR Rinv Rpower] in E.
  injection E as <-.
  eexists. reflexivity.
Qed.

(** The kinds are matched as written: ['Mean'] is refused by the truncated
    Poisson model. *)
Lemma truncated_predict_unknown_kind_witness :
  match tp0 with
  | Raise _ => False
  | Ok m =>
      TruncatedPoisson.predict methods m [0] None None None "Mean" None
      = Raise (TypeError "argument wich == Mean not handled")
  end.
Proof.
  destruct tp0 as [m|e] eqn:E; [|discriminate E].
  destruct (tp0_linear E) as [x Hx].
  destruct (@truncated_predict_unknown_kind R Float64_R methods m [0]
              None None None None "Mean"%string) as [Hp _].
  destruct Hp as (_ & Hraise & _); [cbn; intuition discriminate|].
  exact (Hraise x Hx).
Defined.

Lemma truncated_mean_below_minus1_is_None_witness :
  match TruncatedPoisson.__init__ Poisson truncatedpoisson [1%Z] X1
                                  None None (-2) with
  | Raise _ => False
  | Ok m =>
      TruncatedPoisson.predict methods m [0] None None None "mean" None
      = Ok VNone
  end.
Proof.
  destruct (TruncatedPoisson.__init__ Poisson truncatedpoisson [1%Z] X1
                                      None None (-2)) as [m|e] eqn:E;
    [|discriminate E].
  destruct (tp_low_linear E) as [x Hx].
  destruct (@tp_single_built None (-2)%Z m E ltac:(lia))
    as (_ & _ & _ & _ & Ht & _).
  destruct (@truncated_mean_below_minus1_is_None R Float64_R methods m
              [0] None None None None ltac:(rewrite Ht; lia)) as [Hp _].
  exact (Hp x Hx).
Defined.

(** The Poisson class over the reals takes an observation set. *)
Lemma check_sample_empty (a : BaseArgs R) :
  b_endog a = [] -> is_ok (cls_init Poisson a) = false.
Proof.
  intros He. cbn [cls_init Poisson]. unfold check_sample.
  now rewrite He.
Qed.

Lemma check_sample_lengths (a : BaseArgs R) (v : list R) :
  b_offset a = Some v \/ b_exposure a = Some v ->
  length v <> length (b_endog a) ->
  is_ok (cls_init Poisson a) = false.
Proof.
  intros Hv Hne. apply Nat.eqb_neq in Hne.
  cbn [cls_init Poisson]. unfold check_sample.
  destruct (Nat.eqb (length (b_endog a)) 0); [reflexivity|].
  destruct (negb (Nat.eqb (length (rows (b_exog a)))
                          (length (b_endog a)))); [reflexivity|].
  destruct Hv as [Hv|Hv].
  - rewrite Hv. cbn [fits_sample]. rewrite Hne. reflexivity.
  - destruct (negb (fits_sample (length (b_endog a)) (b_offset a)));
      [reflexivity|].
    rewrite Hv. cbn [fits_sample]. rewrite Hne. reflexivity.
Qed.

(** Zero truncation discards the response 0 of [endog = [0, 2]]; the
    offset [[1, 1]] then has one entry more than the retained sample. *)
Lemma truncated_init_rejected_samples_witness :
  is_ok (TruncatedPoisson.__init__ Poisson truncatedpoisson [0; 2]%Z X2
                                   (Some [1; 1]) None 0) = false.
Proof.
  destruct (@truncated_init_rejected_samples R Float64_R Poisson
              truncatedpoisson [0; 2]%Z X2 (Some [1; 1]) None 0%Z 2
              check_sample_empty check_sample_lengths) as [Hp _].
  - right. split.
    + exists 0%Z. split; [left; reflexivity | lia].
    + exists [1; 1]. split; [left; reflexivity | reflexivity].
  - exact Hp.
Defined.

(** The opening of [predict] on the Generalized-Poisson model of the
    inputs, and its repetition under ['prob']. *)
Lemma tgp2_linear (m : GenericTruncated.t R) :
  tgp2 = Ok m ->
  exists X' o' e' lin x',
    TruncatedGeneralizedPoisson.linear_pred m [0; 1] None None None
    = Ok (X', o', e', lin) /\
    TruncatedGeneralizedPoisson.linear_pred m [0; 1] (Some X') (Some e')
                                            (Some o') = Ok x'.
Proof.
  intros E.
  cbv -[Rplus Rminus Rmult Rdiv Ropp exp ln IZR INR Rinv Rpower] in E.
  injection E as <-.
  assert (Hq : Req_bool 0 0 = true).
  { unfold Req_bool. destruct (Req_dec_T 0 0); [reflexivity | contradiction]. }
  do 5 eexists. split; [reflexivity|].
  unfold TruncatedGeneralizedPoisson.linear_pred.
  cbn -[Rplus Rminus Rmult Rdiv Ropp exp ln IZR INR Rinv Rpower Req_bool].
  rewrite Hq. reflexivity.
Qed.

(** On the Generalized-Poisson model of the inputs ['prob'] ends at the
    read of [parametrization]. *)
Lemma generalized_poisson_prob_never_returns_witness :
  match tgp2 with
  | Raise _ => False
  | Ok m =>
      exists msg,
        TruncatedGeneralizedPoisson.predict m [0; 1] None None None
                                            "prob" (Some [3%Z])
        = Raise (AttributeError msg)
  end.
Proof.
  destruct tgp2 as [m|e] eqn:E; [|discriminate E].
  destruct (tgp2_linear E) as (X' & o' & e' & lin & x' & H1 & H2).
  destruct (@generalized_poisson_prob_never_returns R Float64_R Poisson
              [3%Z] X1 None None 2%Z 2 m [0; 1] None None None
              (Some [3%Z]) E) as [_ Hraise].
  eexists. eapply Hraise; [exact H1 | exact H2 | reflexivity].
Defined.

Lemma fit_regularized_methods_witness :
  match tp0 with
  | Raise _ => False
  | Ok m =>
      is_ok (Regularized.GenericTruncated_fit_regularized RealRegularized m
               None "bfgs" (IterName "defined_by_method") 1 1 (Scal 0)
               "auto" (1 / 100) (1 / 10000) (3 / 100) []) = false
  end.
Proof.
  destruct tp0 as [m|e] eqn:E; [|discriminate E].
  destruct (@fit_regularized_methods R Float64_R RealRegularized
              RealRegularized m cens4 None [0] "bfgs"%string
              (IterName "defined_by_method") 1%Z 1%Z (Scal 0)
              "auto"%string (1 / 100) (1 / 10000) (3 / 100) [])
    as [Hno _].
  - cbn. intuition discriminate.
  - reflexivity.
  - reflexivity.
  - destruct (Regularized.GenericTruncated_fit_regularized RealRegularized
                m None "bfgs" (IterName "defined_by_method") 1 1 (Scal 0)
                "auto" (1 / 100) (1 / 10000) (3 / 100) []) as [r|e].
    + exfalso. exact (Hno r eq_refl).
    + reflexivity.
Defined.

Lemma dispersion_factor_needs_zero_truncation_witness :
  match TruncatedPoisson.__init__ Poisson truncatedpoisson [3%Z] X1
                                  None None 2 with
  | Raise _ => False
  | Ok m =>
      TruncatedPoissonResults._dispersion_factor methods m [0]
      = Raise (NotImplementedError
                 "dispersion is only available for zero-truncation")
  end.
Proof.
  destruct (TruncatedPoisson.__init__ Poisson truncatedpoisson [3%Z] X1
                                      None None 2) as [m|e] eqn:E;
    [|discriminate E].
  destruct (TruncatedPoisson_init_ok _ _ _ _ _ _ _ E) as (Hs & _).
  destruct (@dispersion_factor_needs_zero_truncation R Float64_R methods
              m [0]) as [Hp _].
  - rewrite Hs. simpl. lia.
  - exact Hp.
Defined.

(** The mean of the Poisson-Poisson hurdle model of the inputs with the
    one-observation truncated model in the place of its positive
    stage. *)
Lemma hurdle_predict_ignores_positive_stage_witness :
  match hurdle_pp, tp0 with
  | Ok h, Ok m =>
      Hurdle.predict methods (HurdleDocumented.with_model2 h m) [0; 0]
                     None None None None "mean" None
      = Hurdle.predict methods h [0; 0] None None None None "mean" None
  | _, _ => False
  end.
Proof.
  destruct hurdle_pp as [h|e] eqn:E; [|discriminate E].
  destruct tp0 as [m|e] eqn:E0; [|discriminate E0].
  apply (@hurdle_predict_ignores_positive_stage R Float64_R methods h m
           [0; 0] None None None None "mean"%string None).
  cbn. discriminate.
Defined.

(** With and without the offset [[1]] the mass below the truncation point
    is the same. *)
Lemma truncated_mass_ignores_context_witness :
  match tp0, tp_offset with
  | Ok m, Ok m' => sum_pmf m' [0] 0 = sum_pmf m [0] 0
  | _, _ => False
  end.
Proof.
  destruct tp0 as [m|e] eqn:E; [|discriminate E].
  destruct tp_offset as [m'|e] eqn:E'; [|discriminate E'].
  destruct (@tp_single_built None 0%Z m E ltac:(lia))
    as (_ & He & HX & Ht & _).
  destruct (@tp_single_built (Some [1]) 0%Z m' E' ltac:(lia))
    as (_ & He' & HX' & Ht' & _).
  destruct (TruncatedPoisson_init_ok _ _ _ _ _ _ _ E) as (_ & Hm & _).
  destruct (TruncatedPoisson_init_ok _ _ _ _ _ _ _ E') as (_ & Hm' & _).
  destruct (@truncated_mass_ignores_context R Float64_R m m' [0])
    as [Hsum _].
  - now rewrite He, He'.
  - now rewrite HX, HX'.
  - now rewrite Ht, Ht'.
  - now rewrite Hm, Hm'.
  - exact (Hsum 0%nat).
Defined.
End FurtherExamples.
